(** * Notification service: retry state machine and batch publisher

    A shallow embedding of [app/services/notification_service.py],
    [app/core/rabbitmq.py], [app/core/mongodb.py], [app/models/notification.py],
    [app/routers/notifications.py] and the start-up, shutdown and health
    endpoint of [app/main.py].

    Python dictionaries are finite maps from field names to values, the
    [notifications] collection is the list of its documents in insertion
    order, and every coroutine is a function of the world it runs in: it
    returns or raises, and leaves a new world.  The three external
    collaborators (document store, broker, delivery transport) are driven by
    fault scripts held in the world, so that every [try]/[except] of the
    source has both of its branches in the model.  The connection
    management runs in a node: the world together with the class attributes
    of [RabbitMQ] and [MongoDB], the connections and clients made so far and
    the tasks of the event loop. *)

From stdpp Require Import base option list gmap strings pretty.
From Stdlib Require Import ZArith Lia.

Open Scope Z_scope.
Open Scope string_scope.
Open Scope list_scope.

(** ** Values and documents *)

(** [app/models/notification.py]: both enumerations derive from [str]; the
    store and the queue hold the string. *)
Inductive NotificationType := EMAIL | SMS | IN_APP.
Inductive NotificationStatus := PENDING | SENT | FAILED.

Definition type_value (t : NotificationType) : string :=
  match t with EMAIL => "email" | SMS => "sms" | IN_APP => "in_app" end.

Definition status_value (s : NotificationStatus) : string :=
  match s with PENDING => "pending" | SENT => "sent" | FAILED => "failed" end.

Definition type_of_value (s : string) : option NotificationType :=
  if decide (s = "email") then Some EMAIL
  else if decide (s = "sms") then Some SMS
  else if decide (s = "in_app") then Some IN_APP
  else None.

Definition status_of_value (s : string) : option NotificationStatus :=
  if decide (s = "pending") then Some PENDING
  else if decide (s = "sent") then Some SENT
  else if decide (s = "failed") then Some FAILED
  else None.

#[global] Instance NotificationStatus_eq_dec : EqDecision NotificationStatus.
Proof. solve_decision. Defined.

#[global] Instance NotificationType_eq_dec : EqDecision NotificationType.
Proof. solve_decision. Defined.

(** The values a notification dictionary holds: [None], strings, integers,
    [datetime]s (as seconds), the store's [ObjectId]s and the opaque
    [metadata] bag. *)
Inductive value :=
  | VNone
  | VStr (s : string)
  | VInt (z : Z)
  | VDatetime (t : Z)
  | VObjectId (n : nat)
  | VDict (kv : list (string * string)).

#[global] Instance value_eq_dec : EqDecision value.
Proof. solve_decision. Defined.

Abbreviation Doc := (gmap string value).

(** [d.get(k, default)] *)
Definition dict_get (d : Doc) (k : string) (default : value) : value :=
  match d !! k with Some v => v | None => default end.

(** The exceptions the modelled code can raise. *)
Inductive exn :=
  | HTTPException (status_code : Z)
  | AttributeError
  | KeyError
  | TypeError
  | ValidationError
  | StoreError
  | BrokerError
  | TransportError.

#[global] Instance exn_eq_dec : EqDecision exn.
Proof. solve_decision. Defined.

(** [fastapi.status] *)
Definition HTTP_404_NOT_FOUND : Z := 404.
Definition HTTP_500_INTERNAL_SERVER_ERROR : Z := 500.

(** ** The world *)

(** [aio_pika.Message] as built by [publish_message]; [body] stands for the
    JSON encoding of the dictionary. *)
Record Message := {
  body : Doc;
  content_type : string;
  timestamp : Z
}.

(** What an execution does to its collaborators, in order. *)
Inductive Event :=
  | EvAcquire                                   (* [async with cls._batch_lock] entered *)
  | EvRelease                                   (* ... and left *)
  | EvAppend (m : Message)                      (* [_message_batch.append] *)
  | EvFlush (batch : list Message)              (* [_publish_batch] past its guard *)
  | EvPublish (m : Message) (attempt : Z) (ok : bool)  (* [default_exchange.publish] *)
  | EvClear                                     (* [_message_batch.clear()] *)
  | EvSleep (secs : Z)                          (* [asyncio.sleep] *)
  | EvDeliver (n : Doc) (ok : bool)             (* the transport of [_send_notification] *)
  | EvUpdate (id : value) (fields : list (string * value)). (* [update_one] reached the store *)

#[global] Instance Message_eq_dec : EqDecision Message.
Proof. solve_decision. Defined.

#[global] Instance Event_eq_dec : EqDecision Event.
Proof. solve_decision. Defined.

Record World := {
  notifications : list Doc;     (* [db.notifications], in insertion order *)
  next_oid : nat;               (* next [ObjectId] the store hands out *)
  store_faults : list bool;     (* [true]: the next store call raises *)
  _message_batch : list Message;(* [RabbitMQ._message_batch] *)
  broker_queue : list Message;  (* messages the broker accepted *)
  broker_faults : list bool;    (* [true]: the next publish attempt raises *)
  transport_faults : list bool; (* [true]: the next delivery raises *)
  clock : Z;                    (* [datetime.utcnow()], in seconds *)
  uuid_calls : nat;             (* number of [uuid.uuid4()] calls so far *)
  trace : list Event            (* newest event last *)
}.

Definition set_notifications (ds : list Doc) (w : World) : World :=
  {| notifications := ds; next_oid := next_oid w; store_faults := store_faults w;
     _message_batch := _message_batch w; broker_queue := broker_queue w;
     broker_faults := broker_faults w; transport_faults := transport_faults w;
     clock := clock w; uuid_calls := uuid_calls w; trace := trace w |}.

Definition set_next_oid (n : nat) (w : World) : World :=
  {| notifications := notifications w; next_oid := n; store_faults := store_faults w;
     _message_batch := _message_batch w; broker_queue := broker_queue w;
     broker_faults := broker_faults w; transport_faults := transport_faults w;
     clock := clock w; uuid_calls := uuid_calls w; trace := trace w |}.

Definition set_store_faults (fs : list bool) (w : World) : World :=
  {| notifications := notifications w; next_oid := next_oid w; store_faults := fs;
     _message_batch := _message_batch w; broker_queue := broker_queue w;
     broker_faults := broker_faults w; transport_faults := transport_faults w;
     clock := clock w; uuid_calls := uuid_calls w; trace := trace w |}.

Definition set_message_batch (b : list Message) (w : World) : World :=
  {| notifications := notifications w; next_oid := next_oid w;
     store_faults := store_faults w;
     _message_batch := b; broker_queue := broker_queue w;
     broker_faults := broker_faults w; transport_faults := transport_faults w;
     clock := clock w; uuid_calls := uuid_calls w; trace := trace w |}.

Definition set_broker_queue (q : list Message) (w : World) : World :=
  {| notifications := notifications w; next_oid := next_oid w;
     store_faults := store_faults w;
     _message_batch := _message_batch w; broker_queue := q;
     broker_faults := broker_faults w; transport_faults := transport_faults w;
     clock := clock w; uuid_calls := uuid_calls w; trace := trace w |}.

Definition set_broker_faults (fs : list bool) (w : World) : World :=
  {| notifications := notifications w; next_oid := next_oid w;
     store_faults := store_faults w;
     _message_batch := _message_batch w; broker_queue := broker_queue w;
     broker_faults := fs; transport_faults := transport_faults w;
     clock := clock w; uuid_calls := uuid_calls w; trace := trace w |}.

Definition set_transport_faults (fs : list bool) (w : World) : World :=
  {| notifications := notifications w; next_oid := next_oid w;
     store_faults := store_faults w;
     _message_batch := _message_batch w; broker_queue := broker_queue w;
     broker_faults := broker_faults w; transport_faults := fs;
     clock := clock w; uuid_calls := uuid_calls w; trace := trace w |}.

Definition set_clock (t : Z) (w : World) : World :=
  {| notifications := notifications w; next_oid := next_oid w;
     store_faults := store_faults w;
     _message_batch := _message_batch w; broker_queue := broker_queue w;
     broker_faults := broker_faults w; transport_faults := transport_faults w;
     clock := t; uuid_calls := uuid_calls w; trace := trace w |}.

Definition set_uuid_calls (n : nat) (w : World) : World :=
  {| notifications := notifications w; next_oid := next_oid w;
     store_faults := store_faults w;
     _message_batch := _message_batch w; broker_queue := broker_queue w;
     broker_faults := broker_faults w; transport_faults := transport_faults w;
     clock := clock w; uuid_calls := n; trace := trace w |}.

Definition set_trace (tr : list Event) (w : World) : World :=
  {| notifications := notifications w; next_oid := next_oid w;
     store_faults := store_faults w;
     _message_batch := _message_batch w; broker_queue := broker_queue w;
     broker_faults := broker_faults w; transport_faults := transport_faults w;
     clock := clock w; uuid_calls := uuid_calls w; trace := tr |}.

(** ** Coroutines: state and exceptions *)

Inductive outcome (A : Type) :=
  | Returns (a : A)
  | Raises (e : exn).
Arguments Returns {A} a.
Arguments Raises {A} e.

(** A coroutine run to completion.  The world is kept when it raises: what
    was written before the exception stays written. *)
Definition M (A : Type) : Type := World -> outcome A * World.

#[global] Instance M_ret : MRet M := fun A a w => (Returns a, w).

#[global] Instance M_bind : MBind M := fun A B k m w =>
  match m w with
  | (Returns a, w') => k a w'
  | (Raises e, w') => (Raises e, w')
  end.

Definition raise {A} (e : exn) : M A := fun w => (Raises e, w).

(** [try: m  except Exception as e: h e] *)
Definition try_except {A} (m : M A) (h : exn -> M A) : M A := fun w =>
  match m w with
  | (Returns a, w') => (Returns a, w')
  | (Raises e, w') => h e w'
  end.

Definition get_world : M World := fun w => (Returns w, w).
Definition modify (f : World -> World) : M unit := fun w => (Returns tt, f w).
Definition emit (e : Event) : M unit := modify (fun w => set_trace (trace w ++ [e]) w).

(** [datetime.utcnow()] *)
Definition utcnow : M Z := fun w => (Returns (clock w), w).

(** [await asyncio.sleep(secs)]: a delay that is not positive takes no time. *)
Definition sleep (secs : Z) : M unit :=
  emit (EvSleep secs) ;; modify (fun w => set_clock (clock w + Z.max 0 secs) w).

(** ** The document store ([motor] collection [db.notifications])

    The store is an external collaborator; these definitions follow the
    documented behaviour of the calls the service makes.  Every call first
    reaches the server, which is where it can raise. *)

Definition store_call : M unit := fun w =>
  match store_faults w with
  | true :: fs => (Raises StoreError, set_store_faults fs w)
  | false :: fs => (Returns tt, set_store_faults fs w)
  | [] => (Returns tt, w)
  end.

(** The filter [{"id": v}]: the field equals [v]; a filter on [None] also
    selects the documents that lack the field. *)
Definition matches_id (v : value) (d : Doc) : bool :=
  match d !! "id" with
  | Some x => bool_decide (x = v)
  | None => bool_decide (v = VNone)
  end.

Fixpoint find_first (p : Doc -> bool) (ds : list Doc) : option Doc :=
  match ds with
  | [] => None
  | d :: rest => if p d then Some d else find_first p rest
  end.

Fixpoint replace_first (p : Doc -> bool) (g : Doc -> Doc) (ds : list Doc) : list Doc :=
  match ds with
  | [] => []
  | d :: rest => if p d then g d :: rest else d :: replace_first p g rest
  end.

(** [{"$set": fields}] applied to one document. *)
Definition apply_set (fields : list (string * value)) (d : Doc) : Doc :=
  foldl (fun acc kv => <[kv.1 := kv.2]> acc) d fields.

Record UpdateResult := {
  matched_count : Z;
  modified_count : Z
}.

(** [update_one({"id": v}, {"$set": fields})]: the first matching document is
    rewritten; [modified_count] counts it only when the rewrite changed it. *)
Definition update_one (v : value) (fields : list (string * value)) : M UpdateResult :=
  store_call ;;
  emit (EvUpdate v fields) ;;
  w ← get_world ;
  let found := find_first (matches_id v) (notifications w) in
  modify (set_notifications
            (replace_first (matches_id v) (apply_set fields) (notifications w))) ;;
  mret {| matched_count := if found is Some _ then 1 else 0;
          modified_count :=
            match found with
            | Some d => if decide (apply_set fields d = d) then 0 else 1
            | None => 0
            end |}.

(** [find_one({"id": v})] *)
Definition find_one (v : value) : M (option Doc) :=
  store_call ;;
  w ← get_world ;
  mret (find_first (matches_id v) (notifications w)).

(** [insert_one(doc)]: a document without ["_id"] is given a fresh one, in
    the caller's dictionary too, which is why the dictionary is returned. *)
Definition insert_one (doc : Doc) : M Doc :=
  store_call ;;
  w ← get_world ;
  let doc' :=
    match doc !! "_id" with
    | Some _ => doc
    | None => <["_id" := VObjectId (next_oid w)]> doc
    end in
  modify (fun w => set_next_oid (S (next_oid w))
                     (set_notifications (notifications w ++ [doc']) w)) ;;
  mret doc'.

(** ** [app/core/config.py] *)

Record Settings := {
  RABBITMQ_QUEUE_NAME : string;
  RABBITMQ_PREFETCH_COUNT : Z;
  RABBITMQ_BATCH_SIZE : Z;
  RABBITMQ_BATCH_TIMEOUT : Z
}.

Definition default_settings : Settings :=
  {| RABBITMQ_QUEUE_NAME := "notifications";
     RABBITMQ_PREFETCH_COUNT := 10;
     RABBITMQ_BATCH_SIZE := 10;
     RABBITMQ_BATCH_TIMEOUT := 5 |}.

(** ** [app/core/rabbitmq.py] *)

Section RabbitMQ.
Context (settings : Settings).

(** [async with cls._batch_lock: body]: the lock is released on the way
    out, whether [body] returns or raises.  Operations run one after the
    other here, so the lock is free whenever one of them asks for it; what
    the trace keeps is which events fall between [EvAcquire] and
    [EvRelease]. *)
Definition with_batch_lock {A} (body : M A) : M A :=
  emit EvAcquire ;;
  try_except (a ← body ; emit EvRelease ;; mret a)
             (fun e => emit EvRelease ;; raise e).

(** One pass through the body of [for attempt in range(1, max_retries + 1)]:
    lease a channel and publish; any exception is caught by the loop. *)
Definition channel_publish (message : Message) (attempt : Z) : M bool := fun w =>
  match broker_faults w with
  | true :: fs =>
      (Returns false,
       set_trace (trace w ++ [EvPublish message attempt false]) (set_broker_faults fs w))
  | false :: fs =>
      (Returns true,
       set_trace (trace w ++ [EvPublish message attempt true])
         (set_broker_queue (broker_queue w ++ [message]) (set_broker_faults fs w)))
  | [] =>
      (Returns true,
       set_trace (trace w ++ [EvPublish message attempt true])
         (set_broker_queue (broker_queue w ++ [message]) w))
  end.

(** The inner loop of [_publish_batch], from [attempt] on, with [fuel]
    iterations left of the [range]. *)
Fixpoint publish_attempts (max_retries retry_delay : Z) (message : Message)
    (attempt : Z) (fuel : nat) : M unit :=
  match fuel with
  | O => mret tt
  | S fuel' =>
      ok ← channel_publish message attempt ;
      if ok : bool then mret tt
      else
        (if decide (attempt = max_retries) then mret tt else sleep retry_delay) ;;
        publish_attempts max_retries retry_delay message (attempt + 1) fuel'
  end.

Fixpoint for_each {A} (f : A -> M unit) (l : list A) : M unit :=
  match l with
  | [] => mret tt
  | x :: rest => f x ;; for_each f rest
  end.

Definition _publish_batch : M unit :=
  w ← get_world ;
  match _message_batch w with
  | [] => mret tt
  | batch =>
      let max_retries := 3 in
      let retry_delay := 1 in
      emit (EvFlush batch) ;;
      for_each (fun message =>
                  publish_attempts max_retries retry_delay message 1 (Z.to_nat max_retries))
               batch ;;
      emit EvClear ;;
      modify (set_message_batch [])
  end.

(** [json.dumps(message, default=str)] cannot fail on a dictionary with
    string keys, so building the message raises nothing. *)
Definition publish_message (message : Doc) : M unit :=
  with_batch_lock (
    now ← utcnow ;
    let msg := {| body := message; content_type := "application/json";
                  timestamp := now |} in
    emit (EvAppend msg) ;;
    modify (fun w => set_message_batch (_message_batch w ++ [msg]) w) ;;
    w ← get_world ;
    if decide (Z.of_nat (length (_message_batch w)) >= RABBITMQ_BATCH_SIZE settings)
    then _publish_batch
    else mret tt).

(** One turn of the [while True] loop of [_process_batch]. *)
Definition _process_batch_tick : M unit :=
  sleep (RABBITMQ_BATCH_TIMEOUT settings) ;;
  with_batch_lock (
    w ← get_world ;
    match _message_batch w with
    | [] => mret tt
    | _ => _publish_batch
    end).

(** [_process_batch], cut after [ticks] turns of its loop. *)
Fixpoint _process_batch (ticks : nat) : M unit :=
  match ticks with
  | O => mret tt
  | S n => _process_batch_tick ;; _process_batch n
  end.

End RabbitMQ.

(** ** [app/models/notification.py]: the pydantic models *)

Module NotificationCreate.
Record t := {
  user_id : string;
  type : NotificationType;
  title : string;
  message : string;
  metadata : option (list (string * string));
  id : option string;
  priority : option string
}.
End NotificationCreate.

Module Notification.
Record t := {
  user_id : string;
  type : NotificationType;
  title : string;
  message : string;
  metadata : option (list (string * string));
  id : string;
  status : NotificationStatus;
  created_at : Z;
  sent_at : option Z;
  failed_at : option Z;
  error : option string;
  retry_count : Z;
  max_retries : Z
}.
End Notification.

(** [str.isspace] on the ASCII range, for [v.strip()]. *)
Definition is_space (a : Ascii.ascii) : bool :=
  let n := Ascii.nat_of_ascii a in
  ((9 <=? n)%nat && (n <=? 13)%nat) || ((28 <=? n)%nat && (n <=? 32)%nat).

Fixpoint all_space (s : string) : bool :=
  match s with
  | EmptyString => true
  | String a rest => is_space a && all_space rest
  end.

Definition length_between (lo hi : nat) (s : string) : bool :=
  (lo <=? String.length s)%nat && (String.length s <=? hi)%nat.

(** The [Field] constraints of [NotificationBase] and [Notification], and
    the [validate_message] validator. *)
Definition validate_notification (n : Notification.t) : bool :=
  (1 <=? String.length (Notification.user_id n))%nat
  && length_between 1 200 (Notification.title n)
  && length_between 1 1000 (Notification.message n)
  && negb (all_space (Notification.message n))
  && (0 <=? Notification.retry_count n)%Z
  && (0 <=? Notification.max_retries n)%Z.

Definition get_str (d : Doc) (k : string) : option string :=
  match d !! k with Some (VStr s) => Some s | _ => None end.

Definition get_int (d : Doc) (k : string) : option Z :=
  match d !! k with Some (VInt z) => Some z | _ => None end.

Definition get_datetime (d : Doc) (k : string) : option Z :=
  match d !! k with Some (VDatetime t) => Some t | _ => None end.

(** An [Optional] field read with [doc.get(k)]: absent and [None] are the
    same; [Some None] is a value of the wrong type. *)
Definition get_opt {A} (d : Doc) (k : string) (read : value -> option A) : option (option A) :=
  match d !! k with
  | None | Some VNone => Some None
  | Some v => match read v with Some a => Some (Some a) | None => None end
  end.

Definition read_datetime (v : value) : option Z :=
  match v with VDatetime t => Some t | _ => None end.
Definition read_str (v : value) : option string :=
  match v with VStr s => Some s | _ => None end.
Definition read_int (v : value) : option Z :=
  match v with VInt z => Some z | _ => None end.
Definition read_dict (v : value) : option (list (string * string)) :=
  match v with VDict kv => Some kv | _ => None end.

Definition get_opt_dict (v : value) : option (option (list (string * string))) :=
  match v with
  | VNone => Some None
  | VDict kv => Some (Some kv)
  | _ => None
  end.

(** [Notification(id=doc["id"], ..., metadata=doc.get("metadata", {}))] as
    [get_notification] builds it.  A missing required key is a [KeyError], a
    rejected field a validation error; both are exceptions to the caller, so
    both are [None] here.  Fields are read at their declared type: the
    coercions pydantic applies to values of other types are not modelled,
    and such a document is rejected. *)
Definition Notification_of_doc (default_max_retries : Z) (d : Doc) : option Notification.t :=
  id ← get_str d "id" ;
  user_id ← get_str d "user_id" ;
  title ← get_str d "title" ;
  message ← get_str d "message" ;
  type ← get_str d "type" ≫= type_of_value ;
  status ← get_str d "status" ≫= status_of_value ;
  created_at ← get_datetime d "created_at" ;
  sent_at ← get_opt d "sent_at" read_datetime ;
  failed_at ← get_opt d "failed_at" read_datetime ;
  error ← get_opt d "error" read_str ;
  retry_count ← read_int (dict_get d "retry_count" (VInt 0)) ;
  max_retries ← read_int (dict_get d "max_retries" (VInt default_max_retries)) ;
  metadata ← get_opt_dict (dict_get d "metadata" (VDict [])) ;
  let n := {| Notification.user_id := user_id; Notification.type := type;
              Notification.title := title; Notification.message := message;
              Notification.metadata := metadata; Notification.id := id;
              Notification.status := status; Notification.created_at := created_at;
              Notification.sent_at := sent_at; Notification.failed_at := failed_at;
              Notification.error := error; Notification.retry_count := retry_count;
              Notification.max_retries := max_retries |} in
  if validate_notification n then Some n else None.

(** ** [app/services/notification_service.py] *)

Record NotificationService := {
  max_retries : Z;    (* maximum number of retry attempts *)
  retry_delay : Z     (* base delay in seconds between retries *)
}.

(** [NotificationService.__init__] *)
Definition NotificationService_init : NotificationService :=
  {| max_retries := 3; retry_delay := 60 |}.

(** [notification[k]] *)
Definition getitem (d : Doc) (k : string) : M value :=
  match d !! k with
  | Some v => mret v
  | None => raise KeyError
  end.

(** [v >= n] for an integer [n]: only an integer is ordered against one. *)
Definition py_ge (v : value) (n : Z) : M bool :=
  match v with
  | VInt z => mret (bool_decide (z >= n))
  | _ => raise TypeError
  end.

(** [v + n] for an integer [n], as far as the service uses it. *)
Definition py_add (v : value) (n : Z) : M Z :=
  match v with
  | VInt z => mret (z + n)
  | _ => raise TypeError
  end.

(** [self.retry_delay * (2 ** retry_count)]; Python yields an integer for
    [retry_count >= 0], which is where this definition agrees with it. *)
Definition backoff_delay (self : NotificationService) (retry_count : Z) : Z :=
  retry_delay self * 2 ^ retry_count.

Section NotificationService.
Context (settings : Settings).
Context (uuid4 : nat -> string).
Context (self : NotificationService).

(** [str(uuid.uuid4())] *)
Definition new_uuid : M string := fun w =>
  (Returns (uuid4 (uuid_calls w)), set_uuid_calls (S (uuid_calls w)) w).

(** The channel-specific transport.  The source has a placeholder where it
    belongs, inside the [try] of [_send_notification]; with an empty fault
    script this is the placeholder as it stands, which sends nothing and
    never raises. *)
Definition transport (notification : Doc) : M unit := fun w =>
  match transport_faults w with
  | true :: fs =>
      (Raises TransportError,
       set_trace (trace w ++ [EvDeliver notification false]) (set_transport_faults fs w))
  | false :: fs =>
      (Returns tt,
       set_trace (trace w ++ [EvDeliver notification true]) (set_transport_faults fs w))
  | [] =>
      (Returns tt, set_trace (trace w ++ [EvDeliver notification true]) w)
  end.

Definition _send_notification (notification : Doc) : M bool :=
  try_except
    (sleep 1 ;;
     let notification_type := dict_get notification "type" (VStr "in_app") in
     transport notification ;;
     mret true)
    (fun e => mret false).

Definition _mark_as_sent (notification_id : value) : M unit :=
  now ← utcnow ;
  update_one notification_id
    [("status", VStr (status_value SENT)); ("sent_at", VDatetime now)] ;;
  mret tt.

Definition _mark_as_failed (notification_id : value) : M unit :=
  now ← utcnow ;
  update_one notification_id
    [("status", VStr (status_value FAILED)); ("failed_at", VDatetime now)] ;;
  mret tt.

Definition _schedule_retry (notification : Doc) : M unit :=
  retry_count ← py_add (dict_get notification "retry_count" (VInt 0)) 1 ;
  let delay := backoff_delay self retry_count in
  notification_id ← getitem notification "id" ;
  now ← utcnow ;
  update_one notification_id
    [("retry_count", VInt retry_count); ("last_retry", VDatetime now);
     ("status", VStr (status_value PENDING))] ;;
  publish_message settings notification.

Definition process_notification (notification : Doc) : M bool :=
  try_except
    (exhausted ← py_ge (dict_get notification "retry_count" (VInt 0)) (max_retries self) ;
     if exhausted : bool then
       notification_id ← getitem notification "id" ;
       _mark_as_failed notification_id ;;
       mret false
     else
       success ← _send_notification notification ;
       if success : bool then
         notification_id ← getitem notification "id" ;
         _mark_as_sent notification_id ;;
         mret true
       else
         _schedule_retry notification ;;
         mret false)
    (fun e =>
       notification_id ← getitem notification "id" ;
       _mark_as_failed notification_id ;;
       mret false).

Definition get_notification (notification_id : string) : M (option Notification.t) :=
  try_except
    (notification_doc ← find_one (VStr notification_id) ;
     match notification_doc with
     | None => mret None
     | Some doc =>
         match Notification_of_doc (max_retries self) doc with
         | Some n => mret (Some n)
         | None => raise ValidationError
         end
     end)
    (fun e => raise (HTTPException HTTP_500_INTERNAL_SERVER_ERROR)).

(** Inside [update_status] the name [status] is the parameter, a
    [NotificationStatus]: it hides the module [fastapi.status] imported
    under the same name.  [status.HTTP_404_NOT_FOUND] is therefore an
    attribute lookup on the enumeration member, which has no attribute of
    an [HTTP_...] name. *)
Definition status_getattr (status : NotificationStatus) (name : string) : M Z :=
  raise AttributeError.

Definition update_status (notification_id : string) (status : NotificationStatus)
    : M Notification.t :=
  try_except
    (now ← utcnow ;
     result ← update_one (VStr notification_id)
       [("status", VStr (status_value status));
        ("sent_at", if decide (status = SENT) then VDatetime now else VNone);
        ("failed_at", if decide (status = FAILED) then VDatetime now else VNone)] ;
     (if decide (modified_count result = 0) then
        status_code ← status_getattr status "HTTP_404_NOT_FOUND" ;
        raise (HTTPException status_code)
      else mret tt) ;;
     notification ← get_notification notification_id ;
     match notification with
     | None =>
         status_code ← status_getattr status "HTTP_404_NOT_FOUND" ;
         raise (HTTPException status_code)
     | Some n => mret n
     end)
    (fun e =>
       match e with
       | HTTPException _ => raise e
       | _ =>
           status_code ← status_getattr status "HTTP_500_INTERNAL_SERVER_ERROR" ;
           raise (HTTPException status_code)
       end).

(** The dictionary [notification_doc] of [create_notification]. *)
Definition new_notification_doc (notification : NotificationCreate.t)
    (notification_id : string) (created_at : Z) : Doc :=
  <["id" := VStr notification_id]>
  (<["user_id" := VStr (NotificationCreate.user_id notification)]>
  (<["title" := VStr (NotificationCreate.title notification)]>
  (<["message" := VStr (NotificationCreate.message notification)]>
  (<["type" := VStr (type_value (NotificationCreate.type notification))]>
  (<["status" := VStr (status_value PENDING)]>
  (<["created_at" := VDatetime created_at]>
  (<["retry_count" := VInt 0]>
  (<["max_retries" := VInt (max_retries self)]>
  (<["metadata" := VDict (default [] (NotificationCreate.metadata notification))]>
     ∅))))))))).

Definition create_notification (notification : NotificationCreate.t) : M Notification.t :=
  try_except
    (notification_id ← new_uuid ;
     created_at ← utcnow ;
     let notification_doc := new_notification_doc notification notification_id created_at in
     stored ← insert_one notification_doc ;
     publish_message settings stored ;;
     let n :=
       {| Notification.user_id := NotificationCreate.user_id notification;
          Notification.type := NotificationCreate.type notification;
          Notification.title := NotificationCreate.title notification;
          Notification.message := NotificationCreate.message notification;
          Notification.metadata := Some (default [] (NotificationCreate.metadata notification));
          Notification.id := notification_id;
          Notification.status := PENDING;
          Notification.created_at := created_at;
          Notification.sent_at := None;
          Notification.failed_at := None;
          Notification.error := None;
          Notification.retry_count := 0;
          Notification.max_retries := max_retries self |} in
     if validate_notification n then mret n else raise ValidationError)
    (fun e => raise (HTTPException HTTP_500_INTERNAL_SERVER_ERROR)).

End NotificationService.

(** ** Reading traces *)

(** The events a flush produces between its [EvFlush] and its [EvClear]:
    publish attempts and the one-second pauses between them. *)
Definition is_attempt_event (e : Event) : bool :=
  match e with
  | EvPublish _ _ _ => true
  | EvSleep secs => bool_decide (secs = 1)
  | _ => false
  end.

Definition is_flush_event (e : Event) : bool :=
  match e with EvFlush _ => true | _ => false end.

(** Number of flushes in a trace. *)
Definition count_flushes (tr : list Event) : nat :=
  length (filter (fun e => is_flush_event e = true) tr).

(** Every publish attempt of the trace is made while the lock is held and
    before the buffer is cleared. [held] and [cleared] are the state of the
    lock and of the current flush at the start of the trace. *)
Fixpoint publishes_under_lock (held cleared : bool) (tr : list Event) : bool :=
  match tr with
  | [] => true
  | EvAcquire :: rest => publishes_under_lock true cleared rest
  | EvRelease :: rest => publishes_under_lock false cleared rest
  | EvFlush _ :: rest => publishes_under_lock held false rest
  | EvClear :: rest => publishes_under_lock held true rest
  | EvPublish _ _ _ :: rest => held && negb cleared && publishes_under_lock held cleared rest
  | _ :: rest => publishes_under_lock held cleared rest
  end.

(** The order the specification describes: the buffer is drained under the
    lock, and every publish attempt comes after the drain and after the
    release of the lock. *)
Fixpoint publishes_after_drain (held cleared : bool) (tr : list Event) : bool :=
  match tr with
  | [] => true
  | EvAcquire :: rest => publishes_after_drain true cleared rest
  | EvRelease :: rest => publishes_after_drain false cleared rest
  | EvFlush _ :: rest => publishes_after_drain held false rest
  | EvClear :: rest => held && publishes_after_drain held true rest
  | EvPublish _ _ _ :: rest => negb held && cleared && publishes_after_drain held cleared rest
  | _ :: rest => publishes_after_drain held cleared rest
  end.

(** What the publisher leaves alone. *)
Record publisher_frame (w w' : World) : Prop := {
  pf_notifications : notifications w' = notifications w;
  pf_next_oid : next_oid w' = next_oid w;
  pf_store_faults : store_faults w' = store_faults w;
  pf_transport_faults : transport_faults w' = transport_faults w;
  pf_uuid_calls : uuid_calls w' = uuid_calls w;
  pf_clock : clock w <= clock w'
}.

(** The message [publish_message] builds from a dictionary. *)
Definition message_of (message : Doc) (w : World) : Message :=
  {| body := message; content_type := "application/json"; timestamp := clock w |}.


(** [m] keeps [I], whether it returns or raises. *)
Definition preserves {A} (I : World -> Prop) (m : M A) : Prop :=
  forall w, I w -> I (m w).2.

(** Every stored document satisfies [P]. *)
Definition store_inv (P : Doc -> Prop) (w : World) : Prop :=
  Forall P (notifications w).

(** ** Operations and reachable worlds *)

(** What the environment may do between two operations: time passes and the
    collaborators change their mood. *)
Record environment_step (w w' : World) : Prop := {
  env_notifications : notifications w' = notifications w;
  env_next_oid : next_oid w' = next_oid w;
  env_message_batch : _message_batch w' = _message_batch w;
  env_broker_queue : broker_queue w' = broker_queue w;
  env_uuid_calls : uuid_calls w' = uuid_calls w;
  env_trace : trace w' = trace w;
  env_clock : clock w <= clock w'
}.

Section Operations.
Context (settings : Settings).
Context (uuid4 : nat -> string).
Context (self : NotificationService).

(** One operation of the service or of its background timer. [process] is
    fed any dictionary, as a consumer of the queue would feed it. *)
Inductive step : World -> World -> Prop :=
  | step_create notification w :
      step w (create_notification settings uuid4 self notification w).2
  | step_process notification w :
      step w (process_notification settings self notification w).2
  | step_update_status notification_id status w :
      step w (update_status self notification_id status w).2
  | step_get notification_id w :
      step w (get_notification self notification_id w).2
  | step_tick w :
      step w (_process_batch_tick settings w).2
  | step_environment w w' :
      environment_step w w' -> step w w'.

(** At start-up the collection and the buffer are empty. *)
Definition initial (w : World) : Prop :=
  notifications w = [] /\ _message_batch w = [].

Definition reachable (w : World) : Prop :=
  exists w0, initial w0 /\ rtc step w0 w.

End Operations.

(** ** Properties of stored notifications *)



Definition has_status (d : Doc) (s : NotificationStatus) : Prop :=
  d !! "status" = Some (VStr (status_value s)).






(** The fields [update_status] sets at time [now]. *)
Definition status_fields (status : NotificationStatus) (now : Z) : list (string * value) :=
  [("status", VStr (status_value status));
   ("sent_at", if decide (status = SENT) then VDatetime now else VNone);
   ("failed_at", if decide (status = FAILED) then VDatetime now else VNone)].

(** The store writes, the deliveries and the enqueued messages of a trace. *)
Definition store_writes (tr : list Event) : list (value * list (string * value)) :=
  omap (fun e => match e with EvUpdate v fields => Some (v, fields) | _ => None end) tr.

Definition deliveries (tr : list Event) : list (Doc * bool) :=
  omap (fun e => match e with EvDeliver n ok => Some (n, ok) | _ => None end) tr.

Definition appended (tr : list Event) : list Message :=
  omap (fun e => match e with EvAppend m => Some m | _ => None end) tr.

(** The three writes of the state machine. *)
Definition sent_fields (now : Z) : list (string * value) :=
  [("status", VStr (status_value SENT)); ("sent_at", VDatetime now)].

Definition failed_fields (now : Z) : list (string * value) :=
  [("status", VStr (status_value FAILED)); ("failed_at", VDatetime now)].

Definition retry_fields (retry_count now : Z) : list (string * value) :=
  [("retry_count", VInt retry_count); ("last_retry", VDatetime now);
   ("status", VStr (status_value PENDING))].

(** ** Processing the same dictionary again and again *)


(** ** Scenarios *)

Definition demo_uuid4 (n : nat) : string := "uuid-" +:+ pretty n.

Definition empty_world : World :=
  {| notifications := []; next_oid := 0; store_faults := []; _message_batch := [];
     broker_queue := []; broker_faults := []; transport_faults := []; clock := 0;
     uuid_calls := 0; trace := [] |}.

(** Scenario 1 of the specification. *)
Definition hello : NotificationCreate.t :=
  {| NotificationCreate.user_id := "u1"; NotificationCreate.type := IN_APP;
     NotificationCreate.title := "Hi"; NotificationCreate.message := "there";
     NotificationCreate.metadata := None; NotificationCreate.id := None;
     NotificationCreate.priority := Some "normal" |}.

(** The world after [hello] was created, and the dictionary that was
    enqueued for it. *)
Definition created : World :=
  (create_notification default_settings demo_uuid4 NotificationService_init hello
     empty_world).2.

Definition queued : Doc :=
  default ∅ (body <$> head (_message_batch created)).

(** A dictionary as the tests of the repository feed it to
    [process_notification]. *)
Definition test_notification (retry_count : Z) : Doc :=
  <["id" := VStr "test-123"]> (<["retry_count" := VInt retry_count]> ∅).

(** [hello] delivered at the first attempt. *)
Definition delivered : World :=
  (process_notification default_settings NotificationService_init queued created).2.


(** [n] messages published in a row. *)
Fixpoint publish_many (settings : Settings) (n : nat) (w : World) : World :=
  match n with
  | O => w
  | S n' =>
      (publish_message settings (test_notification (Z.of_nat n'))
         (publish_many settings n' w)).2
  end.

(** The events an operation added to a trace. *)
Definition new_events (before after : World) : list Event :=
  drop (length (trace before)) (trace after).

(** Two deliveries of [hello] that raise, the second one fed from the
    message the first one resubmitted. *)
Definition failing_twice : World := set_transport_faults [true; true] created.

Definition failed_once : World :=
  (process_notification default_settings NotificationService_init queued failing_twice).2.

Definition resubmitted : Doc :=
  default ∅ (body <$> last (_message_batch failed_once)).

Definition failed_twice : World :=
  (process_notification default_settings NotificationService_init resubmitted
     failed_once).2.

(** A batch size of one: every publish flushes. *)
Definition eager_settings : Settings :=
  {| RABBITMQ_QUEUE_NAME := "notifications"; RABBITMQ_PREFETCH_COUNT := 10;
     RABBITMQ_BATCH_SIZE := 1; RABBITMQ_BATCH_TIMEOUT := 5 |}.

(** Scenario 4: the broker refuses three attempts in a row. *)
Definition broker_down : World := set_broker_faults [true; true; true] empty_world.

Definition dropped : World :=
  (publish_message eager_settings (test_notification 0) broker_down).2.

(** The same override twice. *)
Definition overridden_pending : World :=
  (update_status NotificationService_init "uuid-0" PENDING created).2.

(** A queued dictionary whose [retry_count] is a string. *)
Definition malformed : Doc := <["retry_count" := VStr "0"]> queued.

Definition malformed_processed : World :=
  (process_notification default_settings NotificationService_init malformed created).2.


(** The timer fires while the message of [hello] is buffered. *)
Definition ticked : World := (_process_batch_tick default_settings created).2.



(** The store is unreachable for two calls in a row. *)
Definition store_down : World := set_store_faults [true; true] empty_world.

(** Nine messages buffered, batch size ten. *)
Definition nine_buffered : World := publish_many default_settings 9 empty_world.

(** ** More of the models and of the data model *)

(** The [Field] constraints of [NotificationBase] and its [validate_message]
    validator: what every [NotificationCreate] instance satisfies. *)
Definition validate_create (c : NotificationCreate.t) : bool :=
  (1 <=? String.length (NotificationCreate.user_id c))%nat
  && length_between 1 200 (NotificationCreate.title c)
  && length_between 1 1000 (NotificationCreate.message c)
  && negb (all_space (NotificationCreate.message c)).

(** The fields no operation of the service ever puts in a [$set]. *)
Definition immutable_fields : list string :=
  ["_id"; "id"; "user_id"; "type"; "title"; "message"; "created_at"; "max_retries";
   "metadata"].

Definition same_core (d d' : Doc) : Prop :=
  forall k, k ∈ immutable_fields -> d' !! k = d !! k.

(** The collection [ds'] is [ds] with fields outside the core rewritten in
    place, followed by newer documents. *)
Definition grown_from (ds ds' : list Doc) : Prop :=
  exists kept newer, ds' = kept ++ newer /\ Forall2 same_core ds kept.

(** The status of a stored document is one of the three. *)
Definition status_known (d : Doc) : Prop :=
  exists s, has_status d s.

(** What [update_status] returns for a record that decodes to [n]: the
    record read back after the override. *)
Definition overridden_notification (n : Notification.t) (status : NotificationStatus)
    (now : Z) : Notification.t :=
  {| Notification.user_id := Notification.user_id n;
     Notification.type := Notification.type n;
     Notification.title := Notification.title n;
     Notification.message := Notification.message n;
     Notification.metadata := Notification.metadata n;
     Notification.id := Notification.id n;
     Notification.status := status;
     Notification.created_at := Notification.created_at n;
     Notification.sent_at := if decide (status = SENT) then Some now else None;
     Notification.failed_at := if decide (status = FAILED) then Some now else None;
     Notification.error := Notification.error n;
     Notification.retry_count := Notification.retry_count n;
     Notification.max_retries := Notification.max_retries n |}.

(** The failures left in a fault script. *)
Definition failures (faults : list bool) : nat :=
  length (filter (fun b => b = true) faults).

(** The [$set] documents the service writes: the three of the state
    machine and the override of [update_status]. *)
Definition service_write (fields : list (string * value)) : Prop :=
  (exists now, fields = sent_fields now)
  \/ (exists now, fields = failed_fields now)
  \/ (exists retry_count now, fields = retry_fields retry_count now)
  \/ (exists status now, fields = status_fields status now).

(** The buffer holds fewer messages than the batch size. *)
Definition buffer_below_batch_size (settings : Settings) (w : World) : Prop :=
  Z.of_nat (length (_message_batch w)) < RABBITMQ_BATCH_SIZE settings.

(** ** [app/routers/notifications.py]: the routes that call the service *)

Module routers.

(** [get_notification_service]: every request is served by a service of its
    own. *)
Definition get_notification_service : NotificationService := NotificationService_init.

(** In this function the name [status] is the module [fastapi.status]. *)
Definition create_notification (settings : Settings) (uuid4 : nat -> string)
    (notification : NotificationCreate.t) (notification_service : NotificationService)
    : M Notification.t :=
  try_except
    (create_notification settings uuid4 notification_service notification)
    (fun e => raise (HTTPException HTTP_500_INTERNAL_SERVER_ERROR)).

(** [if not notification] is taken for [None] only: a model instance is
    never false. *)
Definition get_notification (notification_id : string)
    (notification_service : NotificationService) : M Notification.t :=
  try_except
    (notification ← get_notification notification_service notification_id ;
     match notification with
     | None => raise (HTTPException HTTP_404_NOT_FOUND)
     | Some n => mret n
     end)
    (fun e =>
       match e with
       | HTTPException _ => raise e
       | _ => raise (HTTPException HTTP_500_INTERNAL_SERVER_ERROR)
       end).

(** Here [status] is the query parameter, as in the method it calls. *)
Definition update_notification_status (notification_id : string)
    (status : NotificationStatus) (notification_service : NotificationService)
    : M Notification.t :=
  try_except
    (update_status notification_service notification_id status)
    (fun e =>
       match e with
       | HTTPException _ => raise e
       | _ =>
           status_code ← status_getattr status "HTTP_500_INTERNAL_SERVER_ERROR" ;
           raise (HTTPException status_code)
       end).

End routers.

(** ** [app/core/rabbitmq.py]: the connection and its background tasks

    The buffer and its flushes are modelled above, in the [World].  What
    follows is the rest of the class: the connection, the channel pool and
    the two background tasks.  The broker, the client library and the event
    loop are external; they are modelled from their documented behaviour. *)

(** Besides the exceptions of the service: [RuntimeError], and the
    [CancelledError] that an awaited, cancelled task delivers.  The latter
    is not an [Exception], so [except Exception] lets it through. *)
Inductive error :=
  | Exn (e : exn)
  | RuntimeError
  | CancelledError.

(** A coroutine returns, raises, or stays suspended forever. *)
Inductive result (A : Type) :=
  | Done (a : A)
  | Failed (e : error)
  | Hangs.
Arguments Done {A} a.
Arguments Failed {A} e.
Arguments Hangs {A}.

(** The two loops that [connect] starts as tasks. *)
Inductive Coroutine := Run_process_batch | Run_monitor_connection.

Record Task := {
  coroutine : Coroutine;
  cancelled : bool
}.

(** [aio_pika.pool.Pool]: the channels at rest in it. *)
Record Pool := {
  max_size : Z;
  items : list nat
}.

(** The class attributes of [RabbitMQ], the buffer and its lock apart.
    Connections and tasks are named by handles: their position in the list
    of the connections opened, and of the tasks created, so far. *)
Record RabbitMQ := {
  connection : option nat;
  channel_pool : option Pool;
  queue : option string;
  _batch_task : option nat;
  _connection_task : option nat
}.

(** The class attributes of [MongoDB] in [app/core/mongodb.py]: the client,
    named by its position among the clients made so far, and the database
    taken from a client, named by that client. *)
Record MongoDB := {
  client : option nat;
  db : option nat
}.

Record Node := {
  world : World;
  rabbitmq : RabbitMQ;
  connections : list bool;      (* per connection: [is_closed] *)
  tasks : list Task;
  amqp_faults : list bool;      (* [true]: the next AMQP call raises *)
  mongodb : MongoDB;
  clients : list bool           (* per client made so far: has it been closed *)
}.

Definition set_world (w : World) (s : Node) : Node :=
  {| world := w; rabbitmq := rabbitmq s; connections := connections s;
     tasks := tasks s; amqp_faults := amqp_faults s; mongodb := mongodb s;
     clients := clients s |}.

Definition set_rabbitmq (r : RabbitMQ) (s : Node) : Node :=
  {| world := world s; rabbitmq := r; connections := connections s;
     tasks := tasks s; amqp_faults := amqp_faults s; mongodb := mongodb s;
     clients := clients s |}.

Definition set_connections (cs : list bool) (s : Node) : Node :=
  {| world := world s; rabbitmq := rabbitmq s; connections := cs;
     tasks := tasks s; amqp_faults := amqp_faults s; mongodb := mongodb s;
     clients := clients s |}.

Definition set_tasks (ts : list Task) (s : Node) : Node :=
  {| world := world s; rabbitmq := rabbitmq s; connections := connections s;
     tasks := ts; amqp_faults := amqp_faults s; mongodb := mongodb s;
     clients := clients s |}.

Definition set_amqp_faults (fs : list bool) (s : Node) : Node :=
  {| world := world s; rabbitmq := rabbitmq s; connections := connections s;
     tasks := tasks s; amqp_faults := fs; mongodb := mongodb s;
     clients := clients s |}.

Definition set_mongodb (m : MongoDB) (s : Node) : Node :=
  {| world := world s; rabbitmq := rabbitmq s; connections := connections s;
     tasks := tasks s; amqp_faults := amqp_faults s; mongodb := m;
     clients := clients s |}.

Definition set_clients (n : list bool) (s : Node) : Node :=
  {| world := world s; rabbitmq := rabbitmq s; connections := connections s;
     tasks := tasks s; amqp_faults := amqp_faults s; mongodb := mongodb s;
     clients := n |}.

Definition set_connection (c : option nat) (r : RabbitMQ) : RabbitMQ :=
  {| connection := c; channel_pool := channel_pool r; queue := queue r;
     _batch_task := _batch_task r; _connection_task := _connection_task r |}.

Definition set_channel_pool (p : option Pool) (r : RabbitMQ) : RabbitMQ :=
  {| connection := connection r; channel_pool := p; queue := queue r;
     _batch_task := _batch_task r; _connection_task := _connection_task r |}.

Definition set_queue (q : option string) (r : RabbitMQ) : RabbitMQ :=
  {| connection := connection r; channel_pool := channel_pool r; queue := q;
     _batch_task := _batch_task r; _connection_task := _connection_task r |}.

Definition set__batch_task (t : option nat) (r : RabbitMQ) : RabbitMQ :=
  {| connection := connection r; channel_pool := channel_pool r; queue := queue r;
     _batch_task := t; _connection_task := _connection_task r |}.

Definition set__connection_task (t : option nat) (r : RabbitMQ) : RabbitMQ :=
  {| connection := connection r; channel_pool := channel_pool r; queue := queue r;
     _batch_task := _batch_task r; _connection_task := t |}.

(** Coroutines over a [Node]. *)
Definition NodeM (A : Type) : Type := Node -> result A * Node.

#[global] Instance NodeM_ret : MRet NodeM := fun A a s => (Done a, s).

#[global] Instance NodeM_bind : MBind NodeM := fun A B k m s =>
  match m s with
  | (Done a, s') => k a s'
  | (Failed e, s') => (Failed e, s')
  | (Hangs, s') => (Hangs, s')
  end.

Definition fail {A} (e : error) : NodeM A := fun s => (Failed e, s).

Definition hang {A} : NodeM A := fun s => (Hangs, s).

Definition get_node : NodeM Node := fun s => (Done s, s).

Definition modify_node (f : Node -> Node) : NodeM unit := fun s => (Done tt, f s).

Definition modify_rabbitmq (f : RabbitMQ -> RabbitMQ) : NodeM unit :=
  modify_node (fun s => set_rabbitmq (f (rabbitmq s)) s).

(** A coroutine of the service, run on the [World] of the node. *)
Definition lift {A} (m : M A) : NodeM A := fun s =>
  match m (world s) with
  | (Returns a, w) => (Done a, set_world w s)
  | (Raises e, w) => (Failed (Exn e), set_world w s)
  end.

(** [try: m except Exception as e: h e] *)
Definition except_Exception {A} (m : NodeM A) (h : error -> NodeM A) : NodeM A := fun s =>
  match m s with
  | (Failed CancelledError, s') => (Failed CancelledError, s')
  | (Failed e, s') => h e s'
  | r => r
  end.

(** [try: m except asyncio.CancelledError: h] *)
Definition except_CancelledError {A} (m : NodeM A) (h : NodeM A) : NodeM A := fun s =>
  match m s with
  | (Failed CancelledError, s') => h s'
  | r => r
  end.

(** An AMQP call goes to the broker, which is where it can raise. *)
Definition amqp_call : NodeM unit := fun s =>
  match amqp_faults s with
  | true :: fs => (Failed (Exn BrokerError), set_amqp_faults fs s)
  | false :: fs => (Done tt, set_amqp_faults fs s)
  | [] => (Done tt, s)
  end.

(** [connect_robust(url, timeout=30, reconnect_interval=5)]: a new, open
    connection. *)
Definition connect_robust : NodeM nat :=
  amqp_call ;;
  s ← get_node ;
  modify_node (set_connections (connections s ++ [false])) ;;
  mret (length (connections s)).

Definition is_closed (s : Node) (c : nat) : bool :=
  bool_decide (connections s !! c = Some true).

(** [connection.close()] *)
Definition connection_close (c : nat) : NodeM unit :=
  amqp_call ;;
  modify_node (fun s => set_connections (<[c := true]> (connections s)) s).

(** [channel.declare_queue(name, ...)] and [channel.set_qos(...)] *)
Definition declare_queue (channel : nat) (name : string) : NodeM string :=
  amqp_call ;; mret name.

Definition set_qos (channel : nat) (prefetch_count : Z) : NodeM unit := amqp_call.

(** [asyncio.create_task(coro)] *)
Definition create_task (c : Coroutine) : NodeM nat :=
  s ← get_node ;
  modify_node (set_tasks (tasks s ++ [{| coroutine := c; cancelled := false |}])) ;;
  mret (length (tasks s)).

(** [task.cancel()] *)
Definition cancelled_task (task : Task) : Task :=
  {| coroutine := coroutine task; cancelled := true |}.

Definition cancel_task (t : nat) : NodeM unit :=
  modify_node (fun s => set_tasks (alter cancelled_task t (tasks s)) s).

(** [await task].  Both loops run until they are cancelled, and neither
    catches [CancelledError]: awaiting one that has been cancelled raises
    [CancelledError] in the caller, awaiting one that has not waits forever.
    A handle is always one that [create_task] returned. *)
Definition await_task (t : nat) : NodeM unit := fun s =>
  match tasks s !! t with
  | Some task => if cancelled task then (Failed CancelledError, s) else (Hangs, s)
  | None => (Hangs, s)
  end.

(** [RabbitMQ.get_channel] *)
Definition get_channel : NodeM nat :=
  s ← get_node ;
  match connection (rabbitmq s) with
  | None => fail RuntimeError
  | Some c => amqp_call ;; mret c       (* [cls.connection.channel()] *)
  end.

(** [cls.channel_pool.acquire()]: a channel at rest is handed out again;
    only when there is none does the pool call its constructor,
    [get_channel].  [cls.channel_pool] may still be [None]. *)
Definition acquire : NodeM nat :=
  s ← get_node ;
  match channel_pool (rabbitmq s) with
  | None => fail (Exn AttributeError)
  | Some pool =>
      match items pool with
      | channel :: rest =>
          modify_rabbitmq
            (set_channel_pool (Some {| max_size := max_size pool; items := rest |})) ;;
          mret channel
      | [] => get_channel
      end
  end.

(** Leaving the [async with]. *)
Definition release (channel : nat) : NodeM unit :=
  modify_rabbitmq (fun r =>
    match channel_pool r with
    | Some pool =>
        set_channel_pool
          (Some {| max_size := max_size pool; items := channel :: items pool |}) r
    | None => r
    end).

(** [async with cls.channel_pool.acquire() as channel: body]: the channel
    goes back to the pool whether [body] returns or raises. *)
Definition finally {A} (m : NodeM A) (cleanup : NodeM unit) : NodeM A := fun s =>
  match m s with
  | (Done a, s') => (cleanup ;; mret a) s'
  | (Failed e, s') => (cleanup ;; fail e) s'
  | (Hangs, s') => (Hangs, s')
  end.

Definition with_channel {A} (body : nat -> NodeM A) : NodeM A :=
  channel ← acquire ;
  finally (body channel) (release channel).

Section RabbitMQ_connection.
Context (settings : Settings).

(** The body of the [try] in [connect]. *)
Definition connect_attempt : NodeM unit :=
  c ← connect_robust ;
  modify_rabbitmq (set_connection (Some c)) ;;
  modify_rabbitmq (set_channel_pool (Some {| max_size := 10; items := [] |})) ;;
  with_channel (fun channel =>
    q ← declare_queue channel (RABBITMQ_QUEUE_NAME settings) ;
    modify_rabbitmq (set_queue (Some q)) ;;
    set_qos channel (RABBITMQ_PREFETCH_COUNT settings)) ;;
  t ← create_task Run_process_batch ;
  modify_rabbitmq (set__batch_task (Some t)) ;;
  t' ← create_task Run_monitor_connection ;
  modify_rabbitmq (set__connection_task (Some t')).

(** [while retry_count < max_retries: ...], with [fuel] turns of the loop
    left.  [delay] is a whole number of seconds, as its default is. *)
Fixpoint connect_loop (max_retries retry_count delay : Z) (fuel : nat) : NodeM unit :=
  match fuel with
  | O => mret tt
  | S fuel' =>
      if decide (retry_count < max_retries) then
        except_Exception connect_attempt
          (fun e =>
             let retry_count := retry_count + 1 in
             if decide (retry_count = max_retries) then fail e
             else
               lift (sleep delay) ;;
               connect_loop max_retries retry_count (Z.min (delay * 2) 30) fuel')
      else mret tt
  end.

(** [RabbitMQ.connect]: every turn of the loop returns, raises or adds one
    to [retry_count], so [max_retries] turns are all it can take. *)
Definition connect (max_retries initial_delay : Z) : NodeM unit :=
  connect_loop max_retries 0 initial_delay (Z.to_nat max_retries).

(** One turn of the [while True] of [_monitor_connection]. *)
Definition _monitor_connection_tick : NodeM unit :=
  except_Exception
    (s ← get_node ;
     (match connection (rabbitmq s) with
      | Some c => if is_closed s c then connect 5 1 else mret tt
      | None => connect 5 1
      end) ;;
     lift (sleep 5))
    (fun e => lift (sleep 5)).

(** [RabbitMQ.close].  A task object is never false, so [if cls._batch_task]
    asks whether the attribute is set. *)
Definition close : NodeM unit :=
  s ← get_node ;
  (match _batch_task (rabbitmq s) with
   | Some t => cancel_task t ;; except_CancelledError (await_task t) (mret tt)
   | None => mret tt
   end) ;;
  s ← get_node ;
  (match _connection_task (rabbitmq s) with
   | Some t => cancel_task t ;; except_CancelledError (await_task t) (mret tt)
   | None => mret tt
   end) ;;
  s ← get_node ;
  match connection (rabbitmq s) with
  | Some c => connection_close c
  | None => mret tt
  end.

(** [RabbitMQ.check_connection] *)
Definition check_connection : NodeM bool :=
  except_Exception
    (s ← get_node ;
     match connection (rabbitmq s) with
     | None => mret false
     | Some c =>
         if is_closed s c then mret false
         else
           with_channel (fun channel => declare_queue channel "health_check") ;;
           mret true
     end)
    (fun e => mret false).

End RabbitMQ_connection.

(** The pauses of [connect]: [delay], then, [n] times in all, the last one
    doubled and capped at 30. *)
Fixpoint delays (delay : Z) (n : nat) : list Z :=
  match n with
  | O => []
  | S n' => delay :: delays (Z.min (delay * 2) 30) n'
  end.

(** The pauses of a trace. *)
Definition sleeps (tr : list Event) : list Z :=
  omap (fun e => match e with EvSleep secs => Some secs | _ => None end) tr.

(** The tasks that have not been cancelled. *)
Definition running (ts : list Task) : list Task :=
  filter (fun task => cancelled task = false) ts.

(** A node that has not connected yet. *)
Definition fresh_node (w : World) : Node :=
  {| world := w;
     rabbitmq := {| connection := None; channel_pool := None; queue := None;
                    _batch_task := None; _connection_task := None |};
     connections := []; tasks := []; amqp_faults := [];
     mongodb := {| client := None; db := None |}; clients := [] |}.

(** What one attempt leaves behind when it succeeds. *)
Definition connected_from (settings : Settings) (s s' : Node) : Prop :=
  world s' = world s
  /\ connections s' = connections s ++ [false]
  /\ tasks s' = tasks s ++ [{| coroutine := Run_process_batch; cancelled := false |};
                            {| coroutine := Run_monitor_connection; cancelled := false |}]
  /\ rabbitmq s'
     = {| connection := Some (length (connections s));
          channel_pool := Some {| max_size := 10; items := [length (connections s)] |};
          queue := Some (RABBITMQ_QUEUE_NAME settings);
          _batch_task := Some (length (tasks s));
          _connection_task := Some (S (length (tasks s))) |}
  /\ amqp_faults s' = drop 4 (amqp_faults s).

(** ** [NotificationService.health_check] and the two checks it makes *)

(** A message of a health report: a literal, or a literal followed by
    [str(e)] of the exception that was caught. *)
Inductive Text :=
  | Literal (s : string)
  | Formatted (prefix : string) (e : error).

Module DependencyHealth.
Record t := {
  status : string;
  message : Text
}.
End DependencyHealth.

Module Health.
Record t := {
  status : string;
  timestamp : Z;
  dependencies : option (DependencyHealth.t * DependencyHealth.t);  (* mongodb, rabbitmq *)
  error : option error
}.
End Health.

Section Health_check.

(** [self.db.command("ping")] and [self.db.notifications.find_one({})]: two
    calls to the store, whose answers are not looked at. *)
Definition _check_mongodb : NodeM DependencyHealth.t :=
  except_Exception
    (lift store_call ;;
     lift store_call ;;
     mret {| DependencyHealth.status := "healthy";
             DependencyHealth.message := Literal "MongoDB connection is working" |})
    (fun e =>
       mret {| DependencyHealth.status := "unhealthy";
               DependencyHealth.message := Formatted "MongoDB connection failed: " e |}).

Definition _check_rabbitmq : NodeM DependencyHealth.t :=
  except_Exception
    (is_connected ← check_connection ;
     if is_connected : bool then
       mret {| DependencyHealth.status := "healthy";
               DependencyHealth.message := Literal "RabbitMQ connection is working" |}
     else
       mret {| DependencyHealth.status := "unhealthy";
               DependencyHealth.message :=
                 Literal "RabbitMQ connection is not working" |})
    (fun e =>
       mret {| DependencyHealth.status := "unhealthy";
               DependencyHealth.message := Formatted "RabbitMQ connection failed: " e |}).

Definition health_check : NodeM Health.t :=
  except_Exception
    (mongo_status ← _check_mongodb ;
     rabbitmq_status ← _check_rabbitmq ;
     let is_healthy :=
       bool_decide (DependencyHealth.status mongo_status = "healthy")
       && bool_decide (DependencyHealth.status rabbitmq_status = "healthy") in
     now ← lift utcnow ;
     mret {| Health.status := if is_healthy then "healthy" else "unhealthy";
             Health.timestamp := now;
             Health.dependencies := Some (mongo_status, rabbitmq_status);
             Health.error := None |})
    (fun e =>
       now ← lift utcnow ;
       mret {| Health.status := "unhealthy";
               Health.timestamp := now;
               Health.dependencies := None;
               Health.error := Some e |}).

End Health_check.

(** ** More scenarios *)

(** A dictionary without an id. *)
Definition anonymous : Doc := <["retry_count" := VInt 0]> ∅.

(** The notification that creating [hello] returns. *)
Definition hello_notification : Notification.t :=
  {| Notification.user_id := "u1"; Notification.type := IN_APP;
     Notification.title := "Hi"; Notification.message := "there";
     Notification.metadata := Some []; Notification.id := "uuid-0";
     Notification.status := PENDING; Notification.created_at := 0;
     Notification.sent_at := None; Notification.failed_at := None;
     Notification.error := None; Notification.retry_count := 0;
     Notification.max_retries := 3 |}.

(** A node at start-up, and one whose broker refuses five connections. *)
Definition starting : Node := fresh_node empty_world.

Definition refused : Node := set_amqp_faults (replicate 5 true) starting.

(** The node after a first [connect]. *)
Definition connected : Node := (connect default_settings 5 1 starting).2.

(** ** [app/core/mongodb.py]: the client and its start-up *)

Module mongodb.

Definition modify_mongodb (f : MongoDB -> MongoDB) : NodeM unit :=
  modify_node (fun s => set_mongodb (f (mongodb s)) s).

(** [AsyncIOMotorClient(url, ...)]: a new client; nothing is sent to the
    server before the first command. *)
Definition AsyncIOMotorClient : NodeM nat :=
  s ← get_node ;
  modify_node (set_clients (clients s ++ [false])) ;;
  mret (length (clients s)).

(** [cls.client.admin.command('ping')]: a command through the class's
    client goes to the store the world holds. *)
Definition ping : NodeM unit := lift store_call.

(** [cls.db.<collection>.create_index(...)]: [cls.db] may still be [None]. *)
Definition create_index : NodeM unit :=
  s ← get_node ;
  match db (mongodb s) with
  | None => fail (Exn AttributeError)
  | Some _ => lift store_call
  end.

(** [MongoDB.create_indexes]: five indexes on the notifications, then the
    unique one on the users' email, whose failure is only logged, then the
    one on their phone. *)
Definition create_indexes : NodeM unit :=
  except_Exception
    (create_index ;;
     create_index ;;
     create_index ;;
     create_index ;;
     create_index ;;
     except_Exception create_index (fun e => mret tt) ;;
     create_index)
    (fun e => fail e).

(** The body of the [try] in [connect_to_database]. *)
Definition connect_attempt : NodeM unit :=
  c ← AsyncIOMotorClient ;
  modify_mongodb (fun m => {| client := Some c; db := db m |}) ;;
  modify_mongodb (fun m => {| client := client m; db := Some c |}) ;;
  ping ;;
  create_indexes.

(** [for attempt in range(max_retries): ...], from [attempt] on, with
    [remaining] values of the range left. *)
Fixpoint connect_from (max_retries attempt : Z) (remaining : nat) : NodeM unit :=
  match remaining with
  | O => mret tt
  | S remaining' =>
      except_Exception connect_attempt
        (fun e =>
           if decide (attempt = max_retries - 1) then fail e
           else
             lift (sleep 1) ;;
             connect_from max_retries (attempt + 1) remaining')
  end.

(** [MongoDB.connect_to_database] *)
Definition connect_to_database (max_retries : Z) : NodeM unit :=
  connect_from max_retries 0 (Z.to_nat max_retries).

(** [MongoDB.close_database_connection]: the attribute is not reset. *)
Definition close_database_connection : NodeM unit :=
  s ← get_node ;
  match client (mongodb s) with
  | Some c => modify_node (set_clients (<[c := true]> (clients s)))
  | None => mret tt
  end.

(** [MongoDB.check_connection] *)
Definition check_connection : NodeM bool :=
  except_Exception
    (s ← get_node ;
     match client (mongodb s) with
     | None => mret false
     | Some _ => ping ;; mret true
     end)
    (fun e => mret false).

End mongodb.

(** ** [app/main.py]: start-up, shutdown and the health endpoint *)

Module main.

Record Health := {
  status : string;
  database : option string;
  rabbitmq : option string;
  version : option string;
  error : option Text
}.

(** [startup_event]: the [except] logs and raises again. *)
Definition startup_event (settings : Settings) : NodeM unit :=
  except_Exception
    (mongodb.connect_to_database 3 ;;
     connect settings 5 1)
    (fun e => fail e).

(** [shutdown_event]: the [except] only logs. *)
Definition shutdown_event : NodeM unit :=
  except_Exception
    (mongodb.close_database_connection ;;
     close)
    (fun e => mret tt).

(** [health_check].  The settings have no field [DEBUG], so the handler,
    which reads [settings.DEBUG], would itself raise [AttributeError]. *)
Definition health_check : NodeM Health :=
  except_Exception
    (db_status ← mongodb.check_connection ;
     rabbitmq_status ← check_connection ;
     mret {| status := if db_status && rabbitmq_status then "healthy" else "unhealthy";
             database := Some (if db_status : bool then "connected" else "disconnected");
             rabbitmq :=
               Some (if rabbitmq_status : bool then "connected" else "disconnected");
             version := Some "1.0.0";
             error := None |})
    (fun e => fail (Exn AttributeError)).

End main.

(** The node after a start-up in which store and broker answer, and the same
    node with a broker that refuses the next call. *)
Definition started : Node := (main.startup_event default_settings starting).2.

Definition started_unclosable : Node := set_amqp_faults [true] started.

(** A store that refuses the unique index on the users' email. *)
Definition email_index_refused : Node :=
  set_world (set_store_faults [false; false; false; false; false; true] (world started))
    started.

(** ** Running coroutines *)

Ltac run :=
  cbv [mbind M_bind mret M_ret try_except utcnow emit modify get_world raise sleep];
  cbn.

(** Equations between traces, up to the bracketing of [++]. *)
Ltac trace_eq :=
  repeat first [ rewrite <- app_assoc | progress cbn [app] ]; try reflexivity.

Lemma publisher_frame_refl w : publisher_frame w w.
Proof. split; (reflexivity || lia). Qed.

Lemma publisher_frame_trans w1 w2 w3 :
  publisher_frame w1 w2 -> publisher_frame w2 w3 -> publisher_frame w1 w3.
Proof.
  intros [] []; split; try congruence. lia.
Qed.

Lemma is_attempt_event_app (l1 l2 : list Event) :
  Forall (fun e => is_attempt_event e = true) l1 ->
  Forall (fun e => is_attempt_event e = true) l2 ->
  Forall (fun e => is_attempt_event e = true) (l1 ++ l2).
Proof. intros; by apply Forall_app. Qed.

Section RabbitMQ_facts.
Context (settings : Settings).

Lemma channel_publish_run message attempt w :
  exists ok w',
    channel_publish message attempt w = (Returns ok, w')
    /\ publisher_frame w w'
    /\ clock w' = clock w
    /\ _message_batch w' = _message_batch w
    /\ trace w' = trace w ++ [EvPublish message attempt ok]
    /\ (broker_faults w = [] -> ok = true /\ broker_queue w' = broker_queue w ++ [message]
                                /\ broker_faults w' = []).
Proof.
  unfold channel_publish.
  destruct (broker_faults w) as [|[] fs] eqn:Hf;
    eexists _, _; (split; [reflexivity|]);
    repeat split; cbn; try lia; try done.
Qed.

(** The retry loop always terminates normally, touches only the broker
    side of the world, and makes at least one attempt. *)
Lemma publish_attempts_run fuel : forall message attempt w,
  exists evs w',
    publish_attempts 3 1 message attempt fuel w = (Returns tt, w')
    /\ publisher_frame w w'
    /\ _message_batch w' = _message_batch w
    /\ trace w' = trace w ++ evs
    /\ Forall (fun e => is_attempt_event e = true) evs
    /\ (fuel <> O -> exists ok, EvPublish message attempt ok ∈ evs)
    /\ (broker_faults w = [] -> fuel <> O ->
        broker_queue w' = broker_queue w ++ [message] /\ broker_faults w' = []
        /\ evs = [EvPublish message attempt true]).
Proof.
  induction fuel as [|fuel IH]; intros message attempt w.
  - exists [], w. cbn. rewrite app_nil_r.
    repeat split; try done; try lia.
  - destruct (channel_publish_run message attempt w)
      as (ok & w1 & Hrun & Hfr & Hclk & Hb & Htr & Hok).
    cbn [publish_attempts]. run. rewrite Hrun.
    destruct ok.
    + exists [EvPublish message attempt true], w1.
      split; [reflexivity|]. split; [exact Hfr|]. split; [exact Hb|].
      split; [exact Htr|]. split; [repeat constructor|].
      split; [intros _; exists true; apply elem_of_cons; by left|].
      intros Hnil _. destruct (Hok Hnil) as (_ & Hq & Hbf). by rewrite Hq, Hbf.
    + set (w2 := if decide (attempt = 3) then w1
                 else set_clock (clock w1 + Z.max 0 1)
                        (set_trace (trace w1 ++ [EvSleep 1]) w1)).
      set (pause := if decide (attempt = 3) then [] else [EvSleep 1]).
      destruct (IH message (attempt + 1) w2)
        as (evs & w3 & Hrun3 & Hfr3 & Hb3 & Htr3 & Hall & _ & _).
      exists (EvPublish message attempt false :: pause ++ evs), w3.
      assert (Hw2 : publisher_frame w1 w2 /\ _message_batch w2 = _message_batch w1
                    /\ trace w2 = trace w1 ++ pause).
      { subst w2 pause. destruct (decide (attempt = 3)); cbn.
        - rewrite app_nil_r. split; [apply publisher_frame_refl|done].
        - repeat split; cbn; try done; lia. }
      destruct Hw2 as (Hfr2 & Hb2 & Htr2).
      split.
      { subst w2. destruct (decide (attempt = 3)); cbn; exact Hrun3. }
      split; [eauto using publisher_frame_trans|].
      split; [congruence|].
      split; [rewrite Htr3, Htr2, Htr, <- !app_assoc; reflexivity|].
      split.
      { constructor; [done|]. apply is_attempt_event_app; [|done].
        subst pause. destruct (decide (attempt = 3)); repeat constructor. }
      split; [intros _; exists false; apply elem_of_cons; by left|].
      intros Hnil _. destruct (Hok Hnil) as (Habs & _). discriminate Habs.
Qed.

(** The outer loop of [_publish_batch]. *)
Lemma for_each_attempts_run batch : forall w,
  exists evs w',
    for_each (fun message => publish_attempts 3 1 message 1 (Z.to_nat 3)) batch w
      = (Returns tt, w')
    /\ publisher_frame w w'
    /\ _message_batch w' = _message_batch w
    /\ trace w' = trace w ++ evs
    /\ Forall (fun e => is_attempt_event e = true) evs
    /\ (forall message, message ∈ batch -> exists ok, EvPublish message 1 ok ∈ evs)
    /\ (broker_faults w = [] -> broker_queue w' = broker_queue w ++ batch /\ broker_faults w' = []).
Proof.
  induction batch as [|message batch IH]; intros w.
  - exists [], w. cbn. rewrite !app_nil_r.
    split; [reflexivity|]. split; [apply publisher_frame_refl|].
    split; [reflexivity|]. split; [reflexivity|]. split; [constructor|].
    split; [|done]. intros message Hin. by apply elem_of_nil in Hin.
  - destruct (publish_attempts_run (Z.to_nat 3) message 1 w)
      as (evs1 & w1 & Hrun1 & Hfr1 & Hb1 & Htr1 & Hall1 & Hatt1 & Hok1).
    destruct (IH w1) as (evs2 & w2 & Hrun2 & Hfr2 & Hb2 & Htr2 & Hall2 & Hatt2 & Hok2).
    exists (evs1 ++ evs2), w2.
    split. { cbn [for_each]. run. rewrite Hrun1. exact Hrun2. }
    split; [eauto using publisher_frame_trans|].
    split; [congruence|].
    split; [by rewrite Htr2, Htr1, app_assoc|].
    split; [by apply is_attempt_event_app|].
    split.
    + intros m Hin. apply elem_of_cons in Hin as [->|Hin].
      * destruct Hatt1 as [ok Hok]; [done|]. exists ok. apply elem_of_app. by left.
      * destruct (Hatt2 m Hin) as [ok Hok]. exists ok. apply elem_of_app. by right.
    + intros Hnil. destruct (Hok1 Hnil) as (Hq1 & Hbf1 & _); [done|].
      destruct (Hok2 Hbf1) as (Hq2 & Hbf2).
      split; [|done]. rewrite Hq2, Hq1, <- app_assoc. reflexivity.
Qed.

Lemma _publish_batch_empty w :
  _message_batch w = [] -> _publish_batch w = (Returns tt, w).
Proof. intros Hb. unfold _publish_batch. run. by rewrite Hb. Qed.

(** A flush of a non-empty buffer: every buffered message is attempted,
    then the buffer is cleared. Nothing is raised. *)
Lemma _publish_batch_run w :
  _message_batch w <> [] ->
  exists evs w',
    _publish_batch w = (Returns tt, w')
    /\ publisher_frame w w'
    /\ _message_batch w' = []
    /\ trace w' = trace w ++ EvFlush (_message_batch w) :: evs ++ [EvClear]
    /\ Forall (fun e => is_attempt_event e = true) evs
    /\ (forall message, message ∈ _message_batch w ->
          exists ok, EvPublish message 1 ok ∈ evs)
    /\ (broker_faults w = [] ->
        broker_queue w' = broker_queue w ++ _message_batch w /\ broker_faults w' = []).
Proof.
  intros Hne. unfold _publish_batch. run.
  destruct (_message_batch w) as [|m0 batch] eqn:Hbatch; [done|].
  set (w0 := set_trace (trace w ++ [EvFlush (m0 :: batch)]) w).
  destruct (for_each_attempts_run (m0 :: batch) w0)
    as (evs & w1 & Hrun & Hfr & Hb & Htr & Hall & Hatt & Hok).
  exists evs, (set_message_batch [] (set_trace (trace w1 ++ [EvClear]) w1)).
  split. { cbn in Hrun. fold w0. rewrite Hrun. reflexivity. }
  split. { destruct Hfr. split; cbn; done. }
  split; [reflexivity|].
  split. { cbn. rewrite Htr. subst w0. cbn. by rewrite <- !app_assoc. }
  split; [done|]. split; [done|].
  intros Hnil. cbn. apply Hok. subst w0. exact Hnil.
Qed.

(** [publish_message] never raises. Below the threshold it only appends;
    at the threshold it flushes what is buffered, the new message included,
    before it releases the lock. *)
Lemma publish_message_run message w :
  let msg := message_of message w in
  exists evs w',
    publish_message settings message w = (Returns tt, w')
    /\ publisher_frame w w'
    /\ trace w' = trace w ++ EvAcquire :: EvAppend msg :: evs ++ [EvRelease]
    /\ (Z.of_nat (length (_message_batch w ++ [msg])) >= RABBITMQ_BATCH_SIZE settings ->
        _message_batch w' = []
        /\ exists attempts,
             evs = EvFlush (_message_batch w ++ [msg]) :: attempts ++ [EvClear]
             /\ Forall (fun e => is_attempt_event e = true) attempts
             /\ (forall m, m ∈ _message_batch w ++ [msg] ->
                   exists ok, EvPublish m 1 ok ∈ attempts)
             /\ (broker_faults w = [] ->
                 broker_queue w' = broker_queue w ++ _message_batch w ++ [msg]))
    /\ (~ Z.of_nat (length (_message_batch w ++ [msg])) >= RABBITMQ_BATCH_SIZE settings ->
        evs = [] /\ _message_batch w' = _message_batch w ++ [msg]
        /\ broker_queue w' = broker_queue w /\ clock w' = clock w).
Proof.
  intros msg. unfold publish_message, with_batch_lock. run. fold (message_of message w).
  fold msg.
  set (w2 := set_message_batch (_message_batch w ++ [msg]) _).
  destruct (decide (Z.of_nat (length (_message_batch w ++ [msg]))
                    >= RABBITMQ_BATCH_SIZE settings)) as [Hge|Hlt].
  - destruct (_publish_batch_run w2)
      as (att & w3 & Hrun & Hfr & Hb & Htr & Hall & Hatt & Hok).
    { subst w2. cbn. by destruct (_message_batch w). }
    rewrite Hrun.
    exists (EvFlush (_message_batch w ++ [msg]) :: att ++ [EvClear]),
           (set_trace (trace w3 ++ [EvRelease]) w3).
    split; [reflexivity|].
    split. { destruct Hfr. split; cbn; done. }
    split. { cbn. rewrite Htr. subst w2. cbn. trace_eq. }
    split; [|done]. intros _. split; [exact Hb|].
    exists att. split; [reflexivity|]. split; [done|]. split; [exact Hatt|].
    intros Hnil. cbn. by destruct (Hok Hnil).
  - exists [], (set_trace (trace w2 ++ [EvRelease]) w2).
    split; [reflexivity|].
    split. { split; cbn; done. }
    split. { cbn. trace_eq. }
    split; [done|]. intros _. done.
Qed.

(** One timer tick on a non-empty buffer flushes it under the lock. *)
Lemma _process_batch_tick_run w :
  _message_batch w <> [] ->
  exists attempts w',
    _process_batch_tick settings w = (Returns tt, w')
    /\ publisher_frame w w'
    /\ _message_batch w' = []
    /\ trace w' = trace w ++ EvSleep (RABBITMQ_BATCH_TIMEOUT settings) :: EvAcquire
                   :: EvFlush (_message_batch w) :: attempts ++ [EvClear; EvRelease]
    /\ Forall (fun e => is_attempt_event e = true) attempts
    /\ (forall m, m ∈ _message_batch w -> exists ok, EvPublish m 1 ok ∈ attempts).
Proof.
  intros Hne. unfold _process_batch_tick, with_batch_lock. run.
  destruct (_message_batch w) as [|m0 batch] eqn:Hbw; [done|].
  match goal with |- context [_publish_batch ?x] => set (w1 := x) end.
  assert (Hb1 : _message_batch w1 = m0 :: batch) by exact Hbw.
  destruct (_publish_batch_run w1)
    as (att & w2 & Hrun & Hfr & Hb & Htr & Hall & Hatt & _).
  { by rewrite Hb1. }
  rewrite Hrun.
  exists att, (set_trace (trace w2 ++ [EvRelease]) w2).
  split; [reflexivity|].
  split. { destruct Hfr. split; cbn; try done. cbn in *. lia. }
  split; [exact Hb|].
  split. { cbn. rewrite Htr, Hb1. subst w1. cbn. trace_eq. }
  split; [done|]. by rewrite <- Hb1.
Qed.

End RabbitMQ_facts.

(** ** The store: what a call does *)

Lemma replace_first_no_match (p : Doc -> bool) g ds :
  find_first p ds = None -> replace_first p g ds = ds.
Proof.
  induction ds as [|d ds IH]; cbn; [done|].
  destruct (p d); [done|]. intros H. by rewrite IH.
Qed.

(** The first match splits the collection, and the rewrite lands on it. *)
Lemma replace_first_split (p : Doc -> bool) g pre d post :
  Forall (fun x => p x = false) pre -> p d = true ->
  replace_first p g (pre ++ d :: post) = pre ++ g d :: post
  /\ find_first p (pre ++ d :: post) = Some d.
Proof.
  intros Hpre Hd. induction Hpre as [|x pre Hx _ IH]; cbn.
  - by rewrite Hd.
  - rewrite Hx. destruct IH as [-> ->]. done.
Qed.

Lemma find_first_split (p : Doc -> bool) ds d :
  find_first p ds = Some d ->
  exists pre post, ds = pre ++ d :: post
                   /\ Forall (fun x => p x = false) pre /\ p d = true.
Proof.
  induction ds as [|x ds IH]; cbn; [done|].
  destruct (p x) eqn:Hx.
  - intros [= ->]. exists [], ds. by repeat split.
  - intros Hf. destruct (IH Hf) as (pre & post & -> & Hpre & Hd).
    exists (x :: pre), post. repeat split; [|done]. by constructor.
Qed.

Lemma replace_first_Forall (P : Doc -> Prop) p g ds :
  (forall d, P d -> P (g d)) -> Forall P ds -> Forall P (replace_first p g ds).
Proof.
  intros Hg. induction 1 as [|d ds Hd Hds IH]; cbn; [constructor|].
  destruct (p d); constructor; auto.
Qed.

Lemma replace_first_length (p : Doc -> bool) g ds :
  length (replace_first p g ds) = length ds.
Proof.
  induction ds as [|d ds IH]; cbn; [done|]. destruct (p d); cbn; congruence.
Qed.

(** A store that answers. *)
Lemma update_one_run w v fields :
  store_faults w = [] ->
  update_one v fields w =
    (Returns
       {| matched_count :=
            if find_first (matches_id v) (notifications w) is Some _ then 1 else 0;
          modified_count :=
            match find_first (matches_id v) (notifications w) with
            | Some d => if decide (apply_set fields d = d) then 0 else 1
            | None => 0
            end |},
     set_notifications
       (replace_first (matches_id v) (apply_set fields) (notifications w))
       (set_trace (trace w ++ [EvUpdate v fields]) w)).
Proof. intros Hst. unfold update_one, store_call. run. by rewrite Hst. Qed.

(** Any store: the call raises before it writes, or it writes as above. *)
Lemma update_one_cases w v fields :
  (exists w', update_one v fields w = (Raises StoreError, w')
              /\ notifications w' = notifications w
              /\ trace w' = trace w
              /\ exists fs, store_faults w = true :: fs /\ store_faults w' = fs)
  \/ (exists r w', update_one v fields w = (Returns r, w')
              /\ notifications w'
                 = replace_first (matches_id v) (apply_set fields) (notifications w)
              /\ trace w' = trace w ++ [EvUpdate v fields]
              /\ store_faults w' = tail (store_faults w)
              /\ modified_count r
                 = match find_first (matches_id v) (notifications w) with
                   | Some d => if decide (apply_set fields d = d) then 0 else 1
                   | None => 0
                   end).
Proof.
  unfold update_one, store_call. run.
  destruct (store_faults w) as [|[] fs] eqn:Hf.
  - right. eexists _, _. split; [reflexivity|]. cbn. by rewrite Hf.
  - left. eexists. split; [reflexivity|]. cbn. repeat split. by exists fs.
  - right. eexists _, _. split; [reflexivity|]. cbn. done.
Qed.

(** ** Invariants of the collection *)

Lemma preserves_ret {A} I (a : A) : preserves I (mret a).
Proof. by intros w Hw. Qed.

Lemma preserves_raise {A} I e : preserves I (raise e : M A).
Proof. by intros w Hw. Qed.

Lemma preserves_bind {A B} I (m : M A) (k : A -> M B) :
  preserves I m -> (forall a, preserves I (k a)) -> preserves I (m ≫= k).
Proof.
  intros Hm Hk w Hw. specialize (Hm w Hw). run.
  destruct (m w) as [[a|e] w1]; cbn in *; [by apply Hk|done].
Qed.

Lemma preserves_try_except {A} I (m : M A) (h : exn -> M A) :
  preserves I m -> (forall e, preserves I (h e)) -> preserves I (try_except m h).
Proof.
  intros Hm Hh w Hw. specialize (Hm w Hw). run.
  destruct (m w) as [[a|e] w1]; cbn in *; [done|by apply Hh].
Qed.

(** A step that does not touch the collection keeps every [store_inv]. *)
Lemma preserves_frame {A} P (m : M A) :
  (forall w, notifications (m w).2 = notifications w) -> preserves (store_inv P) m.
Proof. intros Hm w Hw. unfold store_inv. by rewrite Hm. Qed.




Lemma preserves_py_ge P v n : preserves (store_inv P) (py_ge v n).
Proof. apply preserves_frame. intros w. by destruct v. Qed.

Lemma preserves_py_add P v n : preserves (store_inv P) (py_add v n).
Proof. apply preserves_frame. intros w. by destruct v. Qed.




Lemma preserves_publisher {A} P (m : M A) :
  (forall w, publisher_frame w (m w).2) -> preserves (store_inv P) m.
Proof. intros Hm. apply preserves_frame. intros w. by destruct (Hm w). Qed.

Lemma preserves_publish_message P settings message :
  preserves (store_inv P) (publish_message settings message).
Proof.
  apply preserves_publisher. intros w.
  destruct (publish_message_run settings message w) as (evs & w' & -> & Hfr & _).
  exact Hfr.
Qed.

Lemma _process_batch_tick_frame settings w :
  publisher_frame w (_process_batch_tick settings w).2.
Proof.
  destruct (decide (_message_batch w = [])) as [Hb|Hb].
  - unfold _process_batch_tick, with_batch_lock. run. rewrite Hb. cbn.
    split; cbn; try done. lia.
  - destruct (_process_batch_tick_run settings w Hb) as (att & w' & -> & Hfr & _).
    exact Hfr.
Qed.

Lemma preserves_process_batch_tick P settings :
  preserves (store_inv P) (_process_batch_tick settings).
Proof. apply preserves_publisher, _process_batch_tick_frame. Qed.

(** ** The service keeps invariants of the collection *)

Lemma bind_ret {A B} (a : A) (k : A -> M B) : mret a ≫= k = k a.
Proof. reflexivity. Qed.

Lemma bind_raise {A B} (e : exn) (k : A -> M B) : raise e ≫= k = raise e.
Proof. reflexivity. Qed.

Lemma run_bind {A B} (m : M A) (k : A -> M B) w :
  (m ≫= k) w
  = match m w with
    | (Returns a, w') => k a w'
    | (Raises e, w') => (Raises e, w')
    end.
Proof. reflexivity. Qed.

Lemma run_try_except {A} (m : M A) (h : exn -> M A) w :
  try_except m h w
  = match m w with
    | (Returns a, w') => (Returns a, w')
    | (Raises e, w') => h e w'
    end.
Proof. reflexivity. Qed.

Section Service_invariants.
Context (settings : Settings).
Context (uuid4 : nat -> string).
Context (self : NotificationService).
Context (P : Doc -> Prop).












End Service_invariants.

(** ** C6: the retry bound *)

Section Retry_bound.
Context (settings : Settings).
Context (uuid4 : nat -> string).
Context (self : NotificationService).







End Retry_bound.

(** ** [update_status] *)

Section Update_status.
Context (self : NotificationService).

Lemma get_notification_frame w notification_id :
  notifications (get_notification self notification_id w).2 = notifications w
  /\ trace (get_notification self notification_id w).2 = trace w.
Proof.
  unfold get_notification, find_one, store_call. run.
  destruct (store_faults w) as [|[] fs]; cbn; try done;
    repeat (case_match; cbn; try done); by simplify_eq.
Qed.

(** [get_notification] raises nothing but a 500. *)
Lemma get_notification_raises w notification_id e :
  (get_notification self notification_id w).1 = Raises e ->
  e = HTTPException HTTP_500_INTERNAL_SERVER_ERROR.
Proof.
  unfold get_notification, find_one, store_call. run.
  destruct (store_faults w) as [|[] fs]; cbn;
    repeat (case_match; cbn; try done); congruence.
Qed.

Lemma update_status_notifications w notification_id status :
  notifications (update_status self notification_id status w).2
  = match store_faults w with
    | true :: _ => notifications w
    | _ => replace_first (matches_id (VStr notification_id))
             (apply_set (status_fields status (clock w))) (notifications w)
    end.
Proof.
  unfold update_status, status_getattr. run. fold (status_fields status (clock w)).
  destruct (update_one_cases w (VStr notification_id) (status_fields status (clock w)))
    as [(w' & Hrun & Hn & _ & fs & Hf & _)|(r & w' & Hrun & Hn & _ & Hf & _)];
    rewrite Hrun; cbn.
  - by rewrite Hf.
  - assert (Hgoal : notifications w'
                    = match store_faults w with
                      | true :: _ => notifications w
                      | _ => replace_first (matches_id (VStr notification_id))
                               (apply_set (status_fields status (clock w)))
                               (notifications w)
                      end).
    { rewrite Hn. destruct (store_faults w) as [|[] fs] eqn:Hfs; try done.
      (* a store that raised would not have returned *)
      unfold update_one, store_call in Hrun. revert Hrun. run. by rewrite Hfs. }
    destruct (decide (modified_count r = 0)); cbn; [done|].
    destruct (get_notification_frame w' notification_id) as [Hg _].
    destruct (get_notification self notification_id w') as [[[found|]|e] w''] eqn:Hget;
      cbn in *; try congruence.
    destruct e; cbn; congruence.
Qed.

(** What the [$set] does to the document it lands on. *)
Lemma status_fields_spec status now d :
  let d' := apply_set (status_fields status now) d in
  d' !! "status" = Some (VStr (status_value status))
  /\ d' !! "sent_at" = Some (if decide (status = SENT) then VDatetime now else VNone)
  /\ d' !! "failed_at" = Some (if decide (status = FAILED) then VDatetime now else VNone)
  /\ forall k, k <> "status" -> k <> "sent_at" -> k <> "failed_at" -> d' !! k = d !! k.
Proof.
  cbn. split; [by simplify_map_eq|]. split; [by simplify_map_eq|].
  split; [by simplify_map_eq|]. intros k H1 H2 H3. by simplify_map_eq.
Qed.

(** C9. [update_status] writes [status], [sent_at] and [failed_at] of the
    first record that matches the id, and nothing else: [sent_at] is the
    current time for [SENT] and [None] otherwise, [failed_at] the current
    time for [FAILED] and [None] otherwise; every other field of the record
    and every other record are as before.  With no matching record the
    collection is unchanged. *)
Theorem update_status_writes_status_and_timestamps w notification_id status :
  hd false (store_faults w) = false ->
  let w' := (update_status self notification_id status w).2 in
  (find_first (matches_id (VStr notification_id)) (notifications w) = None ->
   notifications w' = notifications w)
  /\ forall pre d post,
       notifications w = pre ++ d :: post ->
       Forall (fun x => matches_id (VStr notification_id) x = false) pre ->
       matches_id (VStr notification_id) d = true ->
       exists d',
         notifications w' = pre ++ d' :: post
         /\ d' !! "status" = Some (VStr (status_value status))
         /\ d' !! "sent_at"
            = Some (if decide (status = SENT) then VDatetime (clock w) else VNone)
         /\ d' !! "failed_at"
            = Some (if decide (status = FAILED) then VDatetime (clock w) else VNone)
         /\ forall k, k <> "status" -> k <> "sent_at" -> k <> "failed_at" ->
                      d' !! k = d !! k.
Proof.
  intros Hstore w'. subst w'. rewrite update_status_notifications.
  assert (Hsel : match store_faults w with
                 | true :: _ => notifications w
                 | _ => replace_first (matches_id (VStr notification_id))
                          (apply_set (status_fields status (clock w))) (notifications w)
                 end
                 = replace_first (matches_id (VStr notification_id))
                     (apply_set (status_fields status (clock w))) (notifications w)).
  { by destruct (store_faults w) as [|[] fs]. }
  rewrite Hsel. split.
  - apply replace_first_no_match.
  - intros pre d post Hw Hpre Hd.
    exists (apply_set (status_fields status (clock w)) d).
    split; [|apply status_fields_spec].
    rewrite Hw. by apply replace_first_split.
Qed.

(** C1. On an id that matches no stored record [update_status] does not
    raise the 404 it spells out: [status] inside the function is the
    [NotificationStatus] argument, so building the [HTTPException] fails
    with an [AttributeError], which is what the caller receives. *)
Theorem update_status_unknown_id_raises_AttributeError w notification_id status :
  find_first (matches_id (VStr notification_id)) (notifications w) = None ->
  (update_status self notification_id status w).1 = Raises AttributeError.
Proof.
  intros Hnone. unfold update_status, status_getattr. run.
  fold (status_fields status (clock w)).
  destruct (update_one_cases w (VStr notification_id) (status_fields status (clock w)))
    as [(w' & Hrun & _)|(r & w' & Hrun & _ & _ & _ & Hmod)];
    rewrite Hrun; cbn; [done|].
  rewrite Hnone in Hmod. rewrite Hmod. cbn. done.
Qed.

(** The same exception answers an override that changes nothing: the store
    counts no modified record, and the function takes its not-found branch
    although the record is there. *)
Lemma update_status_unchanged_record_raises_AttributeError w notification_id status d :
  find_first (matches_id (VStr notification_id)) (notifications w) = Some d ->
  apply_set (status_fields status (clock w)) d = d ->
  (update_status self notification_id status w).1 = Raises AttributeError.
Proof.
  intros Hsome Hsame. unfold update_status, status_getattr. run.
  fold (status_fields status (clock w)).
  destruct (update_one_cases w (VStr notification_id) (status_fields status (clock w)))
    as [(w' & Hrun & _)|(r & w' & Hrun & _ & _ & _ & Hmod)];
    rewrite Hrun; cbn; [done|].
  rewrite Hsome in Hmod. rewrite decide_True in Hmod by done. rewrite Hmod. cbn. done.
Qed.

(** No call of [update_status] ends in a 404. *)
Lemma update_status_never_404 w notification_id status :
  (update_status self notification_id status w).1
  <> Raises (HTTPException HTTP_404_NOT_FOUND).
Proof.
  unfold update_status, status_getattr. run.
  fold (status_fields status (clock w)).
  destruct (update_one_cases w (VStr notification_id) (status_fields status (clock w)))
    as [(w' & Hrun & _)|(r & w' & Hrun & _)]; rewrite Hrun; cbn; [done|].
  destruct (decide (modified_count r = 0)); cbn; [done|].
  destruct (get_notification self notification_id w') as [[[found|]|e] w''] eqn:Hget;
    cbn; try done.
  assert (He : e = HTTPException HTTP_500_INTERNAL_SERVER_ERROR).
  { apply (get_notification_raises w' notification_id). by rewrite Hget. }
  subst e. cbn. unfold HTTP_500_INTERNAL_SERVER_ERROR, HTTP_404_NOT_FOUND. congruence.
Qed.

End Update_status.

(** ** [process_notification], path by path *)

Lemma attempt_events_silent evs :
  Forall (fun e => is_attempt_event e = true) evs ->
  store_writes evs = [] /\ deliveries evs = [] /\ appended evs = []
  /\ count_flushes evs = O.
Proof.
  induction 1 as [|e evs He _ (IH1 & IH2 & IH3 & IH4)]; [done|].
  destruct e; try discriminate He; cbn; by rewrite ?IH1, ?IH2, ?IH3, ?IH4.
Qed.

Section Process_facts.
Context (settings : Settings).
Context (self : NotificationService).

(** What [publish_message] adds to the trace: one enqueued message, no
    store write, no delivery. *)
Lemma publish_message_events message w :
  exists evs w',
    publish_message settings message w = (Returns tt, w')
    /\ publisher_frame w w'
    /\ trace w' = trace w ++ evs
    /\ store_writes evs = [] /\ deliveries evs = []
    /\ appended evs = [message_of message w].
Proof.
  destruct (publish_message_run settings message w)
    as (evs & w' & Hrun & Hfr & Htr & Hflush & Hkeep).
  exists (EvAcquire :: EvAppend (message_of message w) :: evs ++ [EvRelease]), w'.
  split; [done|]. split; [done|]. split; [done|].
  assert (Hevs : store_writes evs = [] /\ deliveries evs = [] /\ appended evs = []).
  { destruct (decide (Z.of_nat (length (_message_batch w ++ [message_of message w]))
                      >= RABBITMQ_BATCH_SIZE settings)) as [Hge|Hlt].
    - destruct (Hflush Hge) as (_ & att & -> & Hall & _).
      destruct (attempt_events_silent att Hall) as (H1 & H2 & H3 & _).
      unfold store_writes, deliveries, appended in *. cbn.
      rewrite !omap_app, H1, H2, H3. done.
    - by destruct (Hkeep Hlt) as (-> & _). }
  destruct Hevs as (H1 & H2 & H3).
  unfold store_writes, deliveries, appended in *. cbn.
  rewrite !omap_app, H1, H2, H3. done.
Qed.




(** Path 2: the delivery succeeds. *)
Lemma process_delivered_run notification notification_id rc w :
  notification !! "id" = Some notification_id ->
  dict_get notification "retry_count" (VInt 0) = VInt rc ->
  rc < max_retries self ->
  hd false (transport_faults w) = false ->
  store_faults w = [] ->
  exists w',
    process_notification settings self notification w = (Returns true, w')
    /\ notifications w'
       = replace_first (matches_id notification_id)
           (apply_set (sent_fields (clock w + 1))) (notifications w)
    /\ trace w' = trace w ++ [EvSleep 1; EvDeliver notification true;
                              EvUpdate notification_id (sent_fields (clock w + 1))]
    /\ transport_faults w' = tail (transport_faults w)
    /\ store_faults w' = [] /\ _message_batch w' = _message_batch w.
Proof.
  intros Hid Hrc Hlt Htr Hst. unfold process_notification.
  rewrite Hrc. cbn [py_ge]. rewrite bind_ret, bool_decide_eq_false_2 by lia.
  unfold _send_notification, transport, getitem, _mark_as_sent. rewrite Hid. run.
  destruct (transport_faults w) as [|[] fs] eqn:Hfs; [|done|]; cbn;
    rewrite update_one_run by done; cbn;
    (eexists; split; [reflexivity|]); cbn; rewrite ?Hfs;
    (split; [done|]); (split; [trace_eq|done]).
Qed.





End Process_facts.

(** ** C4: a spent retry budget *)

Section Exhausted.
Context (settings : Settings).
Context (self : NotificationService).

Lemma matches_id_apply_set v fields d :
  Forall (fun kv => kv.1 <> "id") fields ->
  matches_id v (apply_set fields d) = matches_id v d.
Proof.
  unfold apply_set. revert d.
  induction fields as [|[k x] fields IH]; intros d Hks; cbn; [done|].
  apply Forall_cons in Hks as [Hk Hks]. cbn in Hk.
  rewrite IH by done. unfold matches_id. by rewrite lookup_insert_ne.
Qed.




(** The bound [process] compares against is the one every created
    notification carries in its [max_retries] field. *)
Lemma new_notification_doc_max_retries notification notification_id created_at :
  new_notification_doc self notification notification_id created_at !! "max_retries"
  = Some (VInt (max_retries self))
  /\ new_notification_doc self notification notification_id created_at !! "retry_count"
     = Some (VInt 0).
Proof. unfold new_notification_doc. split; by simplify_map_eq. Qed.


End Exhausted.

(** ** C2 and C10: exceptions around a delivery *)

Section Delivery_exceptions.
Context (settings : Settings).
Context (self : NotificationService).




End Delivery_exceptions.

(** ** C5 and C8: when the buffer is flushed, and in which order *)

Section Flush.
Context (settings : Settings).

Lemma publishes_under_lock_attempts attempts rest :
  Forall (fun e => is_attempt_event e = true) attempts ->
  publishes_under_lock true false (attempts ++ rest)
  = publishes_under_lock true false rest.
Proof.
  induction 1 as [|e attempts He _ IH]; [done|].
  destruct e; try discriminate He; cbn; exact IH.
Qed.

Lemma count_flushes_app tr1 tr2 :
  count_flushes (tr1 ++ tr2) = (count_flushes tr1 + count_flushes tr2)%nat.
Proof. unfold count_flushes. by rewrite filter_app, length_app. Qed.

(** C8. A [publish_message] that brings the buffer to the batch size
    flushes at once, under the lock it already holds: one flush, of all the
    buffered messages and the new one, each attempted, with no timer pause
    before it, and an empty buffer after it.  Independently, a tick of the
    timer flushes whatever the buffer holds, be it a single message. *)
Theorem flush_on_batch_size_and_on_timer message w :
  (Z.of_nat (length (_message_batch w ++ [message_of message w]))
   >= RABBITMQ_BATCH_SIZE settings ->
   exists attempts evs w',
     publish_message settings message w = (Returns tt, w')
     /\ trace w' = trace w ++ evs
     /\ evs = [EvAcquire; EvAppend (message_of message w);
               EvFlush (_message_batch w ++ [message_of message w])]
              ++ attempts ++ [EvClear; EvRelease]
     /\ Forall (fun e => is_attempt_event e = true) attempts
     /\ count_flushes evs = 1%nat
     /\ (forall m, m ∈ _message_batch w ++ [message_of message w] ->
           exists ok, EvPublish m 1 ok ∈ attempts)
     /\ _message_batch w' = [])
  /\ (_message_batch w <> [] ->
      exists attempts evs w',
        _process_batch_tick settings w = (Returns tt, w')
        /\ trace w' = trace w ++ evs
        /\ evs = [EvSleep (RABBITMQ_BATCH_TIMEOUT settings); EvAcquire;
                  EvFlush (_message_batch w)]
                 ++ attempts ++ [EvClear; EvRelease]
        /\ Forall (fun e => is_attempt_event e = true) attempts
        /\ count_flushes evs = 1%nat
        /\ (forall m, m ∈ _message_batch w -> exists ok, EvPublish m 1 ok ∈ attempts)
        /\ _message_batch w' = []).
Proof.
  split.
  - intros Hge.
    destruct (publish_message_run settings message w)
      as (evs & w' & Hrun & _ & Htr & Hflush & _).
    destruct (Hflush Hge) as (Hb & att & -> & Hall & Hcover & _).
    exists att,
      ([EvAcquire; EvAppend (message_of message w);
        EvFlush (_message_batch w ++ [message_of message w])]
       ++ att ++ [EvClear; EvRelease]), w'.
    split; [exact Hrun|]. split; [rewrite Htr; trace_eq|].
    split; [reflexivity|]. split; [done|]. split; [|done].
    destruct (attempt_events_silent att Hall) as (_ & _ & _ & Hcount).
    by rewrite !count_flushes_app, Hcount.
  - intros Hne.
    destruct (_process_batch_tick_run settings w Hne)
      as (att & w' & Hrun & _ & Hb & Htr & Hall & Hcover).
    exists att,
      ([EvSleep (RABBITMQ_BATCH_TIMEOUT settings); EvAcquire; EvFlush (_message_batch w)]
       ++ att ++ [EvClear; EvRelease]), w'.
    split; [exact Hrun|]. split; [rewrite Htr; trace_eq|].
    split; [reflexivity|]. split; [done|]. split; [|done].
    destruct (attempt_events_silent att Hall) as (_ & _ & _ & Hcount).
    by rewrite !count_flushes_app, Hcount.
Qed.

(** C5, as the code has it. A flush publishes while its caller holds the
    lock and before the buffer is cleared: from the timer and from a
    [publish_message] at the batch size alike, every buffered message is
    attempted in that window, the buffer is cleared after the last attempt,
    the lock is released last, and the buffer is empty when the flush
    completes. *)
Theorem flush_publishes_under_lock_then_clears message w :
  (_message_batch w <> [] ->
   exists evs w',
     _process_batch_tick settings w = (Returns tt, w')
     /\ trace w' = trace w ++ evs
     /\ publishes_under_lock false false evs = true
     /\ (forall m, m ∈ _message_batch w -> exists ok, EvPublish m 1 ok ∈ evs)
     /\ last evs = Some EvRelease
     /\ _message_batch w' = [])
  /\ (Z.of_nat (length (_message_batch w ++ [message_of message w]))
      >= RABBITMQ_BATCH_SIZE settings ->
      exists evs w',
        publish_message settings message w = (Returns tt, w')
        /\ trace w' = trace w ++ evs
        /\ publishes_under_lock false false evs = true
        /\ (forall m, m ∈ _message_batch w ++ [message_of message w] ->
              exists ok, EvPublish m 1 ok ∈ evs)
        /\ last evs = Some EvRelease
        /\ _message_batch w' = []).
Proof.
  split.
  - intros Hne.
    destruct (_process_batch_tick_run settings w Hne)
      as (att & w' & Hrun & _ & Hb & Htr & Hall & Hcover).
    exists (([EvSleep (RABBITMQ_BATCH_TIMEOUT settings); EvAcquire;
              EvFlush (_message_batch w)] ++ att ++ [EvClear]) ++ [EvRelease]), w'.
    split; [exact Hrun|]. split; [rewrite Htr; trace_eq|].
    split.
    { repeat first [ rewrite <- app_assoc | progress cbn [app] ].
      cbn [publishes_under_lock]. by rewrite publishes_under_lock_attempts. }
    split; [|split; [apply last_snoc|done]].
    intros m Hm. destruct (Hcover m Hm) as [ok Hok]. exists ok.
    apply elem_of_app. left. apply elem_of_app. right. apply elem_of_app. by left.
  - intros Hge.
    destruct (publish_message_run settings message w)
      as (evs & w' & Hrun & _ & Htr & Hflush & _).
    destruct (Hflush Hge) as (Hb & att & -> & Hall & Hcover & _).
    exists (([EvAcquire; EvAppend (message_of message w);
              EvFlush (_message_batch w ++ [message_of message w])]
             ++ att ++ [EvClear]) ++ [EvRelease]), w'.
    split; [exact Hrun|]. split; [rewrite Htr; trace_eq|].
    split.
    { repeat first [ rewrite <- app_assoc | progress cbn [app] ].
      cbn [publishes_under_lock]. by rewrite publishes_under_lock_attempts. }
    split; [|split; [apply last_snoc|done]].
    intros m Hm. destruct (Hcover m Hm) as [ok Hok]. exists ok.
    apply elem_of_app. left. apply elem_of_app. right. apply elem_of_app. by left.
Qed.

End Flush.

(** ** C7: status and timestamps *)

Section Timestamps.
Context (settings : Settings).
Context (uuid4 : nat -> string).
Context (self : NotificationService).









End Timestamps.

(** ** The theorems at work *)

Lemma created_store : notifications created = [queued].
Proof. reflexivity. Qed.

Lemma queued_id : queued !! "id" = Some (VStr "uuid-0").
Proof. reflexivity. Qed.

Lemma queued_retry_count : dict_get queued "retry_count" (VInt 0) = VInt 0.
Proof. reflexivity. Qed.

(** Scenario 1: the created record is [pending] with [retry_count = 0]. *)
Example scenario_1_created_pending :
  (create_notification default_settings demo_uuid4 NotificationService_init hello
     empty_world).1
  = Returns
      {| Notification.user_id := "u1"; Notification.type := IN_APP;
         Notification.title := "Hi"; Notification.message := "there";
         Notification.metadata := Some []; Notification.id := "uuid-0";
         Notification.status := PENDING; Notification.created_at := 0;
         Notification.sent_at := None; Notification.failed_at := None;
         Notification.error := None; Notification.retry_count := 0;
         Notification.max_retries := 3 |}.
Proof. reflexivity. Qed.

(** Scenario 3: ten messages, batch size ten: nothing is flushed by the
    first nine, the tenth flushes all ten in one flush. *)
Example scenario_3_one_flush_for_ten :
  count_flushes (trace (publish_many default_settings 9 empty_world)) = O
  /\ count_flushes (trace (publish_many default_settings 10 empty_world)) = 1%nat
  /\ length (broker_queue (publish_many default_settings 10 empty_world)) = 10%nat
  /\ _message_batch (publish_many default_settings 10 empty_world) = [].
Proof. repeat split; reflexivity. Qed.

(** Scenario 4: three failed attempts drop the message; the buffer is empty
    and [publish_message] returns. *)
Example scenario_4_message_dropped :
  (publish_message eager_settings (test_notification 0) broker_down).1 = Returns tt
  /\ _message_batch dropped = [] /\ broker_queue dropped = [].
Proof. repeat split; reflexivity. Qed.

(** An override that changes nothing is answered as if the record were
    missing: the second of two identical overrides. *)
Example repeated_override_is_not_found :
  (exists n, (update_status NotificationService_init "uuid-0" PENDING created).1
             = Returns n)
  /\ (update_status NotificationService_init "uuid-0" PENDING overridden_pending).1
     = Raises AttributeError.
Proof. split; [eexists|]; reflexivity. Qed.

(** An exception that reaches the handler of [process_notification] is not
    counted as an attempt: the notification is marked failed at once. *)
Example malformed_retry_count_marks_failed :
  (process_notification default_settings NotificationService_init malformed created).1
  = Returns false
  /\ store_writes (new_events created malformed_processed)
     = [(VStr "uuid-0", failed_fields 0)]
  /\ deliveries (new_events created malformed_processed) = [].
Proof. repeat split; reflexivity. Qed.

(** The delay grows with the retry count it is computed from. *)
Lemma backoff_delay_increasing self retry_count :
  0 < retry_delay self -> 0 <= retry_count ->
  backoff_delay self retry_count < backoff_delay self (retry_count + 1).
Proof.
  intros Hbase Hrc. unfold backoff_delay.
  rewrite Z.pow_add_r, Z.pow_1_r by lia.
  assert (0 < 2 ^ retry_count) by (apply Z.pow_pos_nonneg; lia). nia.
Qed.

(** C3. Two failures of the same notification in a row. The retry step
    hands the publisher the dictionary it was given, with the count it was
    given; the second failure therefore starts from the same count as the
    first, persists the same [retry_count = 1] and computes the same delay. *)
Theorem second_failure_repeats_the_first :
  resubmitted = queued
  /\ dict_get resubmitted "retry_count" (VInt 0) = VInt 0
  /\ store_writes (new_events failing_twice failed_once)
     = [(VStr "uuid-0", retry_fields 1 1)]
  /\ store_writes (new_events failed_once failed_twice)
     = [(VStr "uuid-0", retry_fields 1 2)]
  /\ (exists d, notifications failed_twice = [d] /\ d !! "retry_count" = Some (VInt 1))
  /\ backoff_delay NotificationService_init (0 + 1) = 120.
Proof.
  split; [reflexivity|]. split; [reflexivity|]. split; [reflexivity|].
  split; [reflexivity|]. split; [|reflexivity].
  exists (apply_set (retry_fields 1 2) (apply_set (retry_fields 1 1) queued)).
  split; reflexivity.
Qed.

(** ** Instances at concrete worlds, and counterexamples *)

Lemma update_status_unknown_id_witness :
  find_first (matches_id (VStr "missing")) (notifications created) = None
  /\ (update_status NotificationService_init "missing" SENT created).1
     = Raises AttributeError.
Proof.
  assert (H : find_first (matches_id (VStr "missing")) (notifications created) = None)
    by reflexivity.
  split; [exact H|].
  exact (update_status_unknown_id_raises_AttributeError
           NotificationService_init created "missing" SENT H).
Defined.



Lemma flush_under_lock_witness :
  (exists w', _process_batch_tick default_settings created = (Returns tt, w')
              /\ _message_batch w' = [])
  /\ (exists w', publish_message default_settings (test_notification 9) nine_buffered
                 = (Returns tt, w') /\ _message_batch w' = []).
Proof.
  destruct (flush_publishes_under_lock_then_clears default_settings
              (test_notification 9) created) as [Htimer _].
  destruct (flush_publishes_under_lock_then_clears default_settings
              (test_notification 9) nine_buffered) as [_ Hsize].
  split.
  - destruct Htimer as (evs & w' & Hrun & _ & _ & _ & _ & Hb).
    { vm_compute. discriminate. }
    exists w'. split; [exact Hrun|exact Hb].
  - destruct Hsize as (evs & w' & Hrun & _ & _ & _ & _ & Hb).
    { vm_compute. discriminate. }
    exists w'. split; [exact Hrun|exact Hb].
Defined.



Lemma flush_triggers_witness :
  (exists w', publish_message default_settings (test_notification 9) nine_buffered
              = (Returns tt, w') /\ _message_batch w' = [])
  /\ (exists w', _process_batch_tick default_settings created = (Returns tt, w')
                 /\ _message_batch w' = []).
Proof.
  destruct (flush_on_batch_size_and_on_timer default_settings (test_notification 9)
              nine_buffered) as [Hsize _].
  destruct (flush_on_batch_size_and_on_timer default_settings (test_notification 9)
              created) as [_ Htimer].
  split.
  - destruct Hsize as (att & evs & w' & Hrun & _ & _ & _ & _ & _ & Hb).
    { vm_compute. discriminate. }
    exists w'. split; [exact Hrun|exact Hb].
  - destruct Htimer as (att & evs & w' & Hrun & _ & _ & _ & _ & _ & Hb).
    { vm_compute. discriminate. }
    exists w'. split; [exact Hrun|exact Hb].
Defined.

Lemma update_status_writes_witness :
  exists d', notifications (update_status NotificationService_init "uuid-0" SENT
                              created).2 = [d']
             /\ d' !! "status" = Some (VStr "sent")
             /\ d' !! "sent_at" = Some (VDatetime 0)
             /\ d' !! "failed_at" = Some VNone
             /\ d' !! "retry_count" = queued !! "retry_count".
Proof.
  assert (H : hd false (store_faults created) = false) by reflexivity.
  destruct (update_status_writes_status_and_timestamps NotificationService_init
              created "uuid-0" SENT H) as [_ Hrec].
  destruct (Hrec [] queued []) as (d' & Hn & Hs & Hsent & Hfailed & Hother).
  - reflexivity.
  - constructor.
  - reflexivity.
  - exists d'. split; [exact Hn|]. split; [exact Hs|]. split; [exact Hsent|].
    split; [exact Hfailed|]. apply Hother; discriminate.
Defined.


(** C5 as stated fails: the buffered message of [hello] is published while
    the timer holds the lock, before the buffer is cleared. *)
Lemma flush_publishes_before_it_drains :
  _message_batch created = [message_of queued empty_world]
  /\ new_events created ticked
     = [EvSleep 5; EvAcquire; EvFlush [message_of queued empty_world];
        EvPublish (message_of queued empty_world) 1 true; EvClear; EvRelease]
  /\ publishes_after_drain false false (new_events created ticked) = false.
Proof. repeat split; reflexivity. Qed.



(** ** Creating and reading back *)

Section Create_and_get.
Context (settings : Settings).
Context (uuid4 : nat -> string).
Context (self : NotificationService).

Lemma find_first_app_new (p : Doc -> bool) ds d :
  find_first p ds = None -> p d = true -> find_first p (ds ++ [d]) = Some d.
Proof.
  induction ds as [|x ds IH]; cbn; [by intros _ ->|].
  destruct (p x); [done|]. exact IH.
Qed.

Lemma type_of_type_value t : type_of_value (type_value t) = Some t.
Proof. by destruct t. Qed.

Lemma status_of_status_value s : status_of_value (status_value s) = Some s.
Proof. by destruct s. Qed.

(** The record [create_notification] returns for an input. *)
Lemma validate_create_notification c notification_id created_at :
  0 <= max_retries self ->
  validate_create c = true ->
  validate_notification
    {| Notification.user_id := NotificationCreate.user_id c;
       Notification.type := NotificationCreate.type c;
       Notification.title := NotificationCreate.title c;
       Notification.message := NotificationCreate.message c;
       Notification.metadata := Some (default [] (NotificationCreate.metadata c));
       Notification.id := notification_id;
       Notification.status := PENDING;
       Notification.created_at := created_at;
       Notification.sent_at := None;
       Notification.failed_at := None;
       Notification.error := None;
       Notification.retry_count := 0;
       Notification.max_retries := max_retries self |} = true.
Proof.
  intros Hmx Hc. unfold validate_notification, validate_create in *.
  cbn [Notification.user_id Notification.title Notification.message
       Notification.retry_count Notification.max_retries].
  rewrite Hc. cbn [andb]. apply andb_true_intro. split; apply Z.leb_le; lia.
Qed.

(** Decoding what [create_notification] stores gives what it returns. *)
Lemma Notification_of_new_doc c notification_id created_at oid :
  0 <= max_retries self ->
  validate_create c = true ->
  Notification_of_doc (max_retries self)
    (<["_id" := VObjectId oid]> (new_notification_doc self c notification_id created_at))
  = Some
      {| Notification.user_id := NotificationCreate.user_id c;
         Notification.type := NotificationCreate.type c;
         Notification.title := NotificationCreate.title c;
         Notification.message := NotificationCreate.message c;
         Notification.metadata := Some (default [] (NotificationCreate.metadata c));
         Notification.id := notification_id;
         Notification.status := PENDING;
         Notification.created_at := created_at;
         Notification.sent_at := None;
         Notification.failed_at := None;
         Notification.error := None;
         Notification.retry_count := 0;
         Notification.max_retries := max_retries self |}.
Proof.
  intros Hmx Hc.
  pose proof (validate_create_notification c notification_id created_at Hmx Hc) as Hv.
  unfold Notification_of_doc, new_notification_doc, get_str, get_datetime, get_opt,
    dict_get.
  simplify_map_eq. cbn.
  rewrite type_of_type_value. cbn. by rewrite Hv.
Qed.

End Create_and_get.

(** ** [create_notification] and [get_notification], run *)

Section Create_and_get_runs.
Context (settings : Settings).
Context (uuid4 : nat -> string).
Context (self : NotificationService).

(** A creation on a store that answers, step by step. *)
Lemma create_notification_run c w :
  0 <= max_retries self ->
  validate_create c = true ->
  hd false (store_faults w) = false ->
  let notification_id := uuid4 (uuid_calls w) in
  let stored := <["_id" := VObjectId (next_oid w)]>
                  (new_notification_doc self c notification_id (clock w)) in
  exists n evs w',
    create_notification settings uuid4 self c w = (Returns n, w')
    /\ Notification_of_doc (max_retries self) stored = Some n
    /\ Notification.id n = notification_id
    /\ Notification.status n = PENDING
    /\ Notification.retry_count n = 0
    /\ Notification.created_at n = clock w
    /\ notifications w' = notifications w ++ [stored]
    /\ store_faults w' = tail (store_faults w)
    /\ trace w' = trace w ++ evs
    /\ store_writes evs = []
    /\ appended evs = [message_of stored w].
Proof.
  intros Hmx Hc Hst notification_id stored.
  assert (Hnew : new_notification_doc self c notification_id (clock w) !! "_id" = None).
  { unfold new_notification_doc. by simplify_map_eq. }
  pose proof (Notification_of_new_doc self c notification_id (clock w) (next_oid w)
                Hmx Hc) as Hdec.
  pose proof (validate_create_notification self c notification_id (clock w) Hmx Hc) as Hv.
  unfold create_notification, new_uuid, insert_one, store_call. run.
  fold notification_id. rewrite Hnew. fold stored.
  destruct (store_faults w) as [|[] fs] eqn:Hfs; [|discriminate Hst|]; cbn;
    fold stored;
    match goal with |- context [publish_message settings stored ?x] => set (w1 := x) end;
    destruct (publish_message_events settings stored w1)
      as (evs & w' & Hrun & Hfr & Htrace & Hsw & Hdl & Hap);
    rewrite Hrun; rewrite Hv;
    (eexists _, evs, w'; split; [reflexivity|]);
    (split; [exact Hdec|]); cbn;
    (split; [reflexivity|]); (split; [reflexivity|]); (split; [reflexivity|]);
    (split; [reflexivity|]);
    destruct Hfr as [Hn ? Hsf _ _ _];
    (split; [by rewrite Hn|]);
    (split; [by rewrite Hsf|]);
    (split; [by rewrite Htrace|]);
    by rewrite Hsw, Hap.
Qed.

(** A read of a stored, well-formed record on a store that answers. *)
Lemma get_notification_found notification_id d n w :
  store_faults w = [] ->
  find_first (matches_id (VStr notification_id)) (notifications w) = Some d ->
  Notification_of_doc (max_retries self) d = Some n ->
  get_notification self notification_id w = (Returns (Some n), w).
Proof.
  intros Hst Hfind Hdec. unfold get_notification, find_one, store_call. run.
  by rewrite Hst, Hfind, Hdec.
Qed.

(** X1. On a store that answers, [create_notification] returns a pending
    notification with a fresh id, [retry_count] 0 and the current time as
    [created_at]; the collection gains exactly one document, at its end,
    which decodes to the notification returned; that document (with the
    [_id] the store gave it) is handed to the publisher once, and no update
    is written. *)
Theorem create_notification_stores_and_enqueues c w :
  0 <= max_retries self ->
  validate_create c = true ->
  hd false (store_faults w) = false ->
  let notification_id := uuid4 (uuid_calls w) in
  let stored := <["_id" := VObjectId (next_oid w)]>
                  (new_notification_doc self c notification_id (clock w)) in
  exists n w',
    create_notification settings uuid4 self c w = (Returns n, w')
    /\ Notification_of_doc (max_retries self) stored = Some n
    /\ Notification.id n = notification_id
    /\ Notification.status n = PENDING
    /\ Notification.retry_count n = 0
    /\ Notification.created_at n = clock w
    /\ notifications w' = notifications w ++ [stored]
    /\ appended (new_events w w') = [message_of stored w]
    /\ store_writes (new_events w w') = [].
Proof.
  intros Hmx Hc Hst notification_id stored.
  destruct (create_notification_run c w Hmx Hc Hst)
    as (n & evs & w' & Hrun & Hdec & Hid & Hs & Hrc & Hat & Hn & _ & Htr & Hsw & Hap).
  exists n, w'. unfold new_events. rewrite Htr, drop_app_length. by repeat split.
Qed.

(** X2. [create_notification] raises nothing but an [HTTPException] with
    status 500; when the insert fails, that is what it raises, and nothing
    was stored, buffered or published. *)
Theorem create_notification_fails_with_500 c w :
  (forall e, (create_notification settings uuid4 self c w).1 = Raises e ->
             e = HTTPException HTTP_500_INTERNAL_SERVER_ERROR)
  /\ (hd false (store_faults w) = true ->
      let r := create_notification settings uuid4 self c w in
      r.1 = Raises (HTTPException HTTP_500_INTERNAL_SERVER_ERROR)
      /\ notifications r.2 = notifications w
      /\ _message_batch r.2 = _message_batch w
      /\ trace r.2 = trace w).
Proof.
  split.
  - intros e. unfold create_notification. rewrite run_try_except.
    match goal with |- context [match ?m with _ => _ end] =>
      destruct m as [[n|e'] w'] end; cbn; congruence.
  - intros Hst. unfold create_notification, new_uuid, insert_one, store_call. run.
    destruct (store_faults w) as [|[] fs]; try discriminate Hst. cbn. done.
Qed.


(** X4. Round trip: reading back the id that [create_notification] returned
    gives the notification it returned, when the id generator produced an
    id no stored record has. *)
Theorem get_after_create_returns_created c w :
  0 <= max_retries self ->
  validate_create c = true ->
  store_faults w = [] ->
  find_first (matches_id (VStr (uuid4 (uuid_calls w)))) (notifications w) = None ->
  exists n w',
    create_notification settings uuid4 self c w = (Returns n, w')
    /\ get_notification self (Notification.id n) w' = (Returns (Some n), w').
Proof.
  intros Hmx Hc Hst Hfresh.
  assert (Hhd : hd false (store_faults w) = false) by (by rewrite Hst).
  destruct (create_notification_run c w Hmx Hc Hhd)
    as (n & evs & w' & Hrun & Hdec & Hid & _ & _ & _ & Hn & Hsf & _).
  exists n, w'. split; [exact Hrun|].
  eapply get_notification_found; [by rewrite Hsf, Hst| |exact Hdec].
  rewrite Hn, Hid. apply find_first_app_new; [done|].
  unfold matches_id. rewrite lookup_insert_ne by done.
  unfold new_notification_doc. rewrite lookup_insert_eq. by apply bool_decide_eq_true_2.
Qed.

End Create_and_get_runs.

(** ** [process_notification] at the edges of its input *)

Section Process_edges.
Context (settings : Settings).
Context (self : NotificationService).

(** X5. [process_notification] does not look the notification up: for a
    dictionary whose id no stored record has, a delivery that succeeds is
    reported as success although the write that marks it sent lands on no
    record; the collection is as before. *)
Theorem process_unrecorded_notification_reports_success
    notification notification_id rc w :
  notification !! "id" = Some notification_id ->
  dict_get notification "retry_count" (VInt 0) = VInt rc ->
  rc < max_retries self ->
  hd false (transport_faults w) = false ->
  store_faults w = [] ->
  find_first (matches_id notification_id) (notifications w) = None ->
  let r := process_notification settings self notification w in
  r.1 = Returns true
  /\ notifications r.2 = notifications w
  /\ deliveries (new_events w r.2) = [(notification, true)].
Proof.
  intros Hid Hrc Hlt Htr Hst Hnone r. subst r.
  destruct (process_delivered_run settings self notification notification_id rc w)
    as (w' & Hrun & Hn & Htrace & _); try done.
  rewrite Hrun. split; [done|]. cbn. rewrite Hn.
  split; [by apply replace_first_no_match|].
  unfold new_events. by rewrite Htrace, drop_app_length.
Qed.

(** X6. A dictionary without the key ["id"] makes [process_notification]
    raise [KeyError] to its caller (the handler reads ["id"] again), without
    any store write or resubmission; below the retry bound the delivery is
    attempted first. *)
Theorem process_without_id_raises_KeyError notification w :
  notification !! "id" = None ->
  let r := process_notification settings self notification w in
  r.1 = Raises KeyError
  /\ notifications r.2 = notifications w
  /\ store_writes (new_events w r.2) = []
  /\ appended (new_events w r.2) = []
  /\ (forall rc, dict_get notification "retry_count" (VInt 0) = VInt rc ->
        rc < max_retries self ->
        exists ok, deliveries (new_events w r.2) = [(notification, ok)]).
Proof.
  intros Hid r. subst r.
  unfold process_notification, _send_notification, transport, _schedule_retry,
    _mark_as_sent, _mark_as_failed, getitem, new_events.
  rewrite Hid.
  destruct (dict_get notification "retry_count" (VInt 0)) as [| |z| | |] eqn:Hrc;
    cbn [py_ge py_add]; run;
    try (rewrite drop_all; repeat split; try done; intros rc' [=]).
  destruct (bool_decide (z >= max_retries self)) eqn:Hge; cbn.
  { rewrite drop_all. repeat split; try done.
    intros rc' [= <-] Hlt. apply bool_decide_eq_true in Hge. lia. }
  destruct (transport_faults w) as [|[] fs]; cbn;
    rewrite <- app_assoc, drop_app_length; cbn;
    (repeat split; try done); intros _ _ _; by eexists.
Qed.

End Process_edges.

(** ** [update_status] on a record that is there *)

Section Update_status_success.
Context (self : NotificationService).

(** Decoding commutes with the override. *)
Lemma Notification_of_overridden_doc mx d n status now :
  Notification_of_doc mx d = Some n ->
  Notification_of_doc mx (apply_set (status_fields status now) d)
  = Some (overridden_notification n status now).
Proof.
  destruct (status_fields_spec status now d) as (Hs & Hsent & Hfailed & Hother).
  cbv zeta in *.
  set (d' := apply_set (status_fields status now) d) in *. clearbody d'.
  assert (Hstr : forall k, k <> "status" -> k <> "sent_at" -> k <> "failed_at" ->
                           get_str d' k = get_str d k).
  { intros k ? ? ?. unfold get_str. by rewrite Hother. }
  assert (Hget : forall k def, k <> "status" -> k <> "sent_at" -> k <> "failed_at" ->
                           dict_get d' k def = dict_get d k def).
  { intros k def ? ? ?. unfold dict_get. by rewrite Hother. }
  assert (Hstatus : get_str d' "status" ≫= status_of_value = Some status).
  { unfold get_str. rewrite Hs. cbn. apply status_of_status_value. }
  assert (Hs1 : get_opt d' "sent_at" read_datetime
                = Some (if decide (status = SENT) then Some now else None)).
  { unfold get_opt. rewrite Hsent. by destruct (decide (status = SENT)). }
  assert (Hs2 : get_opt d' "failed_at" read_datetime
                = Some (if decide (status = FAILED) then Some now else None)).
  { unfold get_opt. rewrite Hfailed. by destruct (decide (status = FAILED)). }
  assert (Herr : get_opt d' "error" read_str = get_opt d "error" read_str).
  { unfold get_opt. by rewrite Hother. }
  assert (Hdt : get_datetime d' "created_at" = get_datetime d "created_at").
  { unfold get_datetime. by rewrite Hother. }
  unfold Notification_of_doc.
  rewrite Hstatus, Hs1, Hs2, Herr, Hdt.
  rewrite !Hstr, !Hget by done.
  clear. intros Hdec.
  destruct (get_str d "id") as [id|]; [|discriminate Hdec].
  destruct (get_str d "user_id") as [user_id|]; [|discriminate Hdec].
  destruct (get_str d "title") as [title|]; [|discriminate Hdec].
  destruct (get_str d "message") as [message|]; [|discriminate Hdec].
  destruct (get_str d "type" ≫= type_of_value) as [type|]; [|discriminate Hdec].
  destruct (get_str d "status" ≫= status_of_value) as [status0|]; [|discriminate Hdec].
  destruct (get_datetime d "created_at") as [created_at|]; [|discriminate Hdec].
  destruct (get_opt d "sent_at" read_datetime) as [sent_at|]; [|discriminate Hdec].
  destruct (get_opt d "failed_at" read_datetime) as [failed_at|]; [|discriminate Hdec].
  destruct (get_opt d "error" read_str) as [error|]; [|discriminate Hdec].
  destruct (read_int (dict_get d "retry_count" (VInt 0))) as [retry_count|];
    [|discriminate Hdec].
  destruct (read_int (dict_get d "max_retries" (VInt mx))) as [max_retries|];
    [|discriminate Hdec].
  destruct (get_opt_dict (dict_get d "metadata" (VDict []))) as [metadata|];
    [|discriminate Hdec].
  cbn [mbind option_bind] in *. cbv zeta in *.
  unfold validate_notification in *. cbn [Notification.user_id Notification.title
    Notification.message Notification.retry_count Notification.max_retries] in *.
  match type of Hdec with (if ?b then _ else _) = _ => destruct b end;
    [|discriminate Hdec].
  by injection Hdec as <-.
Qed.

Lemma status_fields_keep_id status now :
  Forall (fun kv : string * value => kv.1 <> "id") (status_fields status now).
Proof. unfold status_fields. repeat constructor; done. Qed.

(** X7. [update_status] on a store that answers, for an id whose first
    record decodes to [n]: when the override changes the record, the call
    returns [n] with the new status, [sent_at] the current time for [SENT]
    and unset otherwise, [failed_at] the current time for [FAILED] and unset
    otherwise, and every other field as before; when the override changes
    nothing, the call raises [AttributeError].  Either way exactly one
    update was written. *)
Theorem update_status_returns_overridden notification_id status d n w :
  store_faults w = [] ->
  find_first (matches_id (VStr notification_id)) (notifications w) = Some d ->
  Notification_of_doc (max_retries self) d = Some n ->
  let r := update_status self notification_id status w in
  (apply_set (status_fields status (clock w)) d <> d ->
   r.1 = Returns (overridden_notification n status (clock w)))
  /\ (apply_set (status_fields status (clock w)) d = d ->
      r.1 = Raises AttributeError)
  /\ store_writes (new_events w r.2)
     = [(VStr notification_id, status_fields status (clock w))].
Proof.
  intros Hst Hfind Hdec r. subst r.
  destruct (find_first_split _ _ _ Hfind) as (pre & post & Hw & Hpre & Hd).
  unfold update_status, status_getattr, new_events.
  cbv [mbind M_bind mret M_ret try_except utcnow raise].
  fold (status_fields status (clock w)).
  rewrite (update_one_run w _ _ Hst). cbn -[apply_set status_fields]. rewrite Hfind.
  destruct (decide (apply_set (status_fields status (clock w)) d = d)) as [Heq|Hne];
    [rewrite (decide_True (P := 0 = 0)) by done
    |rewrite (decide_False (P := 1 = 0)) by done];
    cbn -[apply_set status_fields].
  { split; [done|]. split; [done|]. by rewrite drop_app_length. }
  match goal with |- context [get_notification self notification_id ?x] =>
    set (w1 := x) end.
  rewrite (get_notification_found self notification_id
             (apply_set (status_fields status (clock w)) d)
             (overridden_notification n status (clock w)) w1).
  - cbn -[apply_set status_fields]. split; [done|]. split; [done|].
    by rewrite drop_app_length.
  - done.
  - subst w1. cbn. rewrite Hw.
    destruct (replace_first_split (matches_id (VStr notification_id))
                (apply_set (status_fields status (clock w))) pre d post Hpre Hd)
      as [-> _].
    refine (proj2 (replace_first_split _ (fun x => x) pre _ post Hpre _)).
    rewrite matches_id_apply_set; [done|apply status_fields_keep_id].
  - by apply Notification_of_overridden_doc.
Qed.

End Update_status_success.

(** ** What reaches the broker *)

Section Delivery.
Context (settings : Settings).

Lemma failures_cons b fs :
  failures (b :: fs) = if b : bool then S (failures fs) else failures fs.
Proof. by destruct b. Qed.

Lemma channel_publish_queue message attempt w :
  exists w',
    channel_publish message attempt w = (Returns true, w')
    /\ broker_queue w' = broker_queue w ++ [message]
    /\ (failures (broker_faults w') <= failures (broker_faults w))%nat
    /\ _message_batch w' = _message_batch w
  \/ channel_publish message attempt w = (Returns false, w')
    /\ broker_queue w' = broker_queue w
    /\ (S (failures (broker_faults w')) <= failures (broker_faults w))%nat
    /\ _message_batch w' = _message_batch w.
Proof.
  unfold channel_publish.
  destruct (broker_faults w) as [|[] fs] eqn:Hf; eexists.
  - left. repeat split; cbn [broker_queue broker_faults _message_batch set_trace
      set_broker_queue set_broker_faults]; rewrite ?Hf; done.
  - right. repeat split; cbn [broker_queue broker_faults _message_batch set_trace
      set_broker_queue set_broker_faults]. rewrite failures_cons. lia.
  - left. repeat split; cbn [broker_queue broker_faults _message_batch set_trace
      set_broker_queue set_broker_faults]. rewrite failures_cons. lia.
Qed.

(** The retry loop for one message: it is accepted once, or every one of
    the [fuel] attempts used up a failure of the broker. *)
Lemma publish_attempts_queue max_retries retry_delay message fuel : forall attempt w,
  exists w',
    publish_attempts max_retries retry_delay message attempt fuel w = (Returns tt, w')
    /\ _message_batch w' = _message_batch w
    /\ (broker_queue w' = broker_queue w ++ [message]
        /\ (failures (broker_faults w') <= failures (broker_faults w))%nat
        \/ broker_queue w' = broker_queue w
           /\ (failures (broker_faults w') + fuel <= failures (broker_faults w))%nat).
Proof.
  induction fuel as [|fuel IH]; intros attempt w.
  - exists w. cbn. split; [done|]. split; [done|]. right. split; [done|lia].
  - cbn [publish_attempts]. rewrite run_bind.
    destruct (channel_publish_queue message attempt w)
      as (w1 & [(Hrun & Hq & Hf & Hb)|(Hrun & Hq & Hf & Hb)]); rewrite Hrun.
    + exists w1. split; [done|]. split; [done|]. left. done.
    + rewrite run_bind.
      set (pause := if decide (attempt = max_retries) then mret tt else sleep retry_delay).
      assert (Hp : exists w2, pause w1 = (Returns tt, w2)
                              /\ broker_queue w2 = broker_queue w1
                              /\ broker_faults w2 = broker_faults w1
                              /\ _message_batch w2 = _message_batch w1).
      { subst pause. destruct (decide (attempt = max_retries)); eexists;
          (split; [reflexivity|]); done. }
      destruct Hp as (w2 & -> & Hq2 & Hf2 & Hb2).
      destruct (IH (attempt + 1) w2) as (w3 & -> & Hb3 & Hcase).
      exists w3. split; [done|]. split; [congruence|].
      rewrite Hq2, Hf2, Hq in Hcase.
      destruct Hcase as [[Hq3 Hf3]|[Hq3 Hf3]]; [left|right]; (split; [done|lia]).
Qed.

(** The outer loop of [_publish_batch]: what the broker accepted is a
    sublist of the batch, in the order of the batch, and every message it
    did not accept used up three failures of the broker. *)
Lemma for_each_attempts_queue batch : forall w,
  exists sent w',
    for_each (fun message => publish_attempts 3 1 message 1 (Z.to_nat 3)) batch w
      = (Returns tt, w')
    /\ _message_batch w' = _message_batch w
    /\ broker_queue w' = broker_queue w ++ sent
    /\ sublist sent batch
    /\ (failures (broker_faults w') + 3 * (length batch - length sent)
        <= failures (broker_faults w))%nat.
Proof.
  induction batch as [|message batch IH]; intros w.
  - exists [], w. cbn. rewrite app_nil_r. repeat split; try done. lia.
  - cbn [for_each]. rewrite run_bind.
    destruct (publish_attempts_queue 3 1 message (Z.to_nat 3) 1 w)
      as (w1 & -> & Hb1 & Hcase).
    destruct (IH w1) as (sent & w2 & -> & Hb2 & Hq2 & Hsub & Hf2).
    pose proof (sublist_length _ _ Hsub) as Hlen.
    destruct Hcase as [[Hq1 Hf1]|[Hq1 Hf1]].
    + exists (message :: sent), w2. split; [done|]. split; [congruence|].
      split; [by rewrite Hq2, Hq1, <- app_assoc|].
      split; [by constructor|]. cbn [length]. lia.
    + exists sent, w2. split; [done|]. split; [congruence|].
      split; [by rewrite Hq2, Hq1|].
      split; [by constructor|]. cbn [length].
      change (Z.to_nat 3) with 3%nat in Hf1. lia.
Qed.

Lemma sublist_full {A} (l k : list A) :
  sublist l k -> (length k <= length l)%nat -> l = k.
Proof.
  induction 1 as [|x l k _ IH|x l k Hsub IH]; cbn; intros Hlen; [done| |].
  - f_equal. apply IH. lia.
  - apply sublist_length in Hsub. lia.
Qed.

Lemma _publish_batch_queue w :
  exists sent w',
    _publish_batch w = (Returns tt, w')
    /\ _message_batch w' = []
    /\ broker_queue w' = broker_queue w ++ sent
    /\ sublist sent (_message_batch w)
    /\ (3 * (length (_message_batch w) - length sent)
        <= failures (broker_faults w))%nat.
Proof.
  unfold _publish_batch. rewrite run_bind. cbn [get_world].
  destruct (_message_batch w) as [|m0 batch] eqn:Hbatch.
  { exists [], w. cbn. rewrite app_nil_r. repeat split; try done. lia. }
  rewrite run_bind. cbn [emit modify]. cbv zeta. rewrite run_bind.
  match goal with |- context [for_each _ _ ?x] => set (w0 := x) end.
  destruct (for_each_attempts_queue (m0 :: batch) w0)
    as (sent & w1 & Hrun & Hb & Hq & Hsub & Hf).
  rewrite Hrun.
  eexists sent, _. split; [reflexivity|].
  split; [done|]. split; [exact Hq|]. split; [done|].
  subst w0. cbn [broker_faults set_trace] in Hf. lia.
Qed.

(** X8. A flush never raises and always empties the buffer.  What the
    broker accepted of it is a sublist of the buffer, in buffer order (no
    message twice, none invented); each message it did not accept has used
    up three failures of the broker, and is gone from the buffer as well.
    So with at most two failures of the broker ahead the whole buffer is
    delivered. *)
Theorem _publish_batch_delivers_in_order w :
  exists sent w',
    _publish_batch w = (Returns tt, w')
    /\ _message_batch w' = []
    /\ broker_queue w' = broker_queue w ++ sent
    /\ sublist sent (_message_batch w)
    /\ (3 * (length (_message_batch w) - length sent)
        <= failures (broker_faults w))%nat
    /\ ((failures (broker_faults w) <= 2)%nat -> sent = _message_batch w).
Proof.
  destruct (_publish_batch_queue w) as (sent & w' & Hrun & Hb & Hq & Hsub & Hlost).
  exists sent, w'. repeat split; try done.
  intros Hf. apply sublist_full; [done|lia].
Qed.

End Delivery.

(** ** The timer loop *)

Section Timer.
Context (settings : Settings).

(** One turn of the loop with nothing buffered. *)
Lemma _process_batch_tick_idle w :
  _message_batch w = [] ->
  exists w',
    _process_batch_tick settings w = (Returns tt, w')
    /\ publisher_frame w w'
    /\ trace w' = trace w ++ [EvSleep (RABBITMQ_BATCH_TIMEOUT settings); EvAcquire;
                              EvRelease]
    /\ _message_batch w' = []
    /\ broker_queue w' = broker_queue w
    /\ broker_faults w' = broker_faults w
    /\ clock w' = clock w + Z.max 0 (RABBITMQ_BATCH_TIMEOUT settings).
Proof.
  intros Hb. unfold _process_batch_tick, with_batch_lock. run. rewrite Hb. cbn.
  eexists. split; [reflexivity|]. cbn.
  split; [split; cbn; try done; lia|].
  split; [trace_eq|]. done.
Qed.

(** One turn of the loop with something buffered. *)
Lemma _process_batch_tick_flush w :
  _message_batch w <> [] ->
  exists sent attempts w',
    _process_batch_tick settings w = (Returns tt, w')
    /\ publisher_frame w w'
    /\ trace w' = trace w ++ EvSleep (RABBITMQ_BATCH_TIMEOUT settings) :: EvAcquire
                   :: EvFlush (_message_batch w) :: attempts ++ [EvClear; EvRelease]
    /\ Forall (fun e => is_attempt_event e = true) attempts
    /\ _message_batch w' = []
    /\ broker_queue w' = broker_queue w ++ sent
    /\ sublist sent (_message_batch w)
    /\ (3 * (length (_message_batch w) - length sent) <= failures (broker_faults w))%nat.
Proof.
  intros Hne.
  destruct (_process_batch_tick_run settings w Hne)
    as (att & w' & Hrun & Hfr & Hb & Htr & Hall & _).
  assert (Hq : exists sent,
             broker_queue w' = broker_queue w ++ sent
             /\ sublist sent (_message_batch w)
             /\ (3 * (length (_message_batch w) - length sent)
                 <= failures (broker_faults w))%nat).
  { revert Hrun. unfold _process_batch_tick, with_batch_lock. run.
    destruct (_message_batch w) as [|m0 batch] eqn:Hbw; [done|].
    match goal with |- context [_publish_batch ?x] => set (w1 := x) end.
    destruct (_publish_batch_queue w1) as (sent & w2 & -> & _ & Hq & Hsub & Hlost).
    cbn. intros [= <-]. exists sent. cbn. subst w1. cbn in *.
    rewrite Hbw in *. done. }
  destruct Hq as (sent & Hq & Hsub & Hlost).
  exists sent, att, w'. done.
Qed.

(** The loop, turn after turn, with no producer in between. *)
Lemma _process_batch_run ticks : forall w,
  exists sent evs w',
    _process_batch settings ticks w = (Returns tt, w')
    /\ publisher_frame w w'
    /\ trace w' = trace w ++ evs
    /\ broker_queue w' = broker_queue w ++ sent
    /\ sublist sent (_message_batch w)
    /\ _message_batch w' = (if ticks is O then _message_batch w else [])
    /\ count_flushes evs
       = (if decide (ticks = O \/ _message_batch w = []) then 0 else 1)%nat
    /\ (_message_batch w = [] ->
        sent = []
        /\ clock w' = clock w
                      + Z.of_nat ticks * Z.max 0 (RABBITMQ_BATCH_TIMEOUT settings))
    /\ (ticks <> O -> (failures (broker_faults w) <= 2)%nat -> sent = _message_batch w).
Proof.
  induction ticks as [|ticks IH]; intros w.
  - exists [], [], w. cbn [_process_batch]. rewrite !app_nil_r.
    split; [done|]. split; [apply publisher_frame_refl|]. split; [done|].
    split; [done|]. split; [apply sublist_nil_l|]. split; [done|].
    split; [by rewrite decide_True by (by left)|]. split; [|done].
    intros _. split; [done|lia].
  - cbn [_process_batch]. rewrite run_bind.
    destruct (decide (_message_batch w = [])) as [Hb|Hb].
    + destruct (_process_batch_tick_idle w Hb)
        as (w1 & -> & Hfr1 & Htr1 & Hb1 & Hq1 & Hf1 & Hc1).
      destruct (IH w1)
        as (sent & evs & w2 & -> & Hfr2 & Htr2 & Hq2 & Hsub2 & Hb2 & Hcnt2 & Hidle2 & _).
      destruct (Hidle2 Hb1) as [-> Hc2].
      eexists [], _, w2. split; [done|].
      split; [eauto using publisher_frame_trans|].
      split; [rewrite Htr2, Htr1, <- app_assoc; reflexivity|].
      split; [by rewrite Hq2, Hq1|]. split; [apply sublist_nil_l|].
      split; [rewrite Hb2, Hb1; by destruct ticks|].
      split.
      { rewrite count_flushes_app, Hcnt2.
        rewrite !decide_True by (by right). done. }
      split; [|by rewrite Hb].
      intros _. split; [done|]. rewrite Hc2, Hc1. lia.
    + destruct (_process_batch_tick_flush w Hb)
        as (sent & att & w1 & -> & Hfr1 & Htr1 & Hall & Hb1 & Hq1 & Hsub & Hlost).
      destruct (IH w1)
        as (sent2 & evs & w2 & -> & Hfr2 & Htr2 & Hq2 & _ & Hb2 & Hcnt2 & Hidle2 & _).
      destruct (Hidle2 Hb1) as [-> _].
      eexists sent, _, w2. split; [done|].
      split; [eauto using publisher_frame_trans|].
      split; [rewrite Htr2, Htr1, <- app_assoc; reflexivity|].
      split; [by rewrite Hq2, Hq1, app_nil_r|]. split; [done|].
      split; [rewrite Hb2, Hb1; by destruct ticks|].
      split.
      { rewrite count_flushes_app, Hcnt2.
        rewrite (decide_True (P := ticks = O \/ _message_batch w1 = [])) by (by right).
        rewrite decide_False by (intros [?|?]; done).
        change (EvSleep (RABBITMQ_BATCH_TIMEOUT settings) :: EvAcquire
                :: EvFlush (_message_batch w) :: att ++ [EvClear; EvRelease])
          with ([EvSleep (RABBITMQ_BATCH_TIMEOUT settings); EvAcquire;
                 EvFlush (_message_batch w)] ++ att ++ [EvClear; EvRelease]).
        destruct (attempt_events_silent att Hall) as (_ & _ & _ & Hcount).
        by rewrite !count_flushes_app, Hcount. }
      split; [done|].
      intros _ Hf. apply sublist_full; [done|lia].
Qed.

(** X9. The timer loop, left alone for [ticks] turns: it never raises and
    touches nothing but the publisher's side of the world; what it hands to
    the broker is a sublist of the buffer, in buffer order, the whole buffer
    when at most two failures of the broker lie ahead; after the first turn
    the buffer is empty; the buffer is flushed once if it held something and
    not at all otherwise; and turns on an empty buffer cost only the pauses. *)
Theorem timer_loop_flushes_once ticks w :
  exists sent w',
    _process_batch settings ticks w = (Returns tt, w')
    /\ publisher_frame w w'
    /\ broker_queue w' = broker_queue w ++ sent
    /\ sublist sent (_message_batch w)
    /\ (ticks <> O -> _message_batch w' = [])
    /\ count_flushes (new_events w w')
       = (if decide (ticks = O \/ _message_batch w = []) then 0 else 1)%nat
    /\ (_message_batch w = [] ->
        sent = []
        /\ clock w' = clock w
                      + Z.of_nat ticks * Z.max 0 (RABBITMQ_BATCH_TIMEOUT settings))
    /\ (ticks <> O -> (failures (broker_faults w) <= 2)%nat -> sent = _message_batch w).
Proof.
  destruct (_process_batch_run ticks w)
    as (sent & evs & w' & Hrun & Hfr & Htr & Hq & Hsub & Hb & Hcnt & Hidle & Hall).
  exists sent, w'. unfold new_events. rewrite Htr, drop_app_length.
  split; [done|]. split; [done|]. split; [done|]. split; [done|].
  split; [|done]. intros Hk. rewrite Hb. by destruct ticks.
Qed.

End Timer.

(** ** What every operation keeps *)

(** An invariant [I] of the collection and the buffer is kept by every
    operation as soon as it is kept by the writes of the service, by the
    insertion of a new notification and by the publisher. *)
Section Every_operation.
Context (settings : Settings).
Context (uuid4 : nat -> string).
Context (self : NotificationService).
Context (I : World -> Prop).
Hypothesis I_frame : forall w w',
  notifications w' = notifications w -> _message_batch w' = _message_batch w ->
  I w -> I w'.
Hypothesis I_update : forall v fields w,
  service_write fields -> I w ->
  I (set_notifications
       (replace_first (matches_id v) (apply_set fields) (notifications w)) w).
Hypothesis I_insert : forall c notification_id created_at w,
  I w ->
  I (set_notifications
       (notifications w
        ++ [<["_id" := VObjectId (next_oid w)]>
              (new_notification_doc self c notification_id created_at)]) w).
Hypothesis I_publish : forall message, preserves I (publish_message settings message).
Hypothesis I_tick : preserves I (_process_batch_tick settings).

Lemma keeps_frame {A} (m : M A) :
  (forall w, notifications (m w).2 = notifications w
             /\ _message_batch (m w).2 = _message_batch w) ->
  preserves I m.
Proof. intros Hm w Hw. destruct (Hm w). by eapply I_frame. Qed.

Lemma keeps_getitem d k : preserves I (getitem d k).
Proof. apply keeps_frame. intros w. unfold getitem. by destruct (d !! k). Qed.

Lemma keeps_py_ge v n : preserves I (py_ge v n).
Proof. apply keeps_frame. intros w. by destruct v. Qed.

Lemma keeps_py_add v n : preserves I (py_add v n).
Proof. apply keeps_frame. intros w. by destruct v. Qed.

Lemma keeps_utcnow : preserves I utcnow.
Proof. by apply keeps_frame. Qed.

Lemma keeps_sleep secs : preserves I (sleep secs).
Proof. by apply keeps_frame. Qed.

Lemma keeps_transport notification : preserves I (transport notification).
Proof.
  apply keeps_frame. intros w. unfold transport.
  by destruct (transport_faults w) as [|[] fs].
Qed.

Lemma keeps_find_one v : preserves I (find_one v).
Proof.
  apply keeps_frame. intros w. unfold find_one, store_call. run.
  by destruct (store_faults w) as [|[] fs].
Qed.

Lemma keeps_update_one v fields :
  service_write fields -> preserves I (update_one v fields).
Proof.
  intros Hf w Hw. pose proof (I_update v fields w Hf Hw) as Hw'.
  unfold update_one, store_call. run.
  destruct (store_faults w) as [|[] fs]; cbn;
    first [by eapply I_frame; [| |exact Hw'] | by eapply I_frame; [| |exact Hw]].
Qed.

Lemma keeps_insert_new c notification_id created_at :
  preserves I (insert_one (new_notification_doc self c notification_id created_at)).
Proof.
  intros w Hw. pose proof (I_insert c notification_id created_at w Hw) as Hw'.
  assert (Hnew : new_notification_doc self c notification_id created_at !! "_id" = None).
  { unfold new_notification_doc. by simplify_map_eq. }
  unfold insert_one, store_call. run. rewrite Hnew.
  destruct (store_faults w) as [|[] fs]; cbn;
    first [by eapply I_frame; [| |exact Hw'] | by eapply I_frame; [| |exact Hw]].
Qed.

Lemma keeps__mark_as_sent notification_id : preserves I (_mark_as_sent notification_id).
Proof.
  unfold _mark_as_sent.
  apply preserves_bind; [apply keeps_utcnow|]. intros now.
  apply preserves_bind; [|intros _; apply preserves_ret].
  apply keeps_update_one. left. by exists now.
Qed.

Lemma keeps__mark_as_failed notification_id :
  preserves I (_mark_as_failed notification_id).
Proof.
  unfold _mark_as_failed.
  apply preserves_bind; [apply keeps_utcnow|]. intros now.
  apply preserves_bind; [|intros _; apply preserves_ret].
  apply keeps_update_one. right. left. by exists now.
Qed.

Lemma keeps__send_notification notification :
  preserves I (_send_notification notification).
Proof.
  unfold _send_notification. apply preserves_try_except.
  - apply preserves_bind; [apply keeps_sleep|]. intros _.
    apply preserves_bind; [apply keeps_transport|]. intros _.
    apply preserves_ret.
  - intros e. apply preserves_ret.
Qed.

Lemma keeps__schedule_retry notification :
  preserves I (_schedule_retry settings self notification).
Proof.
  unfold _schedule_retry.
  apply preserves_bind; [apply keeps_py_add|]. intros retry_count.
  apply preserves_bind; [apply keeps_getitem|]. intros notification_id.
  apply preserves_bind; [apply keeps_utcnow|]. intros now.
  apply preserves_bind; [|intros _; apply I_publish].
  apply keeps_update_one. right. right. left. by exists retry_count, now.
Qed.

Lemma keeps_process_notification notification :
  preserves I (process_notification settings self notification).
Proof.
  unfold process_notification.
  assert (Hmark : forall b : bool,
    preserves I (notification_id ← getitem notification "id" ;
                 _mark_as_failed notification_id ;; mret b)).
  { intros b. apply preserves_bind; [apply keeps_getitem|]. intros notification_id.
    apply preserves_bind; [apply keeps__mark_as_failed|].
    intros _. apply preserves_ret. }
  apply preserves_try_except; [|intros e; apply Hmark].
  apply preserves_bind; [apply keeps_py_ge|]. intros [|]; [apply Hmark|].
  apply preserves_bind; [apply keeps__send_notification|]. intros [|].
  - apply preserves_bind; [apply keeps_getitem|]. intros notification_id.
    apply preserves_bind; [apply keeps__mark_as_sent|].
    intros _. apply preserves_ret.
  - apply preserves_bind; [apply keeps__schedule_retry|]. intros _.
    apply preserves_ret.
Qed.

Lemma keeps_get_notification notification_id :
  preserves I (get_notification self notification_id).
Proof.
  unfold get_notification. apply preserves_try_except; [|intros e; apply preserves_raise].
  apply preserves_bind; [apply keeps_find_one|]. intros [doc|]; [|apply preserves_ret].
  destruct (Notification_of_doc _ doc); [apply preserves_ret|apply preserves_raise].
Qed.

Lemma keeps_status_getattr {B} status name (k : Z -> M B) :
  preserves I (status_getattr status name ≫= k).
Proof. unfold status_getattr. rewrite bind_raise. apply preserves_raise. Qed.

Lemma keeps_update_status notification_id status :
  preserves I (update_status self notification_id status).
Proof.
  unfold update_status. apply preserves_try_except.
  - apply preserves_bind; [apply keeps_utcnow|]. intros now.
    apply preserves_bind.
    { apply keeps_update_one. right. right. right. by exists status, now. }
    intros result. apply preserves_bind.
    { destruct (decide (modified_count result = 0));
        [apply keeps_status_getattr|apply preserves_ret]. }
    intros _. apply preserves_bind; [apply keeps_get_notification|].
    intros [n|]; [apply preserves_ret|apply keeps_status_getattr].
  - intros e. destruct e; try apply keeps_status_getattr. apply preserves_raise.
Qed.

Lemma keeps_create_notification notification :
  preserves I (create_notification settings uuid4 self notification).
Proof.
  unfold create_notification.
  apply preserves_try_except; [|intros e; apply preserves_raise].
  apply preserves_bind; [by apply keeps_frame|]. intros notification_id.
  apply preserves_bind; [apply keeps_utcnow|]. intros created_at.
  apply preserves_bind; [apply keeps_insert_new|].
  intros stored. apply preserves_bind; [apply I_publish|]. intros _.
  destruct (validate_notification _); [apply preserves_ret|apply preserves_raise].
Qed.

Lemma step_keeps w w' : step settings uuid4 self w w' -> I w -> I w'.
Proof.
  intros Hstep Hw. destruct Hstep as [c w|n w|notification_id status w|notification_id w|w|w w' Henv].
  - by apply keeps_create_notification.
  - by apply keeps_process_notification.
  - by apply keeps_update_status.
  - by apply keeps_get_notification.
  - by apply I_tick.
  - destruct Henv. by eapply I_frame.
Qed.

Lemma steps_keep w w' : rtc (step settings uuid4 self) w w' -> I w -> I w'.
Proof. induction 1; eauto using step_keeps. Qed.

End Every_operation.

(** ** Three invariants of the service *)

Lemma service_write_sets_status fields d :
  service_write fields -> status_known (apply_set fields d).
Proof.
  intros [[now ->]|[[now ->]|[(retry_count & now & ->)|(status & now & ->)]]].
  - exists SENT. unfold has_status. cbn. by simplify_map_eq.
  - exists FAILED. unfold has_status. cbn. by simplify_map_eq.
  - exists PENDING. unfold has_status. cbn. by simplify_map_eq.
  - exists status. apply status_fields_spec.
Qed.

Lemma service_write_keeps_core fields d :
  service_write fields -> same_core d (apply_set fields d).
Proof.
  intros Hf k Hk. unfold immutable_fields in Hk.
  repeat (apply elem_of_cons in Hk as [->|Hk]); [..|by apply elem_of_nil in Hk];
    destruct Hf as [[now ->]|[[now ->]|[(retry_count & now & ->)|(status & now & ->)]]];
    cbn; by simplify_map_eq.
Qed.

Lemma same_core_refl d : same_core d d.
Proof. by intros k _. Qed.

Lemma same_core_trans d1 d2 d3 : same_core d1 d2 -> same_core d2 d3 -> same_core d1 d3.
Proof. intros H12 H23 k Hk. by rewrite H23, H12. Qed.

Lemma grown_from_refl ds : grown_from ds ds.
Proof.
  exists ds, []. split; [by rewrite app_nil_r|].
  induction ds; constructor; [apply same_core_refl|done].
Qed.

Lemma grown_from_trans ds1 ds2 ds3 :
  grown_from ds1 ds2 -> grown_from ds2 ds3 -> grown_from ds1 ds3.
Proof.
  intros (kept & newer & -> & H12) (kept' & newer' & -> & H23).
  apply Forall2_app_inv_l in H23 as (k1 & k2 & Hk1 & Hk2 & ->).
  exists k1, (k2 ++ newer'). split; [by rewrite app_assoc|].
  clear Hk2. revert k1 Hk1. induction H12 as [|d1 d2 ds1 kept Hd _ IH]; intros k1 Hk1.
  - apply Forall2_nil_inv_l in Hk1 as ->. constructor.
  - apply Forall2_cons_inv_l in Hk1 as (d3 & k1' & Hd' & Hk1' & ->).
    constructor; [by eapply same_core_trans|by apply IH].
Qed.

Lemma grown_from_replace_first p g ds :
  (forall d, same_core d (g d)) -> grown_from ds (replace_first p g ds).
Proof.
  intros Hg. exists (replace_first p g ds), []. split; [by rewrite app_nil_r|].
  induction ds as [|d ds IH]; cbn; [constructor|].
  destruct (p d); constructor; auto using same_core_refl.
  clear IH. induction ds; constructor; [apply same_core_refl|done].
Qed.

Lemma grown_from_app ds newer : grown_from ds (ds ++ newer).
Proof.
  exists ds, newer. split; [done|].
  induction ds; constructor; [apply same_core_refl|done].
Qed.

Section Invariants.
Context (settings : Settings).
Context (uuid4 : nat -> string).
Context (self : NotificationService).

(** X10. In every world reachable from an empty collection the status of
    every stored notification is one of [pending], [sent] and [failed]. *)
Theorem stored_status_is_always_known w :
  reachable settings uuid4 self w -> store_inv status_known w.
Proof.
  intros (w0 & [Hn0 _] & Hsteps).
  apply (steps_keep settings uuid4 self (store_inv status_known)) with w0; try done.
  - unfold store_inv. intros w1 w2 Hn _. by rewrite Hn.
  - unfold store_inv. intros v fields w1 Hf Hw1. cbn.
    apply replace_first_Forall; [|done]. intros d _.
    by apply service_write_sets_status.
  - unfold store_inv. intros c notification_id created_at w1 Hw1. cbn.
    apply Forall_app. split; [done|]. constructor; [|constructor].
    exists PENDING. unfold has_status, new_notification_doc. by simplify_map_eq.
  - intros message. apply preserves_publish_message.
  - apply preserves_process_batch_tick.
  - unfold store_inv. rewrite Hn0. constructor.
Qed.

(** X11. No sequence of operations deletes or reorders a stored
    notification, or changes its [_id], [id], [user_id], [type], [title],
    [message], [created_at], [max_retries] or [metadata]: the collection
    after it is the collection before it, with only other fields rewritten
    in place, followed by the notifications created since. *)
Theorem operations_keep_the_core_of_every_record w w' :
  rtc (step settings uuid4 self) w w' ->
  grown_from (notifications w) (notifications w').
Proof.
  intros Hsteps.
  apply (steps_keep settings uuid4 self
           (fun x => grown_from (notifications w) (notifications x))) with w; try done.
  - intros w1 w2 Hn _. by rewrite Hn.
  - intros v fields w1 Hf Hw1. cbn.
    eapply grown_from_trans; [exact Hw1|].
    apply grown_from_replace_first. intros d. by apply service_write_keeps_core.
  - intros c notification_id created_at w1 Hw1. cbn.
    eapply grown_from_trans; [exact Hw1|]. apply grown_from_app.
  - intros message w1 Hw1.
    destruct (publish_message_run settings message w1) as (evs & w2 & -> & [Hn] & _).
    cbn. by rewrite Hn.
  - intros w1 Hw1. destruct (_process_batch_tick_frame settings w1) as [Hn].
    by rewrite Hn.
  - apply grown_from_refl.
Qed.

(** X12. With a batch size of at least one, the buffer never holds as many
    messages as the batch size once an operation has completed: in every
    world reachable from an empty buffer it is shorter. *)
Theorem buffer_stays_below_batch_size w :
  1 <= RABBITMQ_BATCH_SIZE settings ->
  reachable settings uuid4 self w -> buffer_below_batch_size settings w.
Proof.
  intros Hsize (w0 & [_ Hb0] & Hsteps).
  apply (steps_keep settings uuid4 self (buffer_below_batch_size settings)) with w0;
    try done.
  - unfold buffer_below_batch_size. intros w1 w2 _ Hb. by rewrite Hb.
  - intros message w1 Hw1. unfold buffer_below_batch_size in *.
    destruct (publish_message_run settings message w1)
      as (evs & w2 & -> & _ & _ & Hflush & Hkeep). cbn.
    destruct (decide (Z.of_nat (length (_message_batch w1 ++ [message_of message w1]))
                      >= RABBITMQ_BATCH_SIZE settings)) as [Hge|Hlt].
    + destruct (Hflush Hge) as [Hb2 _]. rewrite Hb2. cbn. lia.
    + destruct (Hkeep Hlt) as (_ & Hb2 & _). rewrite Hb2. lia.
  - intros w1 Hw1. unfold buffer_below_batch_size in *.
    destruct (decide (_message_batch w1 = [])) as [Hb|Hb].
    + destruct (_process_batch_tick_idle settings w1 Hb)
        as (w2 & Hrun & _ & _ & Hb2 & _).
      rewrite Hrun. cbn. rewrite Hb2. cbn. lia.
    + destruct (_process_batch_tick_run settings w1 Hb)
        as (att & w2 & Hrun & _ & Hb2 & _).
      rewrite Hrun. cbn. rewrite Hb2. cbn. lia.
  - unfold buffer_below_batch_size. rewrite Hb0. cbn. lia.
Qed.

End Invariants.

(** ** The routes *)

Section Routes.
Context (settings : Settings).
Context (uuid4 : nat -> string).
Context (notification_service : NotificationService).

(** X13. The route [GET /notifications/{id}] answers an id that no stored
    record has with a 404, on a store that answers; it returns exactly what
    the service found; it raises nothing but a 404 or a 500; and it changes
    neither the collection nor the buffer nor the trace. *)
Theorem route_get_notification_answers_404 notification_id w :
  let r := routers.get_notification notification_id notification_service w in
  (hd false (store_faults w) = false ->
   find_first (matches_id (VStr notification_id)) (notifications w) = None ->
   r.1 = Raises (HTTPException HTTP_404_NOT_FOUND))
  /\ (forall n, r.1 = Returns n <->
        (get_notification notification_service notification_id w).1 = Returns (Some n))
  /\ (forall e, r.1 = Raises e ->
        e = HTTPException HTTP_404_NOT_FOUND
        \/ e = HTTPException HTTP_500_INTERNAL_SERVER_ERROR)
  /\ notifications r.2 = notifications w
  /\ _message_batch r.2 = _message_batch w
  /\ trace r.2 = trace w.
Proof.
  cbv zeta. unfold routers.get_notification. rewrite run_try_except, run_bind.
  destruct (get_notification_frame notification_service w notification_id) as [Hn Htr].
  pose proof (get_notification_raises notification_service w notification_id) as Hraise.
  assert (Hb : _message_batch (get_notification notification_service notification_id w).2
               = _message_batch w).
  { unfold get_notification, find_one, store_call. run.
    destruct (store_faults w) as [|[] fs]; cbn; try done;
      destruct (find_first _ (notifications w)) as [d|]; cbn; try done;
      destruct (Notification_of_doc _ d); done. }
  assert (Hnone : hd false (store_faults w) = false ->
                  find_first (matches_id (VStr notification_id)) (notifications w) = None ->
                  (get_notification notification_service notification_id w).1
                  = Returns None).
  { intros Hst Hfind. unfold get_notification, find_one, store_call. run.
    destruct (store_faults w) as [|[] fs]; try discriminate Hst; cbn;
      by rewrite Hfind. }
  destruct (get_notification notification_service notification_id w)
    as [[[n|]|e] w'] eqn:Hget; cbn in *.
  - split; [intros Hst Hfind; by specialize (Hnone Hst Hfind)|].
    split; [intros n'; split; congruence|]. done.
  - split; [done|]. split; [intros n'; split; congruence|].
    split; [|done]. intros e0 [= <-]. by left.
  - rewrite (Hraise e eq_refl). cbn.
    split; [intros Hst Hfind; by specialize (Hnone Hst Hfind)|].
    split; [intros n'; split; congruence|].
    split; [|done]. intros e' [= <-]. by right.
Qed.

(** What [update_status] raises. *)
Lemma update_status_raises notification_id status w :
  (forall e, (update_status notification_service notification_id status w).1 = Raises e ->
     e = AttributeError \/ e = HTTPException HTTP_500_INTERNAL_SERVER_ERROR)
  /\ (find_first (matches_id (VStr notification_id)) (notifications w) = None ->
      (update_status notification_service notification_id status w).1
      = Raises AttributeError).
Proof.
  unfold update_status, status_getattr. run.
  fold (status_fields status (clock w)).
  destruct (update_one_cases w (VStr notification_id) (status_fields status (clock w)))
    as [(w' & Hrun & _)|(r & w' & Hrun & _ & _ & _ & Hmod)]; rewrite Hrun; cbn.
  { split; [intros e0 [= <-]; by left|done]. }
  split.
  - destruct (decide (modified_count r = 0)); cbn; [intros e0 [= <-]; by left|].
    destruct (get_notification notification_service notification_id w')
      as [[[found|]|e] w''] eqn:Hget; cbn.
    + done.
    + intros e0 [= <-]. by left.
    + assert (He : e = HTTPException HTTP_500_INTERNAL_SERVER_ERROR).
      { apply (get_notification_raises notification_service w' notification_id).
        by rewrite Hget. }
      subst e. cbn. intros e0 [= <-]. by right.
  - intros Hnone. rewrite Hnone in Hmod. rewrite Hmod. cbn. done.
Qed.

(** X14. The route [PATCH /notifications/{id}/status] never answers with a
    404: whatever it raises is the [AttributeError] of the shadowed name
    (its own handler reads [status.HTTP_500_INTERNAL_SERVER_ERROR] from the
    query parameter, too) or the 500 of a failed read-back.  For an id that
    no stored record has it raises the [AttributeError].  It returns what
    the service returns. *)
Theorem route_update_status_never_404 notification_id status w :
  let r := routers.update_notification_status notification_id status
             notification_service w in
  (forall e, r.1 = Raises e ->
     e = AttributeError \/ e = HTTPException HTTP_500_INTERNAL_SERVER_ERROR)
  /\ (find_first (matches_id (VStr notification_id)) (notifications w) = None ->
      r.1 = Raises AttributeError)
  /\ (forall n, r.1 = Returns n <->
        (update_status notification_service notification_id status w).1 = Returns n).
Proof.
  cbv zeta. unfold routers.update_notification_status, status_getattr.
  rewrite run_try_except.
  destruct (update_status_raises notification_id status w) as [Hraise Hunknown].
  destruct (update_status notification_service notification_id status w)
    as [[n|e] w'] eqn:Hrun; cbn in *.
  - split; [done|]. split; [intros Hnone; by specialize (Hunknown Hnone)|].
    intros n'. split; congruence.
  - destruct (Hraise e eq_refl) as [->| ->]; cbv [mbind M_bind raise]; cbn.
    + split; [intros e0 [= <-]; by left|]. split; [done|]. intros n'. split; congruence.
    + split; [intros e0 [= <-]; by right|].
      split; [intros Hnone; by specialize (Hunknown Hnone)|].
      intros n'. split; congruence.
Qed.

(** X15. The route [POST /notifications] raises nothing but a 500: whatever
    the service raises is caught and raised again as one.  It returns what
    the service returns and adds no effect of its own. *)
Theorem route_create_notification_fails_with_500 c w :
  let r := routers.create_notification settings uuid4 c notification_service w in
  (forall e, r.1 = Raises e -> e = HTTPException HTTP_500_INTERNAL_SERVER_ERROR)
  /\ (forall n, r.1 = Returns n <->
        (create_notification settings uuid4 notification_service c w).1 = Returns n)
  /\ r.2 = (create_notification settings uuid4 notification_service c w).2.
Proof.
  cbv zeta. unfold routers.create_notification. rewrite run_try_except.
  destruct (create_notification settings uuid4 notification_service c w)
    as [[n|e] w'] eqn:Hrun; cbn.
  - split; [done|]. split; [|done]. intros n'. split; congruence.
  - split; [congruence|]. split; [|done]. intros n'. split; congruence.
Qed.

End Routes.

(** ** The connection *)

Ltac node_run :=
  cbv [mbind NodeM_bind mret NodeM_ret fail hang get_node modify_node modify_rabbitmq
       except_Exception except_CancelledError finally lift];
  cbn.

Lemma NodeM_bind_run {A B} (m : NodeM A) (k : A -> NodeM B) s :
  (m ≫= k) s
  = match m s with
    | (Done a, s') => k a s'
    | (Failed e, s') => (Failed e, s')
    | (Hangs, s') => (Hangs, s')
    end.
Proof. reflexivity. Qed.

Section Connection_facts.
Context (settings : Settings).

Lemma connect_attempt_cases s :
  (exists s', connect_attempt settings s = (Done tt, s')
              /\ connected_from settings s s'
              /\ Forall (fun b => b = false) (take 4 (amqp_faults s)))
  \/ (exists s', connect_attempt settings s = (Failed (Exn BrokerError), s')
                 /\ world s' = world s
                 /\ tasks s' = tasks s
                 /\ _batch_task (rabbitmq s') = _batch_task (rabbitmq s)
                 /\ _connection_task (rabbitmq s') = _connection_task (rabbitmq s)
                 /\ (length (connections s) <= length (connections s'))%nat
                 /\ exists n, (n < 4)%nat
                              /\ take (S n) (amqp_faults s) = replicate n false ++ [true]
                              /\ amqp_faults s' = drop (S n) (amqp_faults s)).
Proof.
  unfold connect_attempt, connect_robust, with_channel, acquire, get_channel, release,
    declare_queue, set_qos, create_task, amqp_call, connected_from.
  destruct s as [w r cs ts faults mg n].
  destruct faults as [|[] [|[] [|[] [|[] fs]]]]; node_run.
  all: first
    [ left; eexists; split; [reflexivity|]; cbn; split;
      [rewrite ?length_app; cbn; rewrite ?Nat.add_1_r, <- ?app_assoc; repeat split; done
      |repeat constructor]
    | right; eexists; split; [reflexivity|]; cbn;
      repeat (split; [first [done | rewrite ?length_app; cbn; lia]|]);
      first [ exists 0%nat; split; [lia|]; by split
            | exists 1%nat; split; [lia|]; by split
            | exists 2%nat; split; [lia|]; by split
            | exists 3%nat; split; [lia|]; by split ] ].
Qed.

Lemma lift_sleep_run secs s :
  exists s',
    lift (sleep secs) s = (Done tt, s')
    /\ trace (world s') = trace (world s) ++ [EvSleep secs]
    /\ clock (world s') = clock (world s) + Z.max 0 secs
    /\ notifications (world s') = notifications (world s)
    /\ _message_batch (world s') = _message_batch (world s)
    /\ rabbitmq s' = rabbitmq s /\ tasks s' = tasks s
    /\ connections s' = connections s /\ amqp_faults s' = amqp_faults s.
Proof. eexists. split; [reflexivity|]. cbn. done. Qed.

(** The loop of [connect], from any turn on. *)
Lemma connect_loop_run max_retries fuel : forall retry_count delay s,
  fuel = Z.to_nat (max_retries - retry_count) ->
  (fuel = O /\ connect_loop settings max_retries retry_count delay fuel s = (Done tt, s))
  \/ (exists failed s',
        connect_loop settings max_retries retry_count delay fuel s = (Done tt, s')
        /\ (failed < fuel)%nat
        /\ trace (world s') = trace (world s) ++ (EvSleep <$> delays delay failed)
        /\ tasks s'
           = tasks s ++ [{| coroutine := Run_process_batch; cancelled := false |};
                         {| coroutine := Run_monitor_connection; cancelled := false |}]
        /\ _batch_task (rabbitmq s') = Some (length (tasks s))
        /\ _connection_task (rabbitmq s') = Some (S (length (tasks s)))
        /\ queue (rabbitmq s') = Some (RABBITMQ_QUEUE_NAME settings)
        /\ exists c, connection (rabbitmq s') = Some c
                     /\ connections s' !! c = Some false
                     /\ (length (connections s) <= c)%nat)
  \/ (exists s',
        connect_loop settings max_retries retry_count delay fuel s
        = (Failed (Exn BrokerError), s')
        /\ fuel <> O
        /\ trace (world s') = trace (world s) ++ (EvSleep <$> delays delay (fuel - 1))
        /\ tasks s' = tasks s
        /\ _batch_task (rabbitmq s') = _batch_task (rabbitmq s)
        /\ _connection_task (rabbitmq s') = _connection_task (rabbitmq s)).
Proof.
  induction fuel as [|fuel IH]; intros retry_count delay s Hfuel.
  { left. done. }
  right. cbn [connect_loop].
  rewrite decide_True by lia. unfold except_Exception.
  destruct (connect_attempt_cases s)
    as [(s1 & -> & (Hw & Hcs & Hts & Hr & _) & _)
       |(s1 & -> & Hw & Hts & Hb & Hc & Hlen & _)].
  - left. exists 0%nat, s1. split; [done|]. split; [lia|].
    split; [by rewrite Hw, app_nil_r|]. split; [done|].
    rewrite Hr. cbn. split; [done|]. split; [done|]. split; [done|].
    exists (length (connections s)). split; [done|].
    split; [|done]. rewrite Hcs. by rewrite lookup_app_r, Nat.sub_diag by done.
  - cbv zeta. destruct (decide (retry_count + 1 = max_retries)) as [Hlast|Hmore].
    + right. exists s1. split; [done|]. split; [done|].
      assert (fuel = O) as -> by lia. cbn. by rewrite Hw, app_nil_r.
    + rewrite NodeM_bind_run.
      destruct (lift_sleep_run delay s1)
        as (s2 & -> & Htr2 & _ & _ & _ & Hr2 & Hts2 & Hcs2 & _).
      destruct (IH (retry_count + 1) (Z.min (delay * 2) 30) s2)
        as [[Hz _]|[(failed & s3 & -> & Hlt & Htr3 & Hts3 & Hb3 & Hc3 & Hq3 & c & Hconn & Hopen & Hge)
                   |(s3 & -> & Hne & Htr3 & Hts3 & Hb3 & Hc3)]];
        [lia|lia| |].
      * left. exists (S failed), s3. split; [done|]. split; [lia|].
        split. { rewrite Htr3, Htr2, Hw. cbn. by rewrite <- app_assoc. }
        rewrite Hts3, Hb3, Hc3, Hts2, Hts. repeat (split; [done|]).
        exists c. repeat (split; [done|]). rewrite Hcs2 in Hge. lia.
      * right. exists s3. split; [done|]. split; [done|].
        split.
        { rewrite Htr3, Htr2, Hw. destruct fuel as [|fuel']; [done|].
          cbn. rewrite Nat.sub_0_r. by rewrite <- app_assoc. }
        rewrite Hts3, Hb3, Hc3, Hts2, Hr2, Hts. done.
Qed.

(** [Z.to_nat max_retries] turns are all the loop can take: more fuel
    changes nothing. *)
Lemma connect_loop_fuel max_retries fuel : forall extra retry_count delay s,
  fuel = Z.to_nat (max_retries - retry_count) ->
  connect_loop settings max_retries retry_count delay (fuel + extra) s
  = connect_loop settings max_retries retry_count delay fuel s.
Proof.
  induction fuel as [|fuel IH]; intros extra retry_count delay s Hfuel.
  - destruct extra as [|extra]; [done|]. cbn [Nat.add connect_loop].
    by rewrite decide_False by lia.
  - cbn [Nat.add connect_loop]. rewrite !decide_True by lia.
    unfold except_Exception.
    destruct (connect_attempt settings s) as [[[]|err|] s1]; [done| |done].
    destruct err as [e| |]; [| |done]; cbv zeta;
      (destruct (decide (retry_count + 1 = max_retries)); [done|]);
      rewrite !NodeM_bind_run; destruct (lift (sleep delay) s1) as [[[]|e'|] s2];
      try done; apply IH; lia.
Qed.

Lemma delays_length delay n : length (delays delay n) = n.
Proof. revert delay. induction n as [|n IH]; intros delay; cbn; [done|]. by rewrite IH. Qed.

(** The pauses in closed form: the first is the initial delay, the [k]-th
    one after it is [min (initial * 2 ^ k) 30]. *)
Lemma delays_lookup n : forall delay k,
  (k < n)%nat ->
  delays delay n !! k
  = Some (if k is O then delay else Z.min (delay * 2 ^ Z.of_nat k) 30).
Proof.
  induction n as [|n IH]; intros delay k Hk; [lia|].
  destruct k as [|k]; [done|]. cbn [delays]. rewrite lookup_cons. cbn.
  rewrite IH by lia. f_equal. destruct k as [|k].
  - change (Z.of_nat 1) with 1. rewrite Z.pow_1_r. done.
  - rewrite (Nat2Z.inj_succ (S k)), Z.pow_succ_r by lia.
    assert (0 < 2 ^ Z.of_nat (S k)) by (apply Z.pow_pos_nonneg; lia).
    nia.
Qed.

Lemma sleeps_fmap ds : sleeps (EvSleep <$> ds) = ds.
Proof. unfold sleeps. induction ds as [|d ds IH]; cbn; [done|]. by rewrite IH. Qed.

(** X16. [connect] never hangs.  With [max_retries <= 0] it returns at once
    and has not connected.  Otherwise it either returns after an attempt
    that succeeded, the one after [failed < max_retries] failed ones, and
    then two new tasks run (the timer loop and the monitor), the class
    attributes name them and a new, open connection, and the queue is
    declared; or it raises the broker's exception after exactly
    [max_retries] failed attempts, with no task started and the task
    attributes as before.  Between two attempts it pauses: first for
    [initial_delay], then for [min (initial_delay * 2 ^ k) 30] after the
    [k+1]-th failure; it does not pause before it gives up. *)
Theorem connect_retries_with_capped_backoff max_retries initial_delay s :
  let r := connect settings max_retries initial_delay s in
  let pauses := sleeps (new_events (world s) (world r.2)) in
  new_events (world s) (world r.2) = EvSleep <$> pauses
  /\ (forall k, (k < length pauses)%nat ->
        pauses !! k
        = Some (if k is O then initial_delay
                else Z.min (initial_delay * 2 ^ Z.of_nat k) 30))
  /\ ((max_retries <= 0 /\ r = (Done tt, s))
      \/ (r.1 = Done tt
          /\ (length pauses < Z.to_nat max_retries)%nat
          /\ tasks r.2
             = tasks s ++ [{| coroutine := Run_process_batch; cancelled := false |};
                           {| coroutine := Run_monitor_connection; cancelled := false |}]
          /\ _batch_task (rabbitmq r.2) = Some (length (tasks s))
          /\ _connection_task (rabbitmq r.2) = Some (S (length (tasks s)))
          /\ queue (rabbitmq r.2) = Some (RABBITMQ_QUEUE_NAME settings)
          /\ exists c, connection (rabbitmq r.2) = Some c
                       /\ connections r.2 !! c = Some false
                       /\ (length (connections s) <= c)%nat)
      \/ (r.1 = Failed (Exn BrokerError)
          /\ 1 <= max_retries
          /\ S (length pauses) = Z.to_nat max_retries
          /\ tasks r.2 = tasks s
          /\ _batch_task (rabbitmq r.2) = _batch_task (rabbitmq s)
          /\ _connection_task (rabbitmq r.2) = _connection_task (rabbitmq s))).
Proof.
  cbv zeta. unfold connect, new_events.
  destruct (connect_loop_run max_retries (Z.to_nat max_retries) 0 initial_delay s)
    as [[Hz Hrun]
       |[(failed & s' & Hrun & Hlt & Htr & Hrest)
        |(s' & Hrun & Hne & Htr & Hrest)]];
    [f_equal; lia| | |]; rewrite Hrun; cbn [fst snd].
  - rewrite drop_all. cbn. split; [done|]. split; [intros k Hk; cbn in Hk; lia|].
    left. split; [lia|done].
  - rewrite Htr, drop_app_length, sleeps_fmap, delays_length.
    split; [done|]. split; [intros k Hk; by apply delays_lookup|].
    right. left. done.
  - rewrite Htr, drop_app_length, sleeps_fmap, delays_length.
    split; [done|]. split; [intros k Hk; by apply delays_lookup|].
    right. right. split; [done|]. split; [lia|]. split; [lia|done].
Qed.

Lemma connect_attempt_refused fs s :
  amqp_faults s = true :: fs ->
  connect_attempt settings s = (Failed (Exn BrokerError), set_amqp_faults fs s).
Proof.
  intros Hfs. unfold connect_attempt, connect_robust, amqp_call. node_run.
  by rewrite Hfs.
Qed.

Lemma connect_attempt_accepted s :
  Forall (fun b => b = false) (take 4 (amqp_faults s)) ->
  exists s', connect_attempt settings s = (Done tt, s') /\ connected_from settings s s'.
Proof.
  intros Hok.
  destruct (connect_attempt_cases s)
    as [(s' & Hrun & Hconn & _)|(s' & _ & _ & _ & _ & _ & _ & n & Hn & Htake & _)].
  { by exists s'. }
  exfalso.
  assert (Hat : amqp_faults s !! n = Some true).
  { rewrite <- (lookup_take_lt _ (S n)) by lia. rewrite Htake.
    rewrite lookup_app_r by (by rewrite length_replicate).
    by rewrite length_replicate, Nat.sub_diag. }
  rewrite Forall_lookup in Hok. specialize (Hok n true).
  rewrite lookup_take_lt in Hok by lia. by specialize (Hok Hat).
Qed.

(** The loop of [connect] against a broker that refuses [k] connections
    and then answers. *)
Lemma connect_loop_refused_then_accepted max_retries k : forall fuel retry_count delay s fs,
  fuel = Z.to_nat (max_retries - retry_count) ->
  amqp_faults s = replicate k true ++ fs ->
  (k < fuel)%nat ->
  Forall (fun b => b = false) (take 4 fs) ->
  exists s',
    connect_loop settings max_retries retry_count delay fuel s = (Done tt, s')
    /\ trace (world s') = trace (world s) ++ (EvSleep <$> delays delay k)
    /\ connections s' = connections s ++ [false]
    /\ tasks s'
       = tasks s ++ [{| coroutine := Run_process_batch; cancelled := false |};
                     {| coroutine := Run_monitor_connection; cancelled := false |}]
    /\ rabbitmq s'
       = {| connection := Some (length (connections s));
            channel_pool := Some {| max_size := 10; items := [length (connections s)] |};
            queue := Some (RABBITMQ_QUEUE_NAME settings);
            _batch_task := Some (length (tasks s));
            _connection_task := Some (S (length (tasks s))) |}
    /\ amqp_faults s' = drop 4 fs.
Proof.
  induction k as [|k IH]; intros fuel retry_count delay s fs Hfuel Hfs Hk Hok.
  - destruct fuel as [|fuel]; [lia|]. cbn [connect_loop].
    rewrite decide_True by lia. unfold except_Exception.
    destruct (connect_attempt_accepted s) as (s' & -> & Hw & Hcs & Hts & Hr & Hf).
    { by rewrite Hfs. }
    exists s'. split; [done|]. rewrite Hw, Hf, Hfs. cbn. by rewrite app_nil_r.
  - destruct fuel as [|fuel]; [lia|]. cbn [connect_loop].
    rewrite decide_True by lia. unfold except_Exception.
    rewrite (connect_attempt_refused (replicate k true ++ fs) s) by done.
    cbv zeta. rewrite decide_False by lia. rewrite NodeM_bind_run.
    match goal with |- context [lift (sleep delay) ?x] =>
      destruct (lift_sleep_run delay x)
        as (s2 & -> & Htr2 & _ & _ & _ & Hr2 & Hts2 & Hcs2 & Hf2) end.
    destruct (IH fuel (retry_count + 1) (Z.min (delay * 2) 30) s2 fs)
      as (s' & -> & Htr & Hcs & Hts & Hr & Hf); [lia|by rewrite Hf2|lia|done|].
    exists s'. split; [done|].
    rewrite Htr, Htr2, Hcs, Hcs2, Hts, Hts2, Hr. cbn.
    rewrite <- app_assoc. rewrite Hcs2, Hts2. done.
Qed.

(** The loop against a broker that refuses every connection. *)
Lemma connect_loop_refused max_retries fuel : forall retry_count delay s fs,
  fuel = Z.to_nat (max_retries - retry_count) ->
  fuel <> O ->
  amqp_faults s = replicate fuel true ++ fs ->
  exists s',
    connect_loop settings max_retries retry_count delay fuel s
    = (Failed (Exn BrokerError), s')
    /\ trace (world s') = trace (world s) ++ (EvSleep <$> delays delay (fuel - 1))
    /\ connections s' = connections s
    /\ tasks s' = tasks s
    /\ rabbitmq s' = rabbitmq s
    /\ amqp_faults s' = fs.
Proof.
  induction fuel as [|fuel IH]; intros retry_count delay s fs Hfuel Hne Hfs; [done|].
  cbn [connect_loop]. rewrite decide_True by lia. unfold except_Exception.
  rewrite (connect_attempt_refused (replicate fuel true ++ fs) s) by done.
  cbv zeta. destruct (decide (retry_count + 1 = max_retries)) as [Hlast|Hmore].
  - assert (fuel = O) as -> by lia. eexists. split; [reflexivity|]. cbn.
    by rewrite app_nil_r.
  - rewrite NodeM_bind_run.
    match goal with |- context [lift (sleep delay) ?x] =>
      destruct (lift_sleep_run delay x)
        as (s2 & -> & Htr2 & _ & _ & _ & Hr2 & Hts2 & Hcs2 & Hf2) end.
    destruct (IH (retry_count + 1) (Z.min (delay * 2) 30) s2 fs)
      as (s' & -> & Htr & Hcs & Hts & Hr & Hf); [lia|lia|by rewrite Hf2|].
    exists s'. split; [done|].
    rewrite Htr, Htr2, Hcs, Hcs2, Hts, Hts2, Hr, Hr2. cbn.
    destruct fuel as [|fuel']; [lia|]. cbn. rewrite Nat.sub_0_r, <- app_assoc. done.
Qed.

(** X17. When [connect] gives up and when it does not.  Against a broker
    that refuses [max_retries] connections in a row it raises, having made
    one AMQP call per attempt and changed nothing but the clock: no class
    attribute, no connection, no task.  Against one that refuses [k <
    max_retries] connections and then answers the four calls of an attempt,
    it returns after [k] pauses with the attributes set to the new
    connection, a pool holding its channel, the declared queue and the two
    new tasks. *)
Theorem connect_gives_up_after_max_retries max_retries initial_delay s :
  1 <= max_retries ->
  (forall fs,
     amqp_faults s = replicate (Z.to_nat max_retries) true ++ fs ->
     exists s',
       connect settings max_retries initial_delay s = (Failed (Exn BrokerError), s')
       /\ sleeps (new_events (world s) (world s'))
          = delays initial_delay (Z.to_nat max_retries - 1)
       /\ rabbitmq s' = rabbitmq s
       /\ connections s' = connections s
       /\ tasks s' = tasks s
       /\ amqp_faults s' = fs)
  /\ (forall k fs,
        amqp_faults s = replicate k true ++ fs ->
        (k < Z.to_nat max_retries)%nat ->
        Forall (fun b => b = false) (take 4 fs) ->
        exists s',
          connect settings max_retries initial_delay s = (Done tt, s')
          /\ sleeps (new_events (world s) (world s')) = delays initial_delay k
          /\ connections s' = connections s ++ [false]
          /\ tasks s'
             = tasks s ++ [{| coroutine := Run_process_batch; cancelled := false |};
                           {| coroutine := Run_monitor_connection; cancelled := false |}]
          /\ rabbitmq s'
             = {| connection := Some (length (connections s));
                  channel_pool :=
                    Some {| max_size := 10; items := [length (connections s)] |};
                  queue := Some (RABBITMQ_QUEUE_NAME settings);
                  _batch_task := Some (length (tasks s));
                  _connection_task := Some (S (length (tasks s))) |}
          /\ amqp_faults s' = drop 4 fs).
Proof.
  intros Hmax. unfold connect, new_events. split.
  - intros fs Hfs.
    destruct (connect_loop_refused max_retries (Z.to_nat max_retries) 0 initial_delay
                s fs) as (s' & Hrun & Htr & Hrest); [f_equal; lia|lia|done|].
    exists s'. split; [done|]. rewrite Htr, drop_app_length, sleeps_fmap.
    split; [done|]. tauto.
  - intros k fs Hfs Hk Hok.
    destruct (connect_loop_refused_then_accepted max_retries k (Z.to_nat max_retries) 0
                initial_delay s fs) as (s' & Hrun & Htr & Hrest);
      [f_equal; lia|done|done|done|].
    exists s'. split; [done|]. rewrite Htr, drop_app_length, sleeps_fmap.
    split; [done|]. tauto.
Qed.

End Connection_facts.

(** ** Closing, checking and watching the connection *)

Section Connection_lifecycle.
Context (settings : Settings).

Lemma cancel_await_run t s :
  (t < length (tasks s))%nat ->
  (cancel_task t ;; except_CancelledError (await_task t) (mret tt)) s
  = (Done tt, set_tasks (alter cancelled_task t (tasks s)) s).
Proof.
  intros Ht. unfold cancel_task, await_task. node_run.
  destruct (lookup_lt_is_Some_2 (tasks s) t Ht) as [task Htask].
  rewrite list_lookup_alter, Htask, decide_True by done. done.
Qed.

(** [if cls._task: cls._task.cancel(); try: await cls._task ...] for one
    of the two task attributes. *)
Lemma cancel_named_run (h : option nat) s :
  (forall t, h = Some t -> (t < length (tasks s))%nat) ->
  exists s',
    (match h with
     | Some t => cancel_task t ;; except_CancelledError (await_task t) (mret tt)
     | None => mret tt
     end) s = (Done tt, s')
    /\ world s' = world s /\ rabbitmq s' = rabbitmq s
    /\ connections s' = connections s /\ amqp_faults s' = amqp_faults s
    /\ mongodb s' = mongodb s /\ clients s' = clients s
    /\ tasks s' = match h with
                  | Some t => alter cancelled_task t (tasks s)
                  | None => tasks s
                  end.
Proof.
  intros Hh. destruct h as [t|].
  - rewrite cancel_await_run by auto. eexists. split; [reflexivity|]. done.
  - exists s. done.
Qed.

Lemma connection_close_cases c s :
  (exists fs, amqp_faults s = true :: fs
              /\ connection_close c s = (Failed (Exn BrokerError), set_amqp_faults fs s))
  \/ (hd false (amqp_faults s) = false
      /\ exists s', connection_close c s = (Done tt, s')
                    /\ world s' = world s /\ rabbitmq s' = rabbitmq s
                    /\ tasks s' = tasks s
                    /\ mongodb s' = mongodb s /\ clients s' = clients s
                    /\ connections s' = <[c := true]> (connections s)).
Proof.
  unfold connection_close, amqp_call. node_run.
  destruct (amqp_faults s) as [|[] fs] eqn:Hfs.
  - right. split; [done|]. eexists. split; [reflexivity|]. done.
  - left. exists fs. done.
  - right. split; [done|]. eexists. split; [reflexivity|]. done.
Qed.

(** [close], step by step. *)
Lemma close_run s :
  (forall t, _batch_task (rabbitmq s) = Some t -> (t < length (tasks s))%nat) ->
  (forall t, _connection_task (rabbitmq s) = Some t -> (t < length (tasks s))%nat) ->
  exists res s',
    close s = (res, s')
    /\ (res = Done tt \/ res = Failed (Exn BrokerError))
    /\ rabbitmq s' = rabbitmq s
    /\ world s' = world s
    /\ mongodb s' = mongodb s
    /\ clients s' = clients s
    /\ (forall t,
          tasks s' !! t
          = if decide (_batch_task (rabbitmq s) = Some t
                       \/ _connection_task (rabbitmq s) = Some t)
            then cancelled_task <$> tasks s !! t
            else tasks s !! t)
    /\ match connection (rabbitmq s) with
       | Some c =>
           (res = Done tt ->
            hd false (amqp_faults s) = false
            /\ connections s' = <[c := true]> (connections s))
           /\ (res = Failed (Exn BrokerError) ->
               hd false (amqp_faults s) = true /\ connections s' = connections s)
       | None => res = Done tt /\ connections s' = connections s
       end.
Proof.
  intros Hb Hc. unfold close.
  destruct (cancel_named_run (_batch_task (rabbitmq s)) s Hb)
    as (s1 & Hrun1 & Hw1 & Hr1 & Hcs1 & Hf1 & Hm1 & Hcl1 & Hts1).
  destruct (cancel_named_run (_connection_task (rabbitmq s)) s1)
    as (s2 & Hrun2 & Hw2 & Hr2 & Hcs2 & Hf2 & Hm2 & Hcl2 & Hts2).
  { intros t Ht. rewrite Hts1. specialize (Hc t Ht).
    destruct (_batch_task (rabbitmq s)); by rewrite ?length_alter. }
  rewrite NodeM_bind_run. cbn [get_node]. rewrite NodeM_bind_run, Hrun1.
  rewrite NodeM_bind_run. cbn [get_node]. rewrite NodeM_bind_run, Hr1, Hrun2.
  rewrite NodeM_bind_run. cbn [get_node]. rewrite Hr2, Hr1.
  assert (Htasks : forall t,
    tasks s2 !! t
    = if decide (_batch_task (rabbitmq s) = Some t
                 \/ _connection_task (rabbitmq s) = Some t)
      then cancelled_task <$> tasks s !! t
      else tasks s !! t).
  { intros t. rewrite Hts2, Hts1.
    destruct (_batch_task (rabbitmq s)) as [b|], (_connection_task (rabbitmq s)) as [c|];
      rewrite ?list_lookup_alter;
      repeat match goal with
             | |- context [decide ?P] => destruct (decide P) as [?|?]
             end;
      subst; try done; try (destruct (tasks s !! t); done);
      exfalso; intuition congruence. }
  destruct (connection (rabbitmq s)) as [c|] eqn:Hconn.
  - destruct (connection_close_cases c s2)
      as [(fs & Hfs & ->)|(Hok & s3 & -> & Hw3 & Hr3 & Hts3 & Hm3 & Hcl3 & Hcs3)].
    + eexists _, _. split; [reflexivity|]. split; [by right|].
      cbn [rabbitmq world tasks connections mongodb clients set_amqp_faults].
      split; [by rewrite Hr2, Hr1|]. split; [by rewrite Hw2, Hw1|].
      split; [by rewrite Hm2, Hm1|]. split; [by rewrite Hcl2, Hcl1|].
      split; [exact Htasks|]. split; [done|]. intros _.
      rewrite <- Hf1, <- Hf2, Hfs, Hcs2, Hcs1. done.
    + eexists _, _. split; [reflexivity|]. split; [by left|].
      split; [by rewrite Hr3, Hr2, Hr1|]. split; [by rewrite Hw3, Hw2, Hw1|].
      split; [by rewrite Hm3, Hm2, Hm1|]. split; [by rewrite Hcl3, Hcl2, Hcl1|].
      split; [by rewrite Hts3|]. split; [|done]. intros _.
      rewrite <- Hf1, <- Hf2, Hcs3, Hcs2, Hcs1. done.
  - eexists _, _. split; [reflexivity|]. split; [by left|].
    split; [by rewrite Hr2, Hr1|]. split; [by rewrite Hw2, Hw1|].
    split; [by rewrite Hm2, Hm1|]. split; [by rewrite Hcl2, Hcl1|].
    split; [exact Htasks|]. by rewrite Hcs2, Hcs1.
Qed.

(** X18. [close], in a state whose task attributes name tasks that exist:
    it never hangs; it cancels the two tasks the attributes name and no
    other; it leaves the attributes as they are; then it closes the
    connection the class holds, and the only exception it can raise is the
    one of that call, in which case the connection stays as it was. *)
Theorem close_cancels_the_named_tasks s :
  (forall t, _batch_task (rabbitmq s) = Some t -> (t < length (tasks s))%nat) ->
  (forall t, _connection_task (rabbitmq s) = Some t -> (t < length (tasks s))%nat) ->
  let r := close s in
  (r.1 = Done tt \/ r.1 = Failed (Exn BrokerError))
  /\ rabbitmq r.2 = rabbitmq s
  /\ world r.2 = world s
  /\ (forall t,
        tasks r.2 !! t
        = if decide (_batch_task (rabbitmq s) = Some t
                     \/ _connection_task (rabbitmq s) = Some t)
          then cancelled_task <$> tasks s !! t
          else tasks s !! t)
  /\ match connection (rabbitmq s) with
     | Some c =>
         (r.1 = Done tt ->
          hd false (amqp_faults s) = false
          /\ connections r.2 = <[c := true]> (connections s))
         /\ (r.1 = Failed (Exn BrokerError) ->
             hd false (amqp_faults s) = true /\ connections r.2 = connections s)
     | None => r.1 = Done tt /\ connections r.2 = connections s
     end.
Proof.
  intros Hb Hc. cbv zeta.
  destruct (close_run s Hb Hc)
    as (res & s' & -> & Hres & Hr & Hw & _ & _ & Hts & Hconn).
  cbn [fst snd]. done.
Qed.

(** [connect] against a broker that answers. *)
Lemma connect_accepted max_retries initial_delay s :
  1 <= max_retries ->
  amqp_faults s = [] ->
  exists s',
    connect settings max_retries initial_delay s = (Done tt, s')
    /\ world s' = world s
    /\ connections s' = connections s ++ [false]
    /\ tasks s'
       = tasks s ++ [{| coroutine := Run_process_batch; cancelled := false |};
                     {| coroutine := Run_monitor_connection; cancelled := false |}]
    /\ rabbitmq s'
       = {| connection := Some (length (connections s));
            channel_pool := Some {| max_size := 10; items := [length (connections s)] |};
            queue := Some (RABBITMQ_QUEUE_NAME settings);
            _batch_task := Some (length (tasks s));
            _connection_task := Some (S (length (tasks s))) |}
    /\ amqp_faults s' = [].
Proof.
  intros Hmax Hf. unfold connect.
  destruct (Z.to_nat max_retries) as [|fuel] eqn:Hfuel; [lia|].
  cbn [connect_loop]. rewrite decide_True by lia. unfold except_Exception.
  destruct (connect_attempt_accepted settings s) as (s' & -> & Hw & Hcs & Hts & Hr & Hf').
  { rewrite Hf. constructor. }
  exists s'. rewrite Hf' , Hf. done.
Qed.

(** X19. A second [connect] orphans what the first one set up.  Against a
    broker that answers, after two calls of [connect] and one of [close]
    the tasks and the connection of the second call are cancelled and
    closed, while the timer loop and the monitor of the first call are
    still running and its connection is still open: [connect] overwrites
    the attributes without looking at them, and [close] reaches only what
    the attributes name. *)
Theorem second_connect_orphans_the_first max_retries initial_delay s :
  1 <= max_retries ->
  amqp_faults s = [] ->
  let s1 := (connect settings max_retries initial_delay s).2 in
  let s2 := (connect settings max_retries initial_delay s1).2 in
  let r := close s2 in
  r.1 = Done tt
  /\ tasks r.2
     = tasks s ++ [{| coroutine := Run_process_batch; cancelled := false |};
                   {| coroutine := Run_monitor_connection; cancelled := false |};
                   {| coroutine := Run_process_batch; cancelled := true |};
                   {| coroutine := Run_monitor_connection; cancelled := true |}]
  /\ running (tasks r.2)
     = running (tasks s)
       ++ [{| coroutine := Run_process_batch; cancelled := false |};
           {| coroutine := Run_monitor_connection; cancelled := false |}]
  /\ connections r.2 = connections s ++ [false; true].
Proof.
  intros Hmax Hf. cbv zeta.
  destruct (connect_accepted max_retries initial_delay s Hmax Hf)
    as (s1 & -> & Hw1 & Hcs1 & Hts1 & Hr1 & Hf1). cbn [snd].
  destruct (connect_accepted max_retries initial_delay s1 Hmax Hf1)
    as (s2 & -> & Hw2 & Hcs2 & Hts2 & Hr2 & Hf2). cbn [snd].
  unfold close.
  rewrite NodeM_bind_run. cbn [get_node]. rewrite NodeM_bind_run, Hr2.
  cbn [_batch_task]. rewrite cancel_await_run by (rewrite Hts2, length_app; cbn; lia).
  rewrite NodeM_bind_run. cbn [get_node]. rewrite NodeM_bind_run.
  cbn [rabbitmq set_tasks]. rewrite Hr2. cbn [_connection_task].
  rewrite cancel_await_run
    by (cbn [tasks set_tasks]; rewrite length_alter, Hts2, length_app; cbn; lia).
  rewrite NodeM_bind_run. cbn [get_node rabbitmq set_tasks]. rewrite Hr2.
  cbn [connection]. unfold connection_close, amqp_call. node_run. rewrite Hf2.
  cbn.
  assert (Htasks :
    alter cancelled_task (S (length (tasks s1)))
      (alter cancelled_task (length (tasks s1)) (tasks s2))
    = tasks s ++ [{| coroutine := Run_process_batch; cancelled := false |};
                  {| coroutine := Run_monitor_connection; cancelled := false |};
                  {| coroutine := Run_process_batch; cancelled := true |};
                  {| coroutine := Run_monitor_connection; cancelled := true |}]).
  { rewrite Hts2.
    rewrite (alter_app_r_alt _ (tasks s1)) by lia. rewrite Nat.sub_diag.
    rewrite (alter_app_r_alt _ (tasks s1)) by lia.
    replace (S (length (tasks s1)) - length (tasks s1))%nat with 1%nat by lia.
    rewrite Hts1, <- app_assoc. done. }
  split; [done|]. rewrite Htasks. split; [done|]. split.
  - unfold running. rewrite filter_app. done.
  - rewrite Hcs2. rewrite (insert_app_r_alt (connections s1)) by lia.
    rewrite Nat.sub_diag, Hcs1, <- app_assoc. done.
Qed.

Ltac check_connection_cases s :=
  unfold check_connection, with_channel, acquire, get_channel, release, declare_queue,
    amqp_call, is_closed;
  destruct s as [w [conn pool q bt ct] cs ts fs mg n];
  destruct conn as [c|];
  destruct pool as [[ms [|ch rest]]|];
  destruct fs as [|[] [|[] fs]];
  node_run;
  try (destruct (cs !! c) as [[]|] eqn:Hclosed; cbn).

(** [check_connection] returns, and leaves the node as it is but for the
    broker's script and the channels at rest. *)
Lemma check_connection_returns s :
  exists b s',
    check_connection s = (Done b, s')
    /\ world s' = world s /\ tasks s' = tasks s /\ connections s' = connections s
    /\ (b = true ->
        exists c, connection (rabbitmq s) = Some c /\ is_closed s c = false).
Proof.
  check_connection_cases s; eexists _, _; (split; [reflexivity|]); cbn;
    do 3 (split; [done|]);
    first [done | intros _; eexists; split; [reflexivity|]; by rewrite Hclosed].
Qed.

(** X20. [check_connection] never raises and never hangs, and it changes
    neither the world nor the tasks, the connections or the attributes
    other than the pool.  Without a connection, or with a closed one, it
    answers [False] without a call to the broker.  It answers [True] only
    for an open connection.  With an open connection and a channel at rest
    in the pool, as [connect] leaves them, one AMQP call decides: the
    answer is [True] exactly when the call succeeds, and the channel is
    back in the pool afterwards. *)
Theorem check_connection_never_raises s :
  exists b s',
    check_connection s = (Done b, s')
    /\ world s' = world s /\ tasks s' = tasks s /\ connections s' = connections s
    /\ connection (rabbitmq s') = connection (rabbitmq s)
    /\ _batch_task (rabbitmq s') = _batch_task (rabbitmq s)
    /\ _connection_task (rabbitmq s') = _connection_task (rabbitmq s)
    /\ (b = true ->
        exists c, connection (rabbitmq s) = Some c /\ is_closed s c = false)
    /\ ((forall c, connection (rabbitmq s) = Some c -> is_closed s c = true) ->
        b = false /\ s' = s)
    /\ (forall c pool channel rest,
          connection (rabbitmq s) = Some c -> is_closed s c = false ->
          channel_pool (rabbitmq s) = Some pool -> items pool = channel :: rest ->
          b = negb (hd false (amqp_faults s))
          /\ amqp_faults s' = tail (amqp_faults s)
          /\ channel_pool (rabbitmq s') = Some pool).
Proof.
  check_connection_cases s; eexists _, _; (split; [reflexivity|]); cbn;
    do 6 (split; [done|]).
  all: split;
    [first [done | intros _; eexists; split; [reflexivity|]; by rewrite Hclosed]|].
  all: split;
    [first [done
           | intros Hall; specialize (Hall _ eq_refl); rewrite Hclosed in Hall;
             discriminate Hall]|].
  all: intros c' pool' channel' rest' Hc' Hopen' Hpool' Hitems';
    try discriminate Hc'; try discriminate Hpool';
    injection Hc' as <-; injection Hpool' as <-; cbn in Hitems';
    try discriminate Hitems'; try (rewrite Hclosed in Hopen'; discriminate Hopen');
    injection Hitems' as <- <-; done.
Qed.

(** What [connect] can come to. *)
Lemma connect_outcome max_retries initial_delay s :
  (connect settings max_retries initial_delay s).1 = Done tt
  \/ (connect settings max_retries initial_delay s).1 = Failed (Exn BrokerError).
Proof.
  unfold connect.
  destruct (connect_loop_run settings max_retries (Z.to_nat max_retries) 0
              initial_delay s)
    as [[_ ->]|[(failed & s' & -> & _)|(s' & -> & _)]];
    [f_equal; lia|by left|by left|by right].
Qed.

(** Either way the turn of the monitor ends with its pause. *)
Lemma monitor_turn_run (m : NodeM unit) s :
  (m s).1 = Done tt \/ (exists e, (m s).1 = Failed (Exn e)) ->
  except_Exception (m ;; lift (sleep 5)) (fun e => lift (sleep 5)) s
  = lift (sleep 5) (m s).2.
Proof.
  intros Hm. unfold except_Exception. rewrite NodeM_bind_run.
  destruct (m s) as [[[]|e|] s1]; cbn in *.
  - by destruct (lift_sleep_run 5 s1) as (s2 & -> & _).
  - destruct Hm as [Hm|[e' Hm]]; [done|]. injection Hm as ->. done.
  - destruct Hm as [Hm|[e' Hm]]; done.
Qed.

(** X21. One turn of [_monitor_connection] never raises and never hangs.
    With an open connection it only pauses for five seconds.  With none, or
    with a closed one, it calls [connect]: against a broker that answers,
    that starts a second timer loop and a second monitor beside the
    running ones, which nothing cancels; against a broker that refuses
    five connections, the exception is swallowed after pauses of 1, 2, 4
    and 8 seconds, and the turn ends with its own pause of five. *)
Theorem monitor_turn_reconnects_and_adds_tasks s :
  let r := _monitor_connection_tick settings s in
  let lost := forall c, connection (rabbitmq s) = Some c -> is_closed s c = true in
  r.1 = Done tt
  /\ (forall c, connection (rabbitmq s) = Some c -> is_closed s c = false ->
        sleeps (new_events (world s) (world r.2)) = [5]
        /\ tasks r.2 = tasks s /\ rabbitmq r.2 = rabbitmq s
        /\ connections r.2 = connections s /\ amqp_faults r.2 = amqp_faults s)
  /\ (lost -> amqp_faults s = [] ->
        sleeps (new_events (world s) (world r.2)) = [5]
        /\ tasks r.2
           = tasks s ++ [{| coroutine := Run_process_batch; cancelled := false |};
                         {| coroutine := Run_monitor_connection; cancelled := false |}]
        /\ running (tasks r.2)
           = running (tasks s)
             ++ [{| coroutine := Run_process_batch; cancelled := false |};
                 {| coroutine := Run_monitor_connection; cancelled := false |}]
        /\ connections r.2 = connections s ++ [false]
        /\ connection (rabbitmq r.2) = Some (length (connections s)))
  /\ (lost -> forall fs, amqp_faults s = replicate 5 true ++ fs ->
        sleeps (new_events (world s) (world r.2)) = [1; 2; 4; 8; 5]
        /\ tasks r.2 = tasks s /\ rabbitmq r.2 = rabbitmq s
        /\ connections r.2 = connections s /\ amqp_faults r.2 = fs).
Proof.
  cbv zeta. unfold _monitor_connection_tick, new_events.
  set (m := (s0 ← get_node ;
             match connection (rabbitmq s0) with
             | Some c => if is_closed s0 c then connect settings 5 1 else mret tt
             | None => connect settings 5 1
             end) : NodeM unit).
  change (except_Exception
            (s0 ← get_node ;
             match connection (rabbitmq s0) with
             | Some c => if is_closed s0 c then connect settings 5 1 else mret tt
             | None => connect settings 5 1
             end ;; lift (sleep 5)) (fun e => lift (sleep 5)))
    with (except_Exception (m ;; lift (sleep 5)) (fun e => lift (sleep 5))).
  assert (Hms : m s = match connection (rabbitmq s) with
                      | Some c => if is_closed s c then connect settings 5 1 s
                                  else (Done tt, s)
                      | None => connect settings 5 1 s
                      end).
  { subst m. rewrite NodeM_bind_run. cbn [get_node].
    destruct (connection (rabbitmq s)) as [c|]; [|done]. by destruct (is_closed s c). }
  rewrite monitor_turn_run.
  2:{ rewrite Hms. destruct (connection (rabbitmq s)) as [c|];
        [destruct (is_closed s c); [|by left]|];
        (destruct (connect_outcome 5 1 s) as [->| ->]; [by left|right; by eexists]). }
  destruct (lift_sleep_run 5 (m s).2)
    as (s2 & -> & Htr & _ & _ & _ & Hr & Hts & Hcs & Hf). cbn [fst snd].
  split; [done|]. rewrite Htr, Hts, Hr, Hcs, Hf, Hms.
  split; [|split].
  - intros c Hc Hopen. rewrite Hc, Hopen. cbn [snd].
    by rewrite drop_app_length.
  - intros Hlost Hfs.
    assert (Hcall : match connection (rabbitmq s) with
                    | Some c => if is_closed s c then connect settings 5 1 s
                                else (Done tt, s)
                    | None => connect settings 5 1 s
                    end = connect settings 5 1 s).
    { destruct (connection (rabbitmq s)) as [c|]; [|done]. by rewrite (Hlost c). }
    rewrite Hcall.
    destruct (connect_accepted 5 1 s) as (s1 & -> & Hw1 & Hcs1 & Hts1 & Hr1 & _);
      [lia|done|]. cbn [snd].
    rewrite Hw1, drop_app_length, Hts1, Hcs1, Hr1. cbn [connection].
    split; [done|]. split; [done|]. split; [|done].
    unfold running. by rewrite filter_app.
  - intros Hlost fs Hfs.
    assert (Hcall : match connection (rabbitmq s) with
                    | Some c => if is_closed s c then connect settings 5 1 s
                                else (Done tt, s)
                    | None => connect settings 5 1 s
                    end = connect settings 5 1 s).
    { destruct (connection (rabbitmq s)) as [c|]; [|done]. by rewrite (Hlost c). }
    rewrite Hcall. unfold connect.
    destruct (connect_loop_refused settings 5 (Z.to_nat 5) 0 1 s fs)
      as (s1 & -> & Htr1 & Hcs1 & Hts1 & Hr1 & Hf1); [done|done|done|]. cbn [snd].
    rewrite Htr1, <- app_assoc, drop_app_length. done.
Qed.

End Connection_lifecycle.

(** ** The health report *)

Section Health_facts.




End Health_facts.

(** ** [_send_notification] *)

Section Sending.
Context (settings : Settings).
Context (self : NotificationService).

(** X23. [_send_notification] never raises: an exception of the transport
    comes out as [False], and [True] is returned exactly when the transport
    did not raise.  Either way the call takes its second of simulated
    latency first, attempts one delivery, and writes nothing to the store
    and nothing to the buffer. *)
Theorem _send_notification_never_raises notification w :
  exists w',
    _send_notification notification w
    = (Returns (negb (hd false (transport_faults w))), w')
    /\ new_events w w'
       = [EvSleep 1; EvDeliver notification (negb (hd false (transport_faults w)))]
    /\ clock w' = clock w + 1
    /\ transport_faults w' = tail (transport_faults w)
    /\ notifications w' = notifications w
    /\ _message_batch w' = _message_batch w
    /\ store_faults w' = store_faults w.
Proof.
  unfold _send_notification, transport, new_events. run.
  destruct (transport_faults w) as [|[] fs] eqn:Hfs; cbn;
    eexists; (split; [reflexivity|]); cbn;
    rewrite <- app_assoc, drop_app_length; repeat split; first [done | lia].
Qed.

End Sending.

(** ** The database client *)

Section Database.

Ltac open_node s :=
  destruct s as [[ns oid sf mb bq bf tf ck uc tr] r cs ts fs [c d] cl].

Ltac stopped_at :=
  cbn [take lookup list_lookup drop Nat.min];
  split; [lia|]; split; [lia|]; split; [reflexivity|]; split; [reflexivity|];
  repeat constructor.

Ltac indexes_leaf :=
  eexists _, _; split; [reflexivity|]; cbn [take lookup list_lookup drop];
  split; [by auto|];
  split; [split; [first [done | intros _; split; [repeat constructor|done]]
                 |first [done | intros [Hall Hsix]; exfalso;
                                first [by apply Hsix
                                      | repeat (apply Forall_cons in Hall as [? Hall]);
                                        done]]]|];
  split; [first [done | intros _; reflexivity]|];
  first [ done
        | intros _;
          first [ exists 0%nat; stopped_at | exists 1%nat; stopped_at
                | exists 2%nat; stopped_at | exists 3%nat; stopped_at
                | exists 4%nat; stopped_at | exists 6%nat; stopped_at ] ].

(** X24. [create_indexes], with the database attribute set, raises exactly
    when one of the five indexes on the notifications or the index on the
    users' phone fails: a failure of the unique index on the users' email
    is swallowed.  It makes the seven calls in a row when it returns, stops
    at the first failure that counts when it raises, and changes nothing but
    the store's answers. *)
Theorem create_indexes_tolerates_the_email_index s :
  db (mongodb s) <> None ->
  exists res sf',
    mongodb.create_indexes s = (res, set_world (set_store_faults sf' (world s)) s)
    /\ (res = Done tt \/ res = Failed (Exn StoreError))
    /\ (res = Done tt
        <-> Forall (fun b => b = false) (take 5 (store_faults (world s)))
            /\ store_faults (world s) !! 6%nat <> Some true)
    /\ (res = Done tt -> sf' = drop 7 (store_faults (world s)))
    /\ (res = Failed (Exn StoreError) ->
        exists k, (k <= 6)%nat /\ k <> 5%nat
                  /\ store_faults (world s) !! k = Some true
                  /\ sf' = drop (S k) (store_faults (world s))
                  /\ Forall (fun b => b = false)
                            (take (k `min` 5) (store_faults (world s)))).
Proof.
  intros Hdb. open_node s. destruct d as [d|]; [|done]. clear Hdb.
  cbn [world store_faults].
  do 5 (destruct sf as [|[] sf]; [indexes_leaf | indexes_leaf |]).
  destruct sf as [|b6 sf]; [indexes_leaf|].
  destruct sf as [|[] sf]; destruct b6; indexes_leaf.
Qed.

Ltac attempt_leaf :=
  eexists _, _; split; [reflexivity|]; cbn [take hd tail drop];
  split; [by auto|];
  split; [first [done | intros _; by split]|];
  first [ intros Hall; exfalso; repeat (apply Forall_cons in Hall as [? Hall]); done
        | intros _; by split ].

(** One attempt of [connect_to_database]: a new client is made and both
    attributes are set to it, whatever comes after; then the ping and the
    indexes move the store's script. *)
Lemma database_attempt_run s :
  exists res sf',
    mongodb.connect_attempt s
    = (res,
       set_world (set_store_faults sf' (world s))
         (set_mongodb {| client := Some (length (clients s));
                         db := Some (length (clients s)) |}
            (set_clients (clients s ++ [false]) s)))
    /\ (res = Done tt \/ res = Failed (Exn StoreError))
    /\ (hd false (store_faults (world s)) = true ->
        res = Failed (Exn StoreError) /\ sf' = tail (store_faults (world s)))
    /\ (Forall (fun b => b = false) (take 8 (store_faults (world s))) ->
        res = Done tt /\ sf' = drop 8 (store_faults (world s))).
Proof.
  open_node s. cbn [world store_faults clients].
  do 6 (destruct sf as [|[] sf]; [attempt_leaf | attempt_leaf |]).
  destruct sf as [|b6 sf]; [attempt_leaf|].
  destruct sf as [|[] sf]; destruct b6; attempt_leaf.
Qed.

Lemma connect_attempt_frame settings s :
  mongodb (connect_attempt settings s).2 = mongodb s
  /\ clients (connect_attempt settings s).2 = clients s.
Proof.
  destruct s as [w r cs ts faults mg n].
  destruct faults as [|[] [|[] [|[] [|[] fs]]]]; split; reflexivity.
Qed.

Lemma lift_sleep_frame secs s :
  mongodb (lift (sleep secs) s).2 = mongodb s
  /\ clients (lift (sleep secs) s).2 = clients s
  /\ store_faults (world (lift (sleep secs) s).2) = store_faults (world s).
Proof. done. Qed.

Lemma connect_frame settings max_retries fuel : forall retry_count delay s,
  mongodb (connect_loop settings max_retries retry_count delay fuel s).2 = mongodb s
  /\ clients (connect_loop settings max_retries retry_count delay fuel s).2 = clients s.
Proof.
  induction fuel as [|fuel IH]; intros retry_count delay s; [done|].
  cbn [connect_loop]. destruct (decide (retry_count < max_retries)); [|done].
  unfold except_Exception.
  destruct (connect_attempt_frame settings s) as [Hm Hc].
  destruct (connect_attempt settings s) as [[[]|e|] s1]; cbn [snd] in *; [done| |done].
  destruct e as [e| |]; [| |done]; cbv zeta;
    (destruct (decide (retry_count + 1 = max_retries)); [done|]);
    rewrite NodeM_bind_run;
    destruct (lift_sleep_frame delay s1) as (Hm2 & Hc2 & _);
    destruct (lift_sleep_run delay s1) as (s2 & Hrun & _); rewrite Hrun in *;
    cbn [snd] in *;
    destruct (IH (retry_count + 1) (Z.min (delay * 2) 30) s2) as [-> ->];
    by rewrite Hm2, Hc2.
Qed.

(** The loop of [connect_to_database], from any turn on. *)
Lemma database_loop_run max_retries remaining : forall attempt s,
  remaining = Z.to_nat (max_retries - attempt) ->
  exists res failed s',
    mongodb.connect_from max_retries attempt remaining s = (res, s')
    /\ trace (world s') = trace (world s) ++ replicate failed (EvSleep 1)
    /\ notifications (world s') = notifications (world s)
    /\ _message_batch (world s') = _message_batch (world s)
    /\ rabbitmq s' = rabbitmq s /\ tasks s' = tasks s
    /\ connections s' = connections s /\ amqp_faults s' = amqp_faults s
    /\ ((res = Done tt /\ remaining = O /\ failed = O /\ s' = s)
        \/ (res = Done tt /\ (failed < remaining)%nat
            /\ clients s' = clients s ++ replicate (S failed) false
            /\ client (mongodb s') = Some (length (clients s) + failed)%nat
            /\ db (mongodb s') = Some (length (clients s) + failed)%nat)
        \/ (res = Failed (Exn StoreError) /\ S failed = remaining
            /\ clients s' = clients s ++ replicate remaining false
            /\ client (mongodb s') = Some (length (clients s) + failed)%nat)).
Proof.
  induction remaining as [|remaining IH]; intros attempt s Hrem.
  { exists (Done tt), 0%nat, s. cbn. rewrite app_nil_r. repeat (split; [done|]).
    left. done. }
  cbn [mongodb.connect_from]. unfold except_Exception.
  destruct (database_attempt_run s) as (res & sf' & -> & Hres & _).
  set (s1 := set_world _ _).
  destruct Hres as [-> | ->].
  - exists (Done tt), 0%nat, s1. split; [done|]. subst s1. cbn.
    rewrite app_nil_r, Nat.add_0_r. repeat (split; [done|]). right. left.
    repeat split; try done. lia.
  - destruct (decide (attempt = max_retries - 1)) as [Hlast|Hmore].
    + exists (Failed (Exn StoreError)), 0%nat, s1. split; [done|]. subst s1. cbn.
      rewrite app_nil_r, Nat.add_0_r. repeat (split; [done|]). right. right.
      assert (remaining = O) as -> by lia. done.
    + rewrite NodeM_bind_run.
      pose proof (lift_sleep_frame 1 s1) as (Hm2 & Hcl2 & _).
      destruct (lift_sleep_run 1 s1)
        as (s2 & Hrun2 & Htr2 & _ & Hn2 & Hb2 & Hr2 & Hts2 & Hcs2 & Hf2).
      rewrite Hrun2 in *. cbn [snd] in Hm2, Hcl2.
      destruct (IH (attempt + 1) s2)
        as (res & failed & s3 & Hrun & Htr3 & Hn3 & Hb3 & Hr3 & Hts3 & Hcs3 & Hf3 & Hcase);
        [lia|].
      exists res, (S failed), s3. split; [exact Hrun|].
      rewrite Htr3, Htr2, Hn3, Hn2, Hb3, Hb2, Hr3, Hr2, Hts3, Hts2, Hcs3, Hcs2, Hf3, Hf2.
      subst s1. cbn [world set_world trace set_store_faults notifications _message_batch
                     rabbitmq tasks connections amqp_faults set_mongodb set_clients].
      split; [by rewrite <- app_assoc|]. repeat (split; [done|]).
      cbn [mongodb clients set_world set_mongodb set_clients] in Hm2, Hcl2.
      destruct Hcase as [(_ & Hz & _)|[(-> & Hlt & Hcl3 & Hc3 & Hd3)|(-> & Hlt & Hcl3 & Hc3)]];
        [lia|right; left|right; right].
      * rewrite Hcl3, Hc3, Hd3, Hcl2, length_app, <- app_assoc. cbn.
        split; [done|]. split; [lia|]. split; [done|]. split; f_equal; lia.
      * rewrite Hcl3, Hc3, Hcl2, length_app, <- app_assoc. cbn.
        split; [done|]. split; [lia|]. split; [done|]. f_equal; lia.
Qed.

Lemma sleeps_replicate n secs : sleeps (replicate n (EvSleep secs)) = replicate n secs.
Proof. induction n as [|n IH]; cbn; [done|]. unfold sleeps in IH. by rewrite IH. Qed.

(** X25. [connect_to_database] makes at most [max_retries] attempts, one
    second apart, and no AMQP call.  With [max_retries <= 0] it returns at
    once without a client.  Otherwise it returns after the first attempt
    whose ping and indexes succeed, or raises the store's exception after
    exactly [max_retries] failed attempts, without a pause before giving
    up.  Every attempt makes a client of its own and sets both attributes to
    it before anything is sent, and no client is closed: after [k] failed
    attempts [k] clients are left behind. *)
Theorem connect_to_database_retries_every_second max_retries s :
  let r := mongodb.connect_to_database max_retries s in
  let pauses := sleeps (new_events (world s) (world r.2)) in
  new_events (world s) (world r.2) = EvSleep <$> pauses
  /\ pauses = replicate (length pauses) 1
  /\ rabbitmq r.2 = rabbitmq s /\ tasks r.2 = tasks s
  /\ connections r.2 = connections s /\ amqp_faults r.2 = amqp_faults s
  /\ ((max_retries <= 0 /\ r = (Done tt, s))
      \/ (r.1 = Done tt
          /\ (length pauses < Z.to_nat max_retries)%nat
          /\ clients r.2 = clients s ++ replicate (S (length pauses)) false
          /\ client (mongodb r.2) = Some (length (clients s) + length pauses)%nat
          /\ db (mongodb r.2) = Some (length (clients s) + length pauses)%nat)
      \/ (r.1 = Failed (Exn StoreError)
          /\ 1 <= max_retries
          /\ S (length pauses) = Z.to_nat max_retries
          /\ clients r.2 = clients s ++ replicate (Z.to_nat max_retries) false
          /\ client (mongodb r.2) = Some (length (clients s) + length pauses)%nat)).
Proof.
  cbv zeta. unfold mongodb.connect_to_database, new_events.
  destruct (database_loop_run max_retries (Z.to_nat max_retries) 0 s)
    as (res & failed & s' & -> & Htr & _ & _ & Hr & Hts & Hcs & Hf & Hcase);
    [f_equal; lia|].
  cbn [fst snd].
  rewrite Htr, drop_app_length, sleeps_replicate, length_replicate, fmap_replicate.
  repeat (split; [done|]).
  destruct Hcase as [(-> & Hz & -> & ->)|[(-> & Hlt & Hcl & Hc & Hd)|(-> & Hlt & Hcl & Hc)]].
  - left. split; [lia|done].
  - right. left. done.
  - right. right. split; [done|]. split; [lia|]. done.
Qed.

Lemma except_reraise {A} (m : NodeM A) s : except_Exception m (fun e => fail e) s = m s.
Proof.
  unfold except_Exception. destruct (m s) as [[a|e|] s']; [done| |done].
  by destruct e.
Qed.

(** X26. [startup_event] connects the database first and the broker only
    after that.  When the database cannot be reached in three attempts it
    raises the store's exception after two pauses of one second, and no AMQP
    call was made: no connection, no task, no attribute of [RabbitMQ] has
    changed.  When the broker cannot be reached it raises the broker's
    exception, and the client of the database is left open.  When it
    returns, both are connected and the two tasks run. *)
Theorem startup_connects_the_database_first settings s :
  let r := main.startup_event settings s in
  (r.1 = Done tt \/ r.1 = Failed (Exn StoreError) \/ r.1 = Failed (Exn BrokerError))
  /\ (r.1 = Failed (Exn StoreError) ->
      sleeps (new_events (world s) (world r.2)) = [1; 1]
      /\ amqp_faults r.2 = amqp_faults s /\ connections r.2 = connections s
      /\ tasks r.2 = tasks s /\ rabbitmq r.2 = rabbitmq s)
  /\ (r.1 = Failed (Exn BrokerError) ->
      tasks r.2 = tasks s
      /\ exists c, client (mongodb r.2) = Some c /\ clients r.2 !! c = Some false)
  /\ (r.1 = Done tt ->
      tasks r.2
      = tasks s ++ [{| coroutine := Run_process_batch; cancelled := false |};
                    {| coroutine := Run_monitor_connection; cancelled := false |}]
      /\ (exists c, client (mongodb r.2) = Some c /\ clients r.2 !! c = Some false)
      /\ exists c, connection (rabbitmq r.2) = Some c
                   /\ connections r.2 !! c = Some false).
Proof.
  cbv zeta. unfold main.startup_event. rewrite except_reraise, NodeM_bind_run.
  unfold mongodb.connect_to_database, new_events.
  destruct (database_loop_run 3 (Z.to_nat 3) 0 s)
    as (res & failed & s1 & -> & Htr & _ & _ & Hr & Hts & Hcs & Hf & Hcase); [done|].
  destruct Hcase as [(_ & Hz & _)|[(-> & Hlt & Hcl & Hc & Hd)|(-> & Hlt & Hcl & Hc)]];
    [done| |].
  - assert (Hclient : exists c, client (mongodb s1) = Some c
                                /\ clients s1 !! c = Some false).
    { eexists. split; [exact Hc|]. rewrite Hcl.
      rewrite lookup_app_r by lia. apply lookup_replicate. split; [done|lia]. }
    unfold connect.
    destruct (connect_frame settings 5 (Z.to_nat 5) 0 1 s1) as [Hm2 Hcl2].
    destruct (connect_loop_run settings 5 (Z.to_nat 5) 0 1 s1)
      as [[Hz _]
         |[(failed' & s2 & Hrun & _ & _ & Hts2 & _ & _ & _ & c & Hconn & Hopen & _)
          |(s2 & Hrun & _ & _ & Hts2 & _)]]; [done|done| |];
      rewrite Hrun in *; cbn [fst snd] in *.
    + split; [by left|]. split; [done|]. split; [done|]. intros _.
      rewrite Hts2, Hts, Hm2, Hcl2. split; [done|]. split; [done|]. by exists c.
    + split; [by right; right|]. split; [done|]. split; [|done]. intros _.
      rewrite Hts2, Hts, Hm2, Hcl2. done.
  - cbn [fst snd]. split; [by right; left|]. split; [|done]. intros _.
    rewrite Htr, drop_app_length, sleeps_replicate.
    assert (failed = 2%nat) as -> by (change (Z.to_nat 3) with 3%nat in Hlt; lia).
    done.
Qed.

(** [close_database_connection] marks the client the class holds. *)
Lemma close_database_connection_run s :
  exists s',
    mongodb.close_database_connection s = (Done tt, s')
    /\ world s' = world s /\ rabbitmq s' = rabbitmq s /\ mongodb s' = mongodb s
    /\ tasks s' = tasks s /\ connections s' = connections s
    /\ amqp_faults s' = amqp_faults s
    /\ clients s' = match client (mongodb s) with
                    | Some c => <[c := true]> (clients s)
                    | None => clients s
                    end.
Proof.
  unfold mongodb.close_database_connection. rewrite NodeM_bind_run. cbn [get_node].
  destruct (client (mongodb s)); eexists; (split; [reflexivity|]); done.
Qed.

(** X27. [shutdown_event], when the task attributes name tasks that exist,
    never raises and never hangs: it closes the client of the database,
    cancels the two tasks the attributes name and no other, and tries to
    close the broker's connection; when that call fails the exception is
    swallowed and the connection stays open.  No attribute is reset. *)
Theorem shutdown_swallows_a_failed_close s :
  (forall t, _batch_task (rabbitmq s) = Some t -> (t < length (tasks s))%nat) ->
  (forall t, _connection_task (rabbitmq s) = Some t -> (t < length (tasks s))%nat) ->
  let r := main.shutdown_event s in
  r.1 = Done tt
  /\ rabbitmq r.2 = rabbitmq s /\ mongodb r.2 = mongodb s
  /\ clients r.2 = match client (mongodb s) with
                   | Some c => <[c := true]> (clients s)
                   | None => clients s
                   end
  /\ (forall t,
        tasks r.2 !! t
        = if decide (_batch_task (rabbitmq s) = Some t
                     \/ _connection_task (rabbitmq s) = Some t)
          then cancelled_task <$> tasks s !! t
          else tasks s !! t)
  /\ connections r.2
     = match connection (rabbitmq s) with
       | Some c => if hd false (amqp_faults s) then connections s
                   else <[c := true]> (connections s)
       | None => connections s
       end.
Proof.
  intros Hb Hc. cbv zeta. unfold main.shutdown_event, except_Exception.
  rewrite NodeM_bind_run.
  destruct (close_database_connection_run s)
    as (s1 & -> & Hw1 & Hr1 & Hm1 & Hts1 & Hcs1 & Hf1 & Hcl1).
  destruct (close_run s1) as (res & s2 & -> & Hres & Hr2 & Hw2 & Hm2 & Hcl2 & Hts2 & Hconn).
  { by rewrite Hr1, Hts1. }
  { by rewrite Hr1, Hts1. }
  rewrite Hr1, Hts1, Hf1, Hcs1 in *.
  assert (Hrest :
    rabbitmq s2 = rabbitmq s /\ mongodb s2 = mongodb s
    /\ clients s2 = match client (mongodb s) with
                    | Some c => <[c := true]> (clients s)
                    | None => clients s
                    end
    /\ (forall t,
          tasks s2 !! t
          = if decide (_batch_task (rabbitmq s) = Some t
                       \/ _connection_task (rabbitmq s) = Some t)
            then cancelled_task <$> tasks s !! t
            else tasks s !! t)).
  { rewrite Hr2, Hm2, Hm1, Hcl2, Hcl1. done. }
  destruct Hres as [-> | ->]; cbn [fst snd]; (split; [done|]);
    destruct Hrest as (? & ? & ? & ?); repeat (split; [done|]).
  - destruct (connection (rabbitmq s)) as [c|].
    + destruct Hconn as [Hdone _]. destruct (Hdone eq_refl) as [-> ->]. done.
    + by destruct Hconn.
  - destruct (connection (rabbitmq s)) as [c|].
    + destruct Hconn as [_ Hfail]. destruct (Hfail eq_refl) as [-> Hsame]. exact Hsame.
    + by destruct Hconn.
Qed.

(** [MongoDB.check_connection] returns, and leaves the node as it is but
    for the store's script. *)
Lemma database_check_run s :
  exists b s',
    mongodb.check_connection s = (Done b, s')
    /\ (b = true <-> client (mongodb s) <> None
                     /\ hd false (store_faults (world s)) = false)
    /\ rabbitmq s' = rabbitmq s /\ connections s' = connections s
    /\ tasks s' = tasks s /\ amqp_faults s' = amqp_faults s
    /\ mongodb s' = mongodb s /\ clients s' = clients s
    /\ notifications (world s') = notifications (world s)
    /\ _message_batch (world s') = _message_batch (world s)
    /\ trace (world s') = trace (world s)
    /\ (client (mongodb s) = None -> s' = s).
Proof.
  open_node s. destruct c as [c|]; destruct sf as [|[] sf];
    eexists _, _; (split; [reflexivity|]); cbn;
    (split; [split; [first [done | intros _; by split]
                    |first [done | by intros [? ?]]]|]); done.
Qed.

(** X28. The endpoint [health_check] of [app/main.py] never raises and
    never hangs, and its [except] branch is dead: the answer always names
    the database, the broker and the version, and never an error.  It is
    [healthy] exactly when both are [connected]; the database is
    [connected] exactly when the class has a client and the ping is
    answered; the broker can be [connected] only with an open connection.
    Tasks, connections and the collection are left as they are. *)
Theorem main_health_check_never_raises s :
  exists h s',
    main.health_check s = (Done h, s')
    /\ main.error h = None
    /\ main.version h = Some "1.0.0"
    /\ (main.status h = "healthy"
        <-> main.database h = Some "connected" /\ main.rabbitmq h = Some "connected")
    /\ (main.database h = Some "connected"
        <-> client (mongodb s) <> None /\ hd false (store_faults (world s)) = false)
    /\ (main.database h = Some "connected" \/ main.database h = Some "disconnected")
    /\ (main.rabbitmq h = Some "connected" \/ main.rabbitmq h = Some "disconnected")
    /\ (main.rabbitmq h = Some "connected" ->
        exists c, connection (rabbitmq s) = Some c /\ is_closed s c = false)
    /\ tasks s' = tasks s /\ connections s' = connections s
    /\ notifications (world s') = notifications (world s).
Proof.
  unfold main.health_check, except_Exception. rewrite NodeM_bind_run.
  destruct (database_check_run s)
    as (b1 & s1 & -> & Hb1 & Hr1 & Hcs1 & Hts1 & _ & _ & _ & Hn1 & _).
  rewrite NodeM_bind_run.
  destruct (check_connection_returns s1) as (b2 & s2 & -> & Hw2 & Hts2 & Hcs2 & Hb2).
  eexists _, s2. split; [reflexivity|]. cbn.
  split; [done|]. split; [done|].
  split. { destruct b1, b2; cbn; split; try done; intros [? ?]; done. }
  split. { rewrite <- Hb1. destruct b1; split; done. }
  split; [destruct b1; auto|]. split; [destruct b2; auto|].
  split.
  { intros Hconn. destruct b2; [|done]. destruct (Hb2 eq_refl) as (c & Hc & Hopen).
    exists c. rewrite <- Hr1. split; [done|]. unfold is_closed in *. by rewrite <- Hcs1. }
  by rewrite Hts2, Hts1, Hcs2, Hcs1, Hw2, Hn1.
Qed.

End Database.

(** ** The further properties at concrete worlds *)

Lemma create_notification_witness :
  exists n w',
    create_notification default_settings demo_uuid4 NotificationService_init hello
      empty_world = (Returns n, w')
    /\ Notification.id n = "uuid-0"
    /\ Notification.status n = PENDING
    /\ notifications w' = [queued].
Proof.
  assert (H1 : 0 <= max_retries NotificationService_init) by (simpl; lia).
  assert (H2 : validate_create hello = true) by reflexivity.
  assert (H3 : hd false (store_faults empty_world) = false) by reflexivity.
  destruct (create_notification_stores_and_enqueues default_settings demo_uuid4
              NotificationService_init hello empty_world H1 H2 H3)
    as (n & w' & Hrun & _ & Hid & Hs & _ & _ & Hn & _).
  exists n, w'. split; [exact Hrun|]. split; [exact Hid|]. split; [exact Hs|exact Hn].
Defined.

Lemma create_notification_failure_witness :
  (create_notification default_settings demo_uuid4 NotificationService_init hello
     store_down).1 = Raises (HTTPException HTTP_500_INTERNAL_SERVER_ERROR)
  /\ notifications
       (create_notification default_settings demo_uuid4 NotificationService_init hello
          store_down).2 = [].
Proof.
  assert (H : hd false (store_faults store_down) = true) by reflexivity.
  destruct (create_notification_fails_with_500 default_settings demo_uuid4
              NotificationService_init hello store_down) as [_ Hfail].
  destruct (Hfail H) as (Hr & Hn & _). split; [exact Hr|exact Hn].
Defined.


Lemma get_after_create_witness :
  exists n w',
    create_notification default_settings demo_uuid4 NotificationService_init hello
      empty_world = (Returns n, w')
    /\ get_notification NotificationService_init (Notification.id n) w'
       = (Returns (Some n), w').
Proof.
  assert (H1 : 0 <= max_retries NotificationService_init) by (simpl; lia).
  assert (H2 : validate_create hello = true) by reflexivity.
  assert (H3 : store_faults empty_world = []) by reflexivity.
  assert (H4 : find_first (matches_id (VStr (demo_uuid4 (uuid_calls empty_world))))
                 (notifications empty_world) = None) by reflexivity.
  exact (get_after_create_returns_created default_settings demo_uuid4
           NotificationService_init hello empty_world H1 H2 H3 H4).
Defined.

Lemma process_unrecorded_witness :
  (process_notification default_settings NotificationService_init (test_notification 0)
     created).1 = Returns true
  /\ notifications
       (process_notification default_settings NotificationService_init
          (test_notification 0) created).2 = notifications created.
Proof.
  assert (H1 : test_notification 0 !! "id" = Some (VStr "test-123")) by reflexivity.
  assert (H2 : dict_get (test_notification 0) "retry_count" (VInt 0) = VInt 0)
    by reflexivity.
  assert (H3 : 0 < max_retries NotificationService_init) by (simpl; lia).
  assert (H4 : hd false (transport_faults created) = false) by reflexivity.
  assert (H5 : store_faults created = []) by reflexivity.
  assert (H6 : find_first (matches_id (VStr "test-123")) (notifications created) = None)
    by reflexivity.
  destruct (process_unrecorded_notification_reports_success default_settings
              NotificationService_init (test_notification 0) (VStr "test-123") 0 created
              H1 H2 H3 H4 H5 H6) as (Hr & Hn & _).
  split; [exact Hr|exact Hn].
Defined.

Lemma process_without_id_witness :
  (process_notification default_settings NotificationService_init anonymous created).1
  = Raises KeyError.
Proof.
  assert (H : anonymous !! "id" = None) by reflexivity.
  destruct (process_without_id_raises_KeyError default_settings
              NotificationService_init anonymous created H) as (Hr & _).
  exact Hr.
Defined.

Lemma update_status_success_witness :
  (update_status NotificationService_init "uuid-0" SENT created).1
  = Returns (overridden_notification hello_notification SENT 0).
Proof.
  assert (H1 : store_faults created = []) by reflexivity.
  assert (H2 : find_first (matches_id (VStr "uuid-0")) (notifications created)
               = Some queued) by reflexivity.
  assert (H3 : Notification_of_doc (max_retries NotificationService_init) queued
               = Some hello_notification) by reflexivity.
  assert (H4 : apply_set (status_fields SENT (clock created)) queued <> queued).
  { intros Heq. apply (f_equal (fun d : Doc => d !! "status")) in Heq.
    vm_compute in Heq. discriminate Heq. }
  destruct (update_status_returns_overridden NotificationService_init "uuid-0" SENT
              queued hello_notification created H1 H2 H3) as (Hret & _).
  exact (Hret H4).
Defined.

Lemma _publish_batch_witness :
  exists w',
    _publish_batch created = (Returns tt, w')
    /\ broker_queue w' = [message_of queued empty_world].
Proof.
  assert (H : (failures (broker_faults created) <= 2)%nat) by (vm_compute; lia).
  destruct (_publish_batch_delivers_in_order created)
    as (sent & w' & Hrun & _ & Hq & _ & _ & Hall).
  exists w'. split; [exact Hrun|]. rewrite Hq, (Hall H). reflexivity.
Defined.

Lemma timer_loop_witness :
  exists w',
    _process_batch default_settings 2 created = (Returns tt, w')
    /\ _message_batch w' = []
    /\ count_flushes (new_events created w') = 1%nat.
Proof.
  assert (H : (2 <> 0)%nat) by discriminate.
  destruct (timer_loop_flushes_once default_settings 2 created)
    as (sent & w' & Hrun & _ & _ & _ & Hb & Hcnt & _).
  exists w'. split; [exact Hrun|]. split; [exact (Hb H)|]. rewrite Hcnt. reflexivity.
Defined.

Lemma delivered_is_reachable :
  reachable default_settings demo_uuid4 NotificationService_init delivered.
Proof.
  exists empty_world. split; [split; reflexivity|].
  apply (rtc_l _ _ created); [apply step_create|].
  apply rtc_once. apply step_process.
Qed.

Lemma stored_status_witness : store_inv status_known delivered.
Proof.
  exact (stored_status_is_always_known default_settings demo_uuid4
           NotificationService_init delivered delivered_is_reachable).
Defined.

Lemma core_of_record_witness :
  grown_from (notifications created) (notifications delivered).
Proof.
  apply (operations_keep_the_core_of_every_record default_settings demo_uuid4
           NotificationService_init created delivered).
  apply rtc_once.
  exact (step_process default_settings demo_uuid4 NotificationService_init queued
           created).
Defined.

Lemma buffer_bound_witness : buffer_below_batch_size default_settings delivered.
Proof.
  assert (H : 1 <= RABBITMQ_BATCH_SIZE default_settings) by (simpl; lia).
  exact (buffer_stays_below_batch_size default_settings demo_uuid4
           NotificationService_init delivered H delivered_is_reachable).
Defined.

Lemma route_get_notification_witness :
  (routers.get_notification "missing" routers.get_notification_service created).1
  = Raises (HTTPException HTTP_404_NOT_FOUND).
Proof.
  assert (H1 : hd false (store_faults created) = false) by reflexivity.
  assert (H2 : find_first (matches_id (VStr "missing")) (notifications created) = None)
    by reflexivity.
  destruct (route_get_notification_answers_404 routers.get_notification_service
              "missing" created) as (H404 & _).
  exact (H404 H1 H2).
Defined.

Lemma route_update_status_witness :
  (routers.update_notification_status "missing" SENT routers.get_notification_service
     created).1 = Raises AttributeError.
Proof.
  assert (H : find_first (matches_id (VStr "missing")) (notifications created) = None)
    by reflexivity.
  destruct (route_update_status_never_404 routers.get_notification_service "missing"
              SENT created) as (_ & Hunknown & _).
  exact (Hunknown H).
Defined.

Lemma connect_gives_up_witness :
  exists s',
    connect default_settings 5 1 refused = (Failed (Exn BrokerError), s')
    /\ sleeps (new_events (world refused) (world s')) = [1; 2; 4; 8]
    /\ tasks s' = [].
Proof.
  assert (H1 : 1 <= 5) by lia.
  assert (H2 : amqp_faults refused = replicate (Z.to_nat 5) true ++ []) by reflexivity.
  destruct (connect_gives_up_after_max_retries default_settings 5 1 refused H1)
    as [Hgive _].
  destruct (Hgive [] H2) as (s' & Hrun & Hsl & _ & _ & Hts & _).
  exists s'. split; [exact Hrun|]. split; [exact Hsl|exact Hts].
Defined.

Lemma close_witness :
  (close connected).1 = Done tt
  /\ rabbitmq (close connected).2 = rabbitmq connected
  /\ tasks (close connected).2
     = [{| coroutine := Run_process_batch; cancelled := true |};
        {| coroutine := Run_monitor_connection; cancelled := true |}]
  /\ connections (close connected).2 = [true].
Proof.
  assert (Hts : length (tasks connected) = 2%nat) by reflexivity.
  assert (Hb : _batch_task (rabbitmq connected) = Some 0%nat) by reflexivity.
  assert (Hc : _connection_task (rabbitmq connected) = Some 1%nat) by reflexivity.
  assert (H1 : forall t, _batch_task (rabbitmq connected) = Some t ->
                         (t < length (tasks connected))%nat).
  { intros t Ht. rewrite Hb in Ht. injection Ht as <-. rewrite Hts. lia. }
  assert (H2 : forall t, _connection_task (rabbitmq connected) = Some t ->
                         (t < length (tasks connected))%nat).
  { intros t Ht. rewrite Hc in Ht. injection Ht as <-. rewrite Hts. lia. }
  destruct (close_cancels_the_named_tasks connected H1 H2) as (_ & Hr & _).
  split; [reflexivity|]. split; [exact Hr|]. split; reflexivity.
Defined.

Lemma second_connect_witness :
  running (tasks (close (connect default_settings 5 1 connected).2).2)
  = [{| coroutine := Run_process_batch; cancelled := false |};
     {| coroutine := Run_monitor_connection; cancelled := false |}]
  /\ connections (close (connect default_settings 5 1 connected).2).2 = [false; true].
Proof.
  assert (H1 : 1 <= 5) by lia.
  assert (H2 : amqp_faults starting = []) by reflexivity.
  destruct (second_connect_orphans_the_first default_settings 5 1 starting H1 H2)
    as (_ & _ & Hrun & Hcs).
  split; [exact Hrun|exact Hcs].
Defined.

Lemma monitor_turn_witness :
  tasks (_monitor_connection_tick default_settings starting).2
  = [{| coroutine := Run_process_batch; cancelled := false |};
     {| coroutine := Run_monitor_connection; cancelled := false |}].
Proof.
  assert (H1 : forall c, connection (rabbitmq starting) = Some c ->
                         is_closed starting c = true) by (intros c Hc; discriminate Hc).
  assert (H2 : amqp_faults starting = []) by reflexivity.
  destruct (monitor_turn_reconnects_and_adds_tasks default_settings starting)
    as (_ & _ & Hlost & _).
  destruct (Hlost H1 H2) as (_ & Hts & _). exact Hts.
Defined.

Lemma create_indexes_witness :
  (mongodb.create_indexes email_index_refused).1 = Done tt.
Proof.
  assert (Hdb : db (mongodb email_index_refused) <> None) by (vm_compute; discriminate).
  destruct (create_indexes_tolerates_the_email_index email_index_refused Hdb)
    as (res & sf' & Hrun & _ & Hiff & _ & _).
  rewrite Hrun. apply Hiff. split; [|vm_compute; discriminate].
  vm_compute. repeat constructor.
Defined.

Lemma shutdown_witness :
  (main.shutdown_event started_unclosable).1 = Done tt
  /\ clients (main.shutdown_event started_unclosable).2 = [true]
  /\ connections (main.shutdown_event started_unclosable).2 = [false].
Proof.
  assert (Hts : length (tasks started_unclosable) = 2%nat) by reflexivity.
  assert (Hb : _batch_task (rabbitmq started_unclosable) = Some 0%nat) by reflexivity.
  assert (Hc : _connection_task (rabbitmq started_unclosable) = Some 1%nat)
    by reflexivity.
  assert (H1 : forall t, _batch_task (rabbitmq started_unclosable) = Some t ->
                         (t < length (tasks started_unclosable))%nat).
  { intros t Ht. rewrite Hb in Ht. injection Ht as <-. rewrite Hts. lia. }
  assert (H2 : forall t, _connection_task (rabbitmq started_unclosable) = Some t ->
                         (t < length (tasks started_unclosable))%nat).
  { intros t Ht. rewrite Hc in Ht. injection Ht as <-. rewrite Hts. lia. }
  destruct (shutdown_swallows_a_failed_close started_unclosable H1 H2)
    as (Hres & _ & _ & Hcl & _ & Hconn).
  split; [exact Hres|]. split; [rewrite Hcl|rewrite Hconn]; reflexivity.
Defined.
